(** * Moho: calendar entries, their occurrence arithmetic, the CSV line
      parser and the query layer of [src/index.ts].

    The TypeScript code is a thin layer over the ECMAScript [Date] object,
    so the development has three parts:

    - [JSDate]: the [Date] abstract operations of ECMA-262 (Day,
      YearFromTime, MonthFromTime, DateFromTime, WeekDay, MakeDay, MakeDate,
      TimeClip), the constructor [new Date(y, m, d)], the getters and
      [setDate];
    - [JSString]: the string primitives used by the parser ([split],
      [trim], [includes], [endsWith], [parseInt]);
    - [Moho]: the entry classes, [parseCSVLine] and the query functions.

    Modelling conventions.
    - A JavaScript [number] is an integer [Z]; where the code can meet
      [NaN] (a getter of an invalid [Date], a failed [parseInt]) the type
      is [Num = option Z] and [None] is [NaN].
    - A [Date] is its time value in milliseconds, [None] for Invalid Date.
    - The local time zone is UTC with no daylight saving, so
      [LocalTime(t) = t = UTC(t)].
    - Strings are [string]: sequences of characters with codes below
      256. *)

From Stdlib Require Import ZArith List String Ascii Bool Lia Sorted Permutation.
Import ListNotations.

Open Scope Z_scope.

(* ================================================================== *)
(** * ECMAScript numbers and dates *)
(* ================================================================== *)

Module JSDate.

(** A number that may be [NaN]. *)
Definition Num : Type := option Z.

Definition NaN : Num := None.

Definition num_map (f : Z -> Z) (x : Num) : Num :=
  match x with
  | Some v => Some (f v)
  | None => None
  end.

(** [a === b] on numbers: [NaN] is different from everything. *)
Definition num_eqb (a b : Num) : bool :=
  match a, b with
  | Some x, Some y => x =? y
  | _, _ => false
  end.

(** [a <= b] and [a >= b] on numbers: false as soon as one side is [NaN]. *)
Definition num_leb (a b : Num) : bool :=
  match a, b with
  | Some x, Some y => x <=? y
  | _, _ => false
  end.

Definition num_geb (a b : Num) : bool := num_leb b a.

Definition msPerDay : Z := 86400000.

Definition Day (t : Z) : Z := t / msPerDay.

Definition TimeWithinDay (t : Z) : Z := t mod msPerDay.

Definition DaysInYear (y : Z) : Z :=
  if negb (y mod 4 =? 0) then 365
  else if negb (y mod 100 =? 0) then 366
  else if negb (y mod 400 =? 0) then 365
  else 366.

Definition DayFromYear (y : Z) : Z :=
  365 * (y - 1970) + (y - 1969) / 4 - (y - 1901) / 100 + (y - 1601) / 400.

Definition TimeFromYear (y : Z) : Z := msPerDay * DayFromYear y.

(** ECMA-262 defines [YearFromTime(t)] as the largest [y] with
    [TimeFromYear(y) <= t].  It is computed here from the mean year length
    (146097 days in 400 years), which is off by at most one year, and then
    adjusted; [YearFromTime_spec] and [YearFromTime_unique] below show that
    the result is the year of the standard. *)
Definition YearFromTime (t : Z) : Z :=
  let d := Day t in
  let y0 := 1970 + (400 * d) / 146097 in
  if d <? DayFromYear y0 then y0 - 1
  else if DayFromYear (y0 + 1) <=? d then y0 + 1
  else y0.

(** 1 for a leap year, 0 for a common year. *)
Definition leapOf (y : Z) : Z := if DaysInYear y =? 366 then 1 else 0.

Definition InLeapYear (t : Z) : Z := leapOf (YearFromTime t).

Definition DayWithinYear (t : Z) : Z := Day t - DayFromYear (YearFromTime t).

(** Number of days of the year before month [m] (0 = January), for a year
    with leap indicator [leap] (0 or 1). *)
Definition daysBeforeMonth (leap m : Z) : Z :=
  match m with
  | 0 => 0
  | 1 => 31
  | 2 => 59 + leap
  | 3 => 90 + leap
  | 4 => 120 + leap
  | 5 => 151 + leap
  | 6 => 181 + leap
  | 7 => 212 + leap
  | 8 => 243 + leap
  | 9 => 273 + leap
  | 10 => 304 + leap
  | _ => 334 + leap
  end.

(** The month table of ECMA-262: the month (0 = January) that holds day
    [d] of a year with leap indicator [leap]. *)
Definition monthOfYearDay (leap d : Z) : Z :=
  if d <? 31 then 0
  else if d <? 59 + leap then 1
  else if d <? 90 + leap then 2
  else if d <? 120 + leap then 3
  else if d <? 151 + leap then 4
  else if d <? 181 + leap then 5
  else if d <? 212 + leap then 6
  else if d <? 243 + leap then 7
  else if d <? 273 + leap then 8
  else if d <? 304 + leap then 9
  else if d <? 334 + leap then 10
  else 11.

Definition MonthFromTime (t : Z) : Z :=
  monthOfYearDay (InLeapYear t) (DayWithinYear t).

Definition DateFromTime (t : Z) : Z :=
  DayWithinYear t - daysBeforeMonth (InLeapYear t) (MonthFromTime t) + 1.

Definition WeekDay (t : Z) : Z := (Day t + 4) mod 7.

(** [MakeDay(year, month, date)]: the day number of the first of the month
    [(ym, mn)], plus [date - 1]. *)
Definition MakeDay (year month date : Z) : Z :=
  let ym := year + month / 12 in
  let mn := month mod 12 in
  DayFromYear ym + daysBeforeMonth (leapOf ym) mn + date - 1.

Definition MakeDate (day time : Z) : Z := day * msPerDay + time.

Definition maxTime : Z := 8640000000000000.

Definition TimeClip (t : Z) : Num :=
  if Z.abs t <=? maxTime then Some t else NaN.

(** The [Date] object: its time value, [NaN] for Invalid Date. *)
Record Date : Type := mkDate { getTime : Num }.

Definition InvalidDate : Date := mkDate NaN.

(** The year rule of the [Date] constructor: 0 to 99 mean 1900 to 1999. *)
Definition fullYear (y : Z) : Z :=
  if (0 <=? y) && (y <=? 99) then 1900 + y else y.

(** [new Date(year, month, date)]; hours, minutes, seconds and
    milliseconds are 0. *)
Definition newDate (year month date : Num) : Date :=
  match year, month, date with
  | Some y, Some m, Some dt =>
      mkDate (TimeClip (MakeDate (MakeDay (fullYear y) m dt) 0))
  | _, _, _ => InvalidDate
  end.

Definition getFullYear (d : Date) : Num := num_map YearFromTime (getTime d).
Definition getMonth (d : Date) : Num := num_map MonthFromTime (getTime d).
Definition getDate (d : Date) : Num := num_map DateFromTime (getTime d).
Definition getDay (d : Date) : Num := num_map WeekDay (getTime d).

(** [d.setDate(dt)], returning the updated object. *)
Definition setDate (d : Date) (dt : Num) : Date :=
  match getTime d, dt with
  | Some t, Some n =>
      mkDate (TimeClip
        (MakeDate (MakeDay (YearFromTime t) (MonthFromTime t) n)
                  (TimeWithinDay t)))
  | _, _ => InvalidDate
  end.

(** [d.setMonth(m)], returning the updated object. *)
Definition setMonth (d : Date) (m : Num) : Date :=
  match getTime d, m with
  | Some t, Some mo =>
      mkDate (TimeClip
        (MakeDate (MakeDay (YearFromTime t) mo (DateFromTime t))
                  (TimeWithinDay t)))
  | _, _ => InvalidDate
  end.

(** [d.setFullYear(y)], returning the updated object; an invalid date
    counts as time 0. *)
Definition setFullYear (d : Date) (y : Num) : Date :=
  let t := match getTime d with Some t => t | None => 0 end in
  match y with
  | Some yr =>
      mkDate (TimeClip
        (MakeDate (MakeDay yr (MonthFromTime t) (DateFromTime t))
                  (TimeWithinDay t)))
  | None => InvalidDate
  end.

(** Relational operators on [Date] objects compare the time values. *)
Definition date_leb (a b : Date) : bool := num_leb (getTime a) (getTime b).
Definition date_geb (a b : Date) : bool := num_geb (getTime a) (getTime b).

(** Length of month [m] (1 = January) for leap indicator [leap], and in
    year [y]. *)
Definition monthLength (leap m : Z) : Z :=
  match m with
  | 2 => 28 + leap
  | 4 | 6 | 9 | 11 => 30
  | _ => 31
  end.

Definition DaysInMonth (y m : Z) : Z := monthLength (leapOf y) m.

End JSDate.

(* ================================================================== *)
(** * String primitives *)
(* ================================================================== *)

Module JSString.

Definition code (c : ascii) : Z := Z.of_nat (nat_of_ascii c).

(** The white space and line terminator characters below 256: TAB, LF, VT,
    FF, CR, SP and NBSP. *)
Definition isWhiteSpace (c : ascii) : bool :=
  ((9 <=? code c) && (code c <=? 13)) || (code c =? 32) || (code c =? 160).

(** The class [\d] of regular expressions, also the digits of radix 10. *)
Definition isDigit (c : ascii) : bool :=
  (48 <=? code c) && (code c <=? 57).

Definition digitValue (c : ascii) : Z := code c - 48.

Definition isEmpty (s : string) : bool :=
  match s with
  | EmptyString => true
  | String _ _ => false
  end.

(** [s.split(sep)] for a separator of one character: never empty. *)
Fixpoint split (sep : ascii) (s : string) : list string :=
  match s with
  | EmptyString => [EmptyString]
  | String c rest =>
      if Ascii.eqb c sep then EmptyString :: split sep rest
      else match split sep rest with
           | [] => [String c EmptyString]
           | part :: parts => String c part :: parts
           end
  end.

Fixpoint trimStart (s : string) : string :=
  match s with
  | EmptyString => EmptyString
  | String c rest => if isWhiteSpace c then trimStart rest else s
  end.

Fixpoint trimEnd (s : string) : string :=
  match s with
  | EmptyString => EmptyString
  | String c rest =>
      let rest' := trimEnd rest in
      if isWhiteSpace c && isEmpty rest' then EmptyString
      else String c rest'
  end.

Definition trim (s : string) : string := trimEnd (trimStart s).

Fixpoint startsWith (p s : string) : bool :=
  match p, s with
  | EmptyString, _ => true
  | String a p', String b s' => Ascii.eqb a b && startsWith p' s'
  | String _ _, EmptyString => false
  end.

(** [s.includes(sub)]. *)
Fixpoint includes (sub s : string) : bool :=
  startsWith sub s ||
  match s with
  | EmptyString => false
  | String _ rest => includes sub rest
  end.

(** [s.endsWith(suffix)]. *)
Fixpoint endsWith (suffix s : string) : bool :=
  String.eqb s suffix ||
  match s with
  | EmptyString => false
  | String _ rest => endsWith suffix rest
  end.

(** The value of the longest prefix of decimal digits, from accumulator
    [acc]. *)
Fixpoint digitsValue (acc : Z) (s : string) : Z :=
  match s with
  | String c rest =>
      if isDigit c then digitsValue (acc * 10 + digitValue c) rest else acc
  | EmptyString => acc
  end.

Definition startsWithDigit (s : string) : bool :=
  match s with
  | String c _ => isDigit c
  | EmptyString => false
  end.

(** [parseInt(s, 10)]: leading white space is skipped, one sign is
    accepted, then the longest run of digits is read and whatever follows
    is ignored; [NaN] when there is no digit at that point. The digits are
    read as the exact integer, which is the number the code holds for
    values up to 2^53; beyond that the code has the nearest double. *)
Definition parseInt (s : string) : JSDate.Num :=
  let s1 := trimStart s in
  let '(sign, s2) :=
    match s1 with
    | String "-"%char rest => (-1, rest)
    | String "+"%char rest => (1, rest)
    | _ => (1, s1)
    end in
  if startsWithDigit s2 then Some (sign * digitsValue 0 s2) else JSDate.NaN.

Definition isNaN (x : JSDate.Num) : bool :=
  match x with
  | None => true
  | Some _ => false
  end.

End JSString.

(* ================================================================== *)
(** * The entries, the parser and the queries of [src/index.ts] *)
(* ================================================================== *)

Module Moho.

Import JSDate JSString.

(** ** Entry classes

    The three subclasses of the abstract class [Entry]; [source] is the
    optional constructor argument. *)
Inductive Entry : Type :=
| ExactDateEntry (name : string) (month day : Z) (source : option string)
| ExactDateWithYearEntry (name : string) (month day year : Z)
    (source : option string)
| RelativeDateEntry (name : string) (occurrence dayOfWeek month : Z)
    (source : option string).

Definition name (e : Entry) : string :=
  match e with
  | ExactDateEntry n _ _ _ => n
  | ExactDateWithYearEntry n _ _ _ _ => n
  | RelativeDateEntry n _ _ _ _ => n
  end.

(** [ExactDateEntry.getNextOccurrence] and
    [ExactDateWithYearEntry.getNextOccurrence] have the same body. *)
Definition nextMonthDay (month day : Z) (fromDate : Date) : Date :=
  let year := getFullYear fromDate in
  let nextDate := newDate year (Some (month - 1)) (Some day) in
  if date_leb nextDate fromDate
  then newDate (num_map (fun y => y + 1) year) (Some (month - 1)) (Some day)
  else nextDate.

(** [RelativeDateEntry.getNthWeekdayOfMonth]; [None] is [null].  The
    operator [%] is the remainder with the sign of the dividend. *)
Definition getNthWeekdayOfMonth (year : Num) (month dayOfWeek occurrence : Z)
  : option Date :=
  let firstDay := newDate year (Some (month - 1)) (Some 1) in
  let firstDayOfWeek := getDay firstDay in
  let daysToAdd :=
    num_map (fun f => Z.rem (dayOfWeek - f + 7) 7) firstDayOfWeek in
  let daysToAdd := num_map (fun k => k + (occurrence - 1) * 7) daysToAdd in
  let targetDate :=
    newDate year (Some (month - 1)) (num_map (fun k => 1 + k) daysToAdd) in
  if negb (num_eqb (getMonth targetDate) (Some (month - 1))) then None
  else Some targetDate.

(** The fallback date of [RelativeDateEntry.getNextOccurrence]. *)
Definition farFuture : Date := newDate (Some 9999) (Some 11) (Some 31).

Definition nextRelative (occurrence dayOfWeek month : Z) (fromDate : Date)
  : Date :=
  let year := getFullYear fromDate in
  let date := getNthWeekdayOfMonth year month dayOfWeek occurrence in
  let retry :=
    match date with
    | None => true
    | Some d => date_leb d fromDate
    end in
  let date :=
    if retry
    then getNthWeekdayOfMonth (num_map (fun y => y + 1) year)
           month dayOfWeek occurrence
    else date in
  match date with
  | Some d => d
  | None => farFuture
  end.

Definition getNextOccurrence (e : Entry) (fromDate : Date) : Date :=
  match e with
  | ExactDateEntry _ month day _ => nextMonthDay month day fromDate
  | ExactDateWithYearEntry _ month day _ _ => nextMonthDay month day fromDate
  | RelativeDateEntry _ occurrence dayOfWeek month _ =>
      nextRelative occurrence dayOfWeek month fromDate
  end.

Definition occursOn (e : Entry) (date : Date) : bool :=
  match e with
  | ExactDateEntry _ month day _ =>
      num_eqb (getMonth date) (Some (month - 1))
      && num_eqb (getDate date) (Some day)
  | ExactDateWithYearEntry _ month day year _ =>
      num_eqb (getFullYear date) (Some year)
      && num_eqb (getMonth date) (Some (month - 1))
      && num_eqb (getDate date) (Some day)
  | RelativeDateEntry _ occurrence dayOfWeek month _ =>
      if negb (num_eqb (getMonth date) (Some (month - 1))) then false
      else if negb (num_eqb (getDay date) (Some dayOfWeek)) then false
      else
        let firstDay :=
          newDate (getFullYear date) (Some (month - 1)) (Some 1) in
        let firstDayOfWeek := getDay firstDay in
        let daysToAdd :=
          num_map (fun f => Z.rem (dayOfWeek - f + 7) 7) firstDayOfWeek in
        let expectedDay :=
          num_map (fun k => 1 + k + (occurrence - 1) * 7) daysToAdd in
        num_eqb (getDate date) expectedDay
  end.

(** [ExactDateWithYearEntry.getAnniversary] and [getYearsSince], on the
    fields of the entry. *)
Definition getAnniversary (month day : Z) (year : Z) : Date :=
  newDate (Some year) (Some (month - 1)) (Some day).

Definition getYearsSince (entryYear : Z) (date : Date) : Num :=
  num_map (fun y => y - entryYear) (getFullYear date).

(** ** Parsing *)

Definition DAYS_OF_WEEK : list string :=
  ["Sunday"; "Monday"; "Tuesday"; "Wednesday"; "Thursday"; "Friday";
   "Saturday"]%string.

Definition MONTHS : list string :=
  ["Jan"; "Feb"; "Mar"; "Apr"; "May"; "Jun"; "Jul"; "Aug"; "Sep"; "Oct";
   "Nov"; "Dec"]%string.

(** The errors thrown by [parseRelativeDate], by message. *)
Inductive ParseError : Type :=
| InvalidRelativeDateFormat
| InvalidDayOfWeek
| InvalidMonth.

Record RelativeDate : Type := mkRelativeDate {
  rd_occurrence : Z;
  rd_dayOfWeek : Z;
  rd_month : Z
}.

(** The two search loops: the index [i], counted from [i0], of the first
    name that passes [test]; -1 when the loop ends without a [break]. *)
Fixpoint firstIndex (test : string -> bool) (names : list string) (i0 : Z)
  : Z :=
  match names with
  | [] => -1
  | n :: rest =>
      if negb (isEmpty n) && test n then i0 else firstIndex test rest (i0 + 1)
  end.

Definition parseRelativeDate (dateStr : string)
  : ParseError + RelativeDate :=
  match dateStr with
  | String c _ =>
      if isDigit c then
        let occurrence := digitValue c in
        let dayOfWeek :=
          firstIndex (fun n => includes n dateStr) DAYS_OF_WEEK 0 in
        if dayOfWeek =? -1 then inl InvalidDayOfWeek
        else
          let i := firstIndex (fun n => endsWith n dateStr) MONTHS 0 in
          let month := if i =? -1 then -1 else i + 1 in
          if month =? -1 then inl InvalidMonth
          else inr (mkRelativeDate occurrence dayOfWeek month)
      else inl InvalidRelativeDateFormat
  | EmptyString => inl InvalidRelativeDateFormat
  end.

(** [parseCSVLine]; [None] is [null]. *)
Definition parseCSVLine (line : string) (source : option string)
  : option Entry :=
  let parts := split "," line in
  match parts with
  | part0 :: part1 :: more =>
      let name := trim part0 in
      let dateStr := trim part1 in
      if isEmpty name || isEmpty dateStr then None
      else if includes "/" dateStr then
        match split "/" dateStr with
        | monthStr :: dayStr :: _ =>
            if isEmpty monthStr || isEmpty dayStr then None
            else
              match parseInt monthStr, parseInt dayStr with
              | Some month, Some day =>
                  let annual := Some (ExactDateEntry name month day source) in
                  match more with
                  | part2 :: _ =>
                      let yearStr := trim part2 in
                      if isEmpty yearStr then annual
                      else
                        match parseInt yearStr with
                        | Some year =>
                            Some (ExactDateWithYearEntry name month day year
                                    source)
                        | None => annual
                        end
                  | [] => annual
                  end
              | _, _ => None
              end
        | _ => None
        end
      else
        match parseRelativeDate dateStr with
        | inr r =>
            Some (RelativeDateEntry name (rd_occurrence r) (rd_dayOfWeek r)
                    (rd_month r) source)
        | inl _ => None
        end
  | _ => None
  end.

(** ** Queries *)

(** The objects [{ entry, date }] returned by the window queries. *)
Record Occurrence : Type := mkOccurrence {
  entry : Entry;
  date : Date
}.

Definition num_sub (a b : Num) : Num :=
  match a, b with
  | Some x, Some y => Some (x - y)
  | _, _ => NaN
  end.

(** [Array.prototype.sort] with a comparison function: a stable sort in
    which [x] stays before [y] unless [cmp x y > 0]; a [NaN] result
    counts as 0. *)
Section Sort.
Context {A : Type} (cmp : A -> A -> Num).

Definition sortsAfter (x y : A) : bool :=
  match cmp x y with
  | Some v => 0 <? v
  | None => false
  end.

Fixpoint insertSorted (x : A) (l : list A) : list A :=
  match l with
  | [] => [x]
  | y :: rest =>
      if sortsAfter x y then y :: insertSorted x rest else x :: l
  end.

Definition sort (l : list A) : list A := fold_right insertSorted [] l.
End Sort.

Definition byDate (a b : Occurrence) : Num :=
  num_sub (getTime (date a)) (getTime (date b)).

Definition getEntriesInNextDays (entries : list Entry) (days : Z)
  (fromDate : Date) : list Occurrence :=
  let endDate := mkDate (getTime fromDate) in
  let endDate := setDate endDate (num_map (fun d => d + days) (getDate endDate)) in
  sort byDate
    (filter (fun o => date_geb (date o) fromDate && date_leb (date o) endDate)
       (map (fun e => mkOccurrence e (getNextOccurrence e fromDate)) entries)).

Definition getEntriesInNextWeeks (entries : list Entry) (weeks : Z)
  (fromDate : Date) : list Occurrence :=
  getEntriesInNextDays entries (weeks * 7) fromDate.

Definition getEntriesOnDate (entries : list Entry) (d : Date) : list Entry :=
  filter (fun e => occursOn e d) entries.

Definition getEntriesOnMonthDay (entries : list Entry) (month day : Z)
  : list Entry :=
  filter (fun e =>
            match e with
            | ExactDateEntry _ m d _ => (m =? month) && (d =? day)
            | ExactDateWithYearEntry _ m d _ _ => (m =? month) && (d =? day)
            | RelativeDateEntry _ _ _ _ _ => false
            end) entries.

(** ** Vocabulary of the specification *)

(** The field ranges of the data model: month 1..12 and day 1..31 for the
    two fixed-date variants; occurrence 1..5, weekday 0..6 and month 1..12
    for the relative variant. *)
Definition wellFormed (e : Entry) : Prop :=
  match e with
  | ExactDateEntry _ month day _ => 1 <= month <= 12 /\ 1 <= day <= 31
  | ExactDateWithYearEntry _ month day _ _ =>
      1 <= month <= 12 /\ 1 <= day <= 31
  | RelativeDateEntry _ occurrence dayOfWeek month _ =>
      1 <= occurrence <= 5 /\ 0 <= dayOfWeek <= 6 /\ 1 <= month <= 12
  end.

(** The calendar year, month (1 = January) and day of the month of a
    date. *)
Definition yearOf (d : Date) : Num := getFullYear d.
Definition monthOf (d : Date) : Num := num_map (fun m => m + 1) (getMonth d).
Definition dayOf (d : Date) : Num := getDate d.

(** [a] is not after [b], both being valid dates. *)
Definition dateLe (a b : Date) : Prop :=
  exists x y, getTime a = Some x /\ getTime b = Some y /\ x <= y.

(** [d] lies in the window that starts at [fromDate] and ends [days] days
    later, both ends included. *)
Definition inWindow (fromDate : Date) (days : Z) (d : Date) : Prop :=
  exists f t,
    getTime fromDate = Some f /\ getTime d = Some t
    /\ f <= t <= f + days * msPerDay.

Definition isRelative (e : Entry) : bool :=
  match e with
  | RelativeDateEntry _ _ _ _ _ => true
  | _ => false
  end.

(** A fixed-date entry whose stored month and day are [month] and [day]. *)
Inductive fixedOn (month day : Z) : Entry -> Prop :=
| fixedOn_annual name source :
    fixedOn month day (ExactDateEntry name month day source)
| fixedOn_dated name year source :
    fixedOn month day (ExactDateWithYearEntry name month day year source).

(** A string that, after leading white space and one optional sign,
    begins with a decimal digit. *)
Definition hasIntegerPrefix (s : string) : bool :=
  match trimStart s with
  | String c rest =>
      if Ascii.eqb c "-" || Ascii.eqb c "+" then startsWithDigit rest
      else isDigit c
  | EmptyString => false
  end.

(** The order of the results of a window query, and the results with a
    valid date. *)
Definition occLe (a b : Occurrence) : Prop := dateLe (date a) (date b).

Definition validOcc (o : Occurrence) : Prop :=
  exists t, getTime (date o) = Some t.

(** What [getEntriesInNextDays] keeps before sorting. *)
Definition kept (entries : list Entry) (days : Z) (fromDate : Date)
  : list Occurrence :=
  let endDate :=
    setDate (mkDate (getTime fromDate))
      (num_map (fun d => d + days) (getDate (mkDate (getTime fromDate)))) in
  filter (fun o => date_geb (date o) fromDate && date_leb (date o) endDate)
    (map (fun e => mkOccurrence e (getNextOccurrence e fromDate)) entries).

(** The years in which every month/day of the data model, in the year
    itself and in the next one, is a date the [Date] object can hold. *)
Definition minYear : Z := -271820.
Definition maxYear : Z := 275758.

(** [d] is a valid date of a year between [lo] and [hi]. *)
Definition inYears (lo hi : Z) (d : Date) : Prop :=
  exists y, yearOf d = Some y /\ lo <= y <= hi.

(** ** The remaining methods and queries *)

Definition source (e : Entry) : option string :=
  match e with
  | ExactDateEntry _ _ _ s => s
  | ExactDateWithYearEntry _ _ _ _ s => s
  | RelativeDateEntry _ _ _ _ s => s
  end.

(** The values of [year] in the loop
    [for (let year = startYear; year <= endYear; year++)]; the test fails
    at once when one of the bounds is [NaN]. *)
Definition yearLoop (startYear endYear : Num) : list Z :=
  match startYear, endYear with
  | Some a, Some b =>
      map (fun i => a + Z.of_nat i) (seq 0 (Z.to_nat (b - a + 1)))
  | _, _ => []
  end.

Definition inRange (startDate endDate occurrence : Date) : bool :=
  date_geb occurrence startDate && date_leb occurrence endDate.

(** [ExactDateEntry.getOccurrencesInRange]. *)
Definition annualOccurrencesInRange (month day : Z)
  (startDate endDate : Date) : list Date :=
  filter (inRange startDate endDate)
    (map (fun year => newDate (Some year) (Some (month - 1)) (Some day))
       (yearLoop (getFullYear startDate) (getFullYear endDate))).

(** [ExactDateWithYearEntry.getOccurrencesInRange]. *)
Definition datedOccurrencesInRange (month day year : Z)
  (startDate endDate : Date) : list Date :=
  let eventDate := newDate (Some year) (Some (month - 1)) (Some day) in
  if inRange startDate endDate eventDate then [eventDate] else [].

(** [RelativeDateEntry.getOccurrencesInRange]: a [null] occurrence is
    skipped. *)
Definition relativeOccurrencesInRange (occurrence dayOfWeek month : Z)
  (startDate endDate : Date) : list Date :=
  flat_map
    (fun year =>
       match getNthWeekdayOfMonth (Some year) month dayOfWeek occurrence with
       | Some d => if inRange startDate endDate d then [d] else []
       | None => []
       end)
    (yearLoop (getFullYear startDate) (getFullYear endDate)).

Definition getOccurrencesInRange (e : Entry) (startDate endDate : Date)
  : list Date :=
  match e with
  | ExactDateEntry _ month day _ =>
      annualOccurrencesInRange month day startDate endDate
  | ExactDateWithYearEntry _ month day year _ =>
      datedOccurrencesInRange month day year startDate endDate
  | RelativeDateEntry _ occurrence dayOfWeek month _ =>
      relativeOccurrencesInRange occurrence dayOfWeek month startDate endDate
  end.

Definition getEntriesInNextMonths (entries : list Entry) (months : Z)
  (fromDate : Date) : list Occurrence :=
  let endDate := mkDate (getTime fromDate) in
  let endDate :=
    setMonth endDate (num_map (fun m => m + months) (getMonth endDate)) in
  sort byDate
    (filter (fun o => date_geb (date o) fromDate && date_leb (date o) endDate)
       (map (fun e => mkOccurrence e (getNextOccurrence e fromDate)) entries)).

Definition getEntriesInNextYears (entries : list Entry) (years : Z)
  (fromDate : Date) : list Occurrence :=
  let endDate := mkDate (getTime fromDate) in
  let endDate :=
    setFullYear endDate
      (num_map (fun y => y + years) (getFullYear endDate)) in
  sort byDate
    (filter (fun o => date_geb (date o) fromDate && date_leb (date o) endDate)
       (map (fun e => mkOccurrence e (getNextOccurrence e fromDate)) entries)).

(** The constructors that [getEntriesByType] can be given: the three
    concrete subclasses of [Entry], none of which extends another. *)
Inductive EntryClass : Type :=
| EntryClass_ExactDate
| EntryClass_ExactDateWithYear
| EntryClass_RelativeDate.

(** [entry instanceof type]. *)
Definition instanceOf (e : Entry) (c : EntryClass) : bool :=
  match c, e with
  | EntryClass_ExactDate, ExactDateEntry _ _ _ _ => true
  | EntryClass_ExactDateWithYear, ExactDateWithYearEntry _ _ _ _ _ => true
  | EntryClass_RelativeDate, RelativeDateEntry _ _ _ _ _ => true
  | _, _ => false
  end.

Definition getEntriesByType (entries : list Entry) (type : EntryClass)
  : list Entry :=
  filter (fun e => instanceOf e type) entries.

Definition newline : ascii := ascii_of_nat 10.

(** [getEntries], from the content [data] that [readFileSync] returns for
    the file and the path [relative] computed from the two arguments: the
    lines that are not blank are parsed, and the lines that do not parse
    are dropped. *)
Definition getEntries (data relative : string) : list Entry :=
  let lines :=
    filter (fun line => negb (isEmpty (trim line))) (split newline data) in
  flat_map
    (fun line =>
       match parseCSVLine line (Some relative) with
       | Some parsed => [parsed]
       | None => []
       end)
    lines.

(** A valid date with no time of day, as the constructor builds it from
    a year, a month and a day. *)
Definition atMidnight (d : Date) : Prop :=
  exists t, getTime d = Some t /\ TimeWithinDay t = 0.

(** The entries for which every occurrence the code builds is a day of
    the calendar: a fixed month/day that exists in every year (and, for a
    dated entry, a stored year the constructor takes as it is), or a
    relative rule with occurrence 1..5 and weekday 0..6. *)
Definition regular (e : Entry) : Prop :=
  match e with
  | ExactDateEntry _ month day _ =>
      1 <= month <= 12 /\ 1 <= day <= monthLength 0 month
  | ExactDateWithYearEntry _ month day year _ =>
      1 <= month <= 12 /\ 1 <= day <= monthLength 0 month
      /\ (year < 0 \/ 100 <= year)
  | RelativeDateEntry _ occurrence dayOfWeek _ _ =>
      1 <= occurrence <= 5 /\ 0 <= dayOfWeek <= 6
  end.

(** What [parseCSVLine] reads as the year from the fields that follow the
    second one: the integer at the start of the first of them, if there is
    one. *)
Definition yearField (more : list string) : Num :=
  match more with
  | part2 :: _ => parseInt (trim part2)
  | [] => NaN
  end.

(** A fixed-date entry with the year [y] in place of its own, the annual
    entry when [y] is [NaN]; a relative entry has no year. *)
Definition withYear (e : Entry) (y : Num) : Entry :=
  match e, y with
  | ExactDateEntry n month day s, Some year =>
      ExactDateWithYearEntry n month day year s
  | ExactDateWithYearEntry n month day _ s, Some year =>
      ExactDateWithYearEntry n month day year s
  | ExactDateWithYearEntry n month day _ s, None =>
      ExactDateEntry n month day s
  | _, _ => e
  end.

(** A valid date within the range of time values of a [Date] object. *)
Definition inDateRange (d : Date) : Prop :=
  exists t, getTime d = Some t /\ Z.abs t <= maxTime.

(** [a] is before [b], both being valid dates. *)
Definition dateLt (a b : Date) : Prop :=
  exists x y, getTime a = Some x /\ getTime b = Some y /\ x < y.

End Moho.

(* ================================================================== *)
(** * Properties of the calendar functions *)
(* ================================================================== *)

Module JSDateFacts.

Import JSDate.

Lemma msPerDay_pos : 0 < msPerDay.
Proof. reflexivity. Qed.

Lemma DayFromYear_succ (y : Z) :
  DayFromYear (y + 1) = DayFromYear y + DaysInYear y.
Proof.
  unfold DayFromYear, DaysInYear.
  replace (y + 1 - 1969) with (y - 1969 + 1) by lia.
  replace (y + 1 - 1901) with (y - 1901 + 1) by lia.
  replace (y + 1 - 1601) with (y - 1601 + 1) by lia.
  destruct (y mod 4 =? 0) eqn:H4; destruct (y mod 100 =? 0) eqn:H100;
    destruct (y mod 400 =? 0) eqn:H400; cbn [negb];
    rewrite ?Z.eqb_eq, ?Z.eqb_neq in *;
    Z.div_mod_to_equations; lia.
Qed.

Lemma DaysInYear_range (y : Z) : 365 <= DaysInYear y <= 366.
Proof.
  unfold DaysInYear.
  destruct (negb (y mod 4 =? 0)), (negb (y mod 100 =? 0)),
    (negb (y mod 400 =? 0)); lia.
Qed.

Lemma YearFromTime_spec (t : Z) :
  DayFromYear (YearFromTime t) <= Day t < DayFromYear (YearFromTime t + 1).
Proof.
  unfold YearFromTime.
  set (d := Day t). set (y0 := 1970 + 400 * d / 146097).
  assert (Hlo : DayFromYear (y0 - 1) <= d).
  { unfold DayFromYear, y0. Z.div_mod_to_equations. lia. }
  assert (Hhi : d < DayFromYear (y0 + 1 + 1)).
  { unfold DayFromYear, y0. Z.div_mod_to_equations. lia. }
  destruct (d <? DayFromYear y0) eqn:E1.
  - apply Z.ltb_lt in E1. replace (y0 - 1 + 1) with y0 by lia. lia.
  - apply Z.ltb_ge in E1.
    destruct (DayFromYear (y0 + 1) <=? d) eqn:E2.
    + apply Z.leb_le in E2. lia.
    + apply Z.leb_gt in E2. lia.
Qed.

Lemma DayFromYear_mono (y1 y2 : Z) :
  y1 <= y2 -> DayFromYear y1 <= DayFromYear y2.
Proof.
  intros H. unfold DayFromYear. Z.div_mod_to_equations. lia.
Qed.

Lemma DayFromYear_lt (y1 y2 : Z) :
  y1 < y2 -> DayFromYear y1 < DayFromYear y2.
Proof.
  intros H.
  pose proof (DayFromYear_mono (y1 + 1) y2 ltac:(lia)) as Hm.
  rewrite DayFromYear_succ in Hm.
  pose proof (DaysInYear_range y1). lia.
Qed.

(** The year of the standard is unique, hence it is [YearFromTime]. *)
Lemma YearFromTime_unique (t y : Z) :
  DayFromYear y <= Day t < DayFromYear (y + 1) -> YearFromTime t = y.
Proof.
  intros [Hlo Hhi].
  pose proof (YearFromTime_spec t) as [Slo Shi].
  destruct (Z.lt_trichotomy (YearFromTime t) y) as [Hlt | [Heq | Hgt]].
  - pose proof (DayFromYear_mono (YearFromTime t + 1) y ltac:(lia)). lia.
  - exact Heq.
  - pose proof (DayFromYear_mono (y + 1) (YearFromTime t) ltac:(lia)). lia.
Qed.

Lemma Day_MakeDate (d tod : Z) :
  0 <= tod < msPerDay -> Day (MakeDate d tod) = d.
Proof.
  intros H. unfold Day, MakeDate.
  rewrite Z.add_comm, Z.div_add by (unfold msPerDay; lia).
  rewrite Z.div_small by exact H. reflexivity.
Qed.

Lemma Day_le (a b : Z) : a <= b -> Day a <= Day b.
Proof.
  intros H. unfold Day. apply Z.div_le_mono; [reflexivity | exact H].
Qed.

(** A time whose day number is below [d] lies before midnight of day [d]. *)
Lemma Day_lt_MakeDate (t d : Z) : Day t < d -> t < MakeDate d 0.
Proof.
  unfold Day, MakeDate, msPerDay. intros H.
  Z.div_mod_to_equations. lia.
Qed.

Lemma DayWithinYear_range (t : Z) :
  0 <= DayWithinYear t < DaysInYear (YearFromTime t).
Proof.
  unfold DayWithinYear.
  pose proof (YearFromTime_spec t) as [Slo Shi].
  rewrite DayFromYear_succ in Shi. lia.
Qed.

Lemma leapOf_range (y : Z) : 0 <= leapOf y <= 1.
Proof. unfold leapOf. destruct (DaysInYear y =? 366); lia. Qed.

Lemma DaysInYear_leapOf (y : Z) : DaysInYear y = 365 + leapOf y.
Proof.
  unfold leapOf. pose proof (DaysInYear_range y).
  destruct (DaysInYear y =? 366) eqn:E;
    [apply Z.eqb_eq in E | apply Z.eqb_neq in E]; lia.
Qed.

Ltac split_ltb :=
  repeat match goal with
         | |- context [if ?a <? ?b then _ else _] =>
             destruct (Z.ltb_spec a b); try lia
         end.

Ltac month_cases m :=
  let Hc := fresh "Hc" in
  assert (Hc : m = 0 \/ m = 1 \/ m = 2 \/ m = 3 \/ m = 4 \/ m = 5 \/ m = 6
               \/ m = 7 \/ m = 8 \/ m = 9 \/ m = 10 \/ m = 11) by lia;
  repeat (destruct Hc as [Hc | Hc]; [subst m | ]); [ .. | subst m].

Ltac eval_tables :=
  repeat match goal with
         | |- context [daysBeforeMonth ?l ?m] =>
             let v := eval vm_compute in (daysBeforeMonth l m) in
             change (daysBeforeMonth l m) with v
         | |- context [monthLength ?l ?m] =>
             let v := eval vm_compute in (monthLength l m) in
             change (monthLength l m) with v
         | H : context [monthLength ?l ?m] |- _ =>
             let v := eval vm_compute in (monthLength l m) in
             change (monthLength l m) with v in H
         end.

Lemma monthOfYearDay_range (leap d : Z) : 0 <= monthOfYearDay leap d <= 11.
Proof. unfold monthOfYearDay. split_ltb. Qed.

Lemma MonthFromTime_range (t : Z) : 0 <= MonthFromTime t <= 11.
Proof. apply monthOfYearDay_range. Qed.

(** Day [dt] of month [mn] is day [daysBeforeMonth mn + dt - 1] of the
    year, and the month table sends it back to [mn]. *)
Lemma monthOfYearDay_daysBeforeMonth (leap mn dt : Z) :
  0 <= leap <= 1 ->
  0 <= mn <= 11 ->
  1 <= dt <= monthLength leap (mn + 1) ->
  monthOfYearDay leap (daysBeforeMonth leap mn + dt - 1) = mn
  /\ 0 <= daysBeforeMonth leap mn + dt - 1 < 365 + leap.
Proof.
  intros Hl Hm Hd.
  assert (Hb : leap = 0 \/ leap = 1) by lia.
  destruct Hb; subst leap; month_cases mn;
    eval_tables; unfold monthOfYearDay; (split; [split_ltb | lia]).
Qed.

(** Conversely the day of the month that the tables give is a day of that
    month. *)
Lemma monthOfYearDay_inv (leap d : Z) :
  0 <= leap <= 1 ->
  0 <= d < 365 + leap ->
  let m := monthOfYearDay leap d in
  1 <= d - daysBeforeMonth leap m + 1 <= monthLength leap (m + 1).
Proof.
  intros Hl Hd m. subst m.
  assert (Hb : leap = 0 \/ leap = 1) by lia.
  destruct Hb; subst leap; unfold monthOfYearDay; split_ltb;
    eval_tables; lia.
Qed.

(** The calendar fields of a day built by [MakeDay] from a month index
    [mn] in 0..11 and a day [dt] that exists in that month. *)
Lemma fields_of_MakeDay (y mn dt tod : Z) :
  0 <= mn <= 11 ->
  1 <= dt <= DaysInMonth y (mn + 1) ->
  0 <= tod < msPerDay ->
  let t := MakeDate (MakeDay y mn dt) tod in
  YearFromTime t = y /\ MonthFromTime t = mn /\ DateFromTime t = dt.
Proof.
  intros Hm Hd Htod t.
  assert (HD : Day t = DayFromYear y + daysBeforeMonth (leapOf y) mn + dt - 1).
  { unfold t. rewrite Day_MakeDate by exact Htod.
    unfold MakeDay. rewrite Z.div_small, Z.mod_small by lia.
    rewrite Z.add_0_r. reflexivity. }
  pose proof (leapOf_range y) as Hl.
  destruct (monthOfYearDay_daysBeforeMonth (leapOf y) mn dt Hl Hm Hd)
    as [HM HR].
  assert (HY : YearFromTime t = y).
  { apply YearFromTime_unique.
    rewrite DayFromYear_succ, DaysInYear_leapOf, HD. lia. }
  assert (HW : DayWithinYear t = daysBeforeMonth (leapOf y) mn + dt - 1).
  { unfold DayWithinYear. rewrite HY, HD. lia. }
  assert (HMt : MonthFromTime t = mn).
  { unfold MonthFromTime, InLeapYear. rewrite HY, HW. exact HM. }
  repeat split; [exact HY | exact HMt |].
  unfold DateFromTime, InLeapYear. rewrite HMt, HY, HW. lia.
Qed.

(** Every time value falls on a day that exists in its month. *)
Lemma DateFromTime_range (t : Z) :
  1 <= DateFromTime t <= DaysInMonth (YearFromTime t) (MonthFromTime t + 1).
Proof.
  pose proof (DayWithinYear_range t) as Hw.
  rewrite DaysInYear_leapOf in Hw.
  apply (monthOfYearDay_inv (leapOf (YearFromTime t)) (DayWithinYear t)
           (leapOf_range _) Hw).
Qed.

Lemma daysBeforeMonth_range (leap mn : Z) :
  0 <= leap <= 1 -> 0 <= mn <= 11 ->
  0 <= daysBeforeMonth leap mn <= 334 + leap.
Proof.
  intros Hl Hm.
  month_cases mn; cbv beta iota delta [daysBeforeMonth]; lia.
Qed.

Lemma MakeDay_month (y mn dt : Z) :
  0 <= mn <= 11 ->
  MakeDay y mn dt = DayFromYear y + daysBeforeMonth (leapOf y) mn + dt - 1.
Proof.
  intros Hm. unfold MakeDay.
  rewrite Z.div_small, Z.mod_small by lia.
  rewrite Z.add_0_r. reflexivity.
Qed.

(** A day of month index 0..11 with day number at least 1 is not before
    the first of January of the year. *)
Lemma MakeDay_lower (y mn dt : Z) :
  0 <= mn <= 11 -> 1 <= dt -> DayFromYear y <= MakeDay y mn dt.
Proof.
  intros Hm Hd. rewrite MakeDay_month by exact Hm.
  pose proof (daysBeforeMonth_range (leapOf y) mn (leapOf_range y) Hm). lia.
Qed.

(** With a day number up to 31 it is still in the same year. *)
Lemma MakeDay_upper (y mn dt : Z) :
  0 <= mn <= 11 -> dt <= 31 -> MakeDay y mn dt < DayFromYear (y + 1).
Proof.
  intros Hm Hd. rewrite MakeDay_month by exact Hm.
  rewrite DayFromYear_succ, DaysInYear_leapOf.
  pose proof (daysBeforeMonth_range (leapOf y) mn (leapOf_range y) Hm). lia.
Qed.

Lemma fullYear_ge (y : Z) : y <= fullYear y.
Proof.
  unfold fullYear. destruct ((0 <=? y) && (y <=? 99)); lia.
Qed.

Lemma fullYear_range (y : Z) :
  -271820 <= y <= 275759 -> -271820 <= fullYear y <= 275759.
Proof.
  unfold fullYear. intros H.
  destruct ((0 <=? y) && (y <=? 99)) eqn:E; [| exact H].
  apply andb_true_iff in E. destruct E as [E1 E2].
  apply Z.leb_le in E1, E2. lia.
Qed.

Lemma DayFromYear_bounds (y : Z) :
  -271820 <= y <= 275759 ->
  -100000000 <= DayFromYear y /\ DayFromYear (y + 1) <= 100000000.
Proof.
  intros [Hlo Hhi]. split.
  - apply Z.le_trans with (DayFromYear (-271820)).
    + vm_compute. discriminate.
    + apply DayFromYear_mono. exact Hlo.
  - apply Z.le_trans with (DayFromYear 275760).
    + apply DayFromYear_mono. lia.
    + vm_compute. discriminate.
Qed.

Lemma TimeClip_MakeDate (d : Z) :
  -100000000 <= d <= 100000000 ->
  TimeClip (MakeDate d 0) = Some (MakeDate d 0).
Proof.
  intros H. unfold TimeClip, MakeDate, maxTime, msPerDay.
  destruct (Z.leb_spec (Z.abs (d * 86400000 + 0)) 8640000000000000) as [_ | C];
    [reflexivity | lia].
Qed.

(** In the years [-271820 .. 275759] the constructor yields a valid date
    for every month index 0..11 and day 1..31. *)
Lemma newDate_valid (y mn dt : Z) :
  -271820 <= y <= 275759 -> 0 <= mn <= 11 -> 1 <= dt <= 31 ->
  getTime (newDate (Some y) (Some mn) (Some dt))
  = Some (MakeDate (MakeDay (fullYear y) mn dt) 0).
Proof.
  intros Hy Hm Hd. cbn [newDate getTime].
  apply TimeClip_MakeDate.
  pose proof (fullYear_range y Hy) as Hf.
  pose proof (DayFromYear_bounds (fullYear y) Hf) as [B1 B2].
  pose proof (MakeDay_lower (fullYear y) mn dt Hm ltac:(lia)).
  pose proof (MakeDay_upper (fullYear y) mn dt Hm ltac:(lia)).
  lia.
Qed.

(** Whatever the arguments, a valid result of the constructor is midnight
    of the day [MakeDay] computes. *)
Lemma newDate_time (y m dt : Num) (r : Z) :
  getTime (newDate y m dt) = Some r ->
  exists y0 m0 d0,
    y = Some y0 /\ m = Some m0 /\ dt = Some d0
    /\ r = MakeDate (MakeDay (fullYear y0) m0 d0) 0.
Proof.
  destruct y as [y0 |], m as [m0 |], dt as [d0 |]; cbn; try discriminate.
  unfold TimeClip.
  destruct (Z.abs _ <=? maxTime); [| discriminate].
  intros [= <-]. exists y0, m0, d0. repeat split; reflexivity.
Qed.

(** [setDate] to the current day of the month plus [n] moves the time by
    [n] whole days. *)
Lemma setDate_shift (t n : Z) :
  MakeDate (MakeDay (YearFromTime t) (MonthFromTime t) (DateFromTime t + n))
           (TimeWithinDay t)
  = t + n * msPerDay.
Proof.
  rewrite MakeDay_month by apply MonthFromTime_range.
  unfold DateFromTime, DayWithinYear, InLeapYear, MakeDate, TimeWithinDay, Day.
  pose proof (Z.div_mod t msPerDay ltac:(discriminate)) as E.
  remember (t / msPerDay) as q. remember (t mod msPerDay) as rm.
  remember (DayFromYear (YearFromTime t)) as dy.
  remember (daysBeforeMonth (leapOf (YearFromTime t)) (MonthFromTime t)) as b.
  unfold MonthFromTime, InLeapYear, DayWithinYear, Day in Heqb.
  lia.
Qed.

End JSDateFacts.

(* ================================================================== *)
(** * Properties of the entries, the parser and the queries *)
(* ================================================================== *)

Module MohoFacts.

Import JSDate JSString Moho JSDateFacts.

(** ** Number comparisons *)

Lemma num_eqb_true (a : Num) (v : Z) : num_eqb a (Some v) = true <-> a = Some v.
Proof.
  destruct a as [x |]; cbn.
  - rewrite Z.eqb_eq. split; [intros -> | intros [= ->]]; reflexivity.
  - split; discriminate.
Qed.

Lemma num_leb_true (a b : Num) :
  num_leb a b = true <-> exists x y, a = Some x /\ b = Some y /\ x <= y.
Proof.
  destruct a as [x |], b as [y |]; cbn.
  - rewrite Z.leb_le. split.
    + intros H. exists x, y. auto.
    + intros (x' & y' & [= <-] & [= <-] & H). exact H.
  - split; [discriminate | intros (? & ? & _ & [=] & _)].
  - split; [discriminate | intros (? & ? & [=] & _)].
  - split; [discriminate | intros (? & ? & [=] & _)].
Qed.

(** ** Next occurrence of a month/day *)

Lemma inYears_time (lo hi : Z) (d : Date) :
  inYears lo hi d ->
  exists t, d = mkDate (Some t) /\ lo <= YearFromTime t <= hi.
Proof.
  intros (y & Hy & Hr). destruct d as [[t |]]; cbn in Hy; [| discriminate].
  injection Hy as <-. exists t. split; [reflexivity | exact Hr].
Qed.

(** A time of year [y] lies before every day of month index 0..11 and day
    number at least 1 that the constructor builds for the year [y + 1]. *)
Lemma before_next_year (t mn dt : Z) :
  0 <= mn <= 11 -> 1 <= dt ->
  t < MakeDate (MakeDay (fullYear (YearFromTime t + 1)) mn dt) 0.
Proof.
  intros Hm Hd. apply Day_lt_MakeDate.
  pose proof (YearFromTime_spec t) as [_ Hhi].
  pose proof (DayFromYear_mono _ _ (fullYear_ge (YearFromTime t + 1))).
  pose proof (MakeDay_lower (fullYear (YearFromTime t + 1)) mn dt Hm Hd).
  lia.
Qed.

(** In the years [minYear .. maxYear] the next occurrence of a month/day
    of the data model is the valid date built for the year of [t] or for
    the next one, and it is after [t]. *)
Lemma nextMonthDay_after (m day t : Z) :
  1 <= m <= 12 -> 1 <= day <= 31 ->
  minYear <= YearFromTime t <= maxYear ->
  exists Y,
    getTime (nextMonthDay m day (mkDate (Some t)))
    = Some (MakeDate (MakeDay (fullYear Y) (m - 1) day) 0)
    /\ t < MakeDate (MakeDay (fullYear Y) (m - 1) day) 0.
Proof.
  unfold minYear, maxYear. intros Hm Hd Hy.
  unfold nextMonthDay. cbn [getFullYear getTime num_map].
  unfold date_leb.
  rewrite (newDate_valid (YearFromTime t) (m - 1) day) by lia.
  cbn [getTime num_leb].
  destruct (Z.leb_spec
              (MakeDate (MakeDay (fullYear (YearFromTime t)) (m - 1) day) 0) t)
    as [Hle | Hgt].
  - exists (YearFromTime t + 1). split.
    + apply newDate_valid; lia.
    + apply before_next_year; lia.
  - exists (YearFromTime t). split.
    + apply newDate_valid; lia.
    + exact Hgt.
Qed.

(** The year of a month/day of the data model built by [MakeDay]. *)
Lemma YearFromTime_MakeDay (y mn dt : Z) :
  0 <= mn <= 11 -> 1 <= dt <= 31 ->
  YearFromTime (MakeDate (MakeDay y mn dt) 0) = y.
Proof.
  intros Hm Hd. apply YearFromTime_unique.
  rewrite Day_MakeDate by (unfold msPerDay; lia).
  split; [apply MakeDay_lower | apply MakeDay_upper]; lia.
Qed.

(** For a FixedAnnual entry of the data model (month 1..12, day 1..31)
    and a date of the years [minYear .. maxYear], [getNextOccurrence]
    returns a valid date [r], and [occursOn] holds of it exactly when the
    stored day exists in the stored month in the year of [r]. *)
Lemma annual_next_occursOn_iff (name : string) (m day : Z)
  (source : option string) (fromDate : Date) :
  1 <= m <= 12 -> 1 <= day <= 31 ->
  inYears minYear maxYear fromDate ->
  let e := ExactDateEntry name m day source in
  exists r,
    getTime (getNextOccurrence e fromDate) = Some r
    /\ (occursOn e (getNextOccurrence e fromDate) = true
        <-> day <= DaysInMonth (YearFromTime r) m).
Proof.
  intros Hm Hd Hy e. subst e.
  destruct (inYears_time _ _ _ Hy) as (t & -> & Ht).
  destruct (nextMonthDay_after m day t Hm Hd Ht) as (Y & Hr & _).
  cbn [getNextOccurrence].
  exists (MakeDate (MakeDay (fullYear Y) (m - 1) day) 0).
  split; [exact Hr |].
  destruct (nextMonthDay m day (mkDate (Some t))) as [tv].
  cbn [getTime] in Hr. subst tv.
  unfold occursOn, getMonth, getDate. cbn [getTime num_map].
  rewrite andb_true_iff, !num_eqb_true.
  set (r := MakeDate (MakeDay (fullYear Y) (m - 1) day) 0).
  assert (HY : YearFromTime r = fullYear Y)
    by (apply YearFromTime_MakeDay; lia).
  split.
  - intros [[= HM] [= HD]].
    pose proof (DateFromTime_range r) as HR.
    rewrite HM, HD in HR. replace (m - 1 + 1) with m in HR by lia. lia.
  - intros Hlen. rewrite HY in Hlen.
    destruct (fields_of_MakeDay (fullYear Y) (m - 1) day 0) as (_ & HM & HD).
    + lia.
    + replace (m - 1 + 1) with m by lia. lia.
    + unfold msPerDay. lia.
    + fold r in HM, HD. rewrite HM, HD. split; reflexivity.
Qed.

(** The length of a month is at least its length in a common year, and
    at most 31. *)
Lemma monthLength_bounds (leap m : Z) :
  0 <= leap <= 1 -> 1 <= m <= 12 ->
  monthLength 0 m <= monthLength leap m <= 31.
Proof.
  intros Hl Hm.
  assert (Hc : m = 1 \/ m = 2 \/ m = 3 \/ m = 4 \/ m = 5 \/ m = 6 \/ m = 7
               \/ m = 8 \/ m = 9 \/ m = 10 \/ m = 11 \/ m = 12) by lia.
  repeat (destruct Hc as [Hc | Hc]; [subst m | ]); [ .. | subst m];
    cbv beta iota delta [monthLength]; lia.
Qed.

(** C1, as amended. For a FixedAnnual entry whose month is in 1..12 and
    whose day exists in that month in every year (1..28 for February, 1..30
    for April, June, September and November, 1..31 for the others), and a
    date of the years [minYear .. maxYear], the entry occurs on the date
    that [getNextOccurrence] returns. *)
Theorem annual_next_occurs (name : string) (m day : Z)
  (source : option string) (fromDate : Date) :
  1 <= m <= 12 -> 1 <= day <= monthLength 0 m ->
  inYears minYear maxYear fromDate ->
  occursOn (ExactDateEntry name m day source)
    (getNextOccurrence (ExactDateEntry name m day source) fromDate) = true.
Proof.
  intros Hm Hd Hy.
  pose proof (monthLength_bounds 0 m ltac:(lia) Hm) as H0.
  destruct (annual_next_occursOn_iff name m day source fromDate Hm
              ltac:(lia) Hy) as (r & _ & Hiff).
  apply Hiff. unfold DaysInMonth.
  pose proof (monthLength_bounds (leapOf (YearFromTime r)) m
                (leapOf_range _) Hm).
  lia.
Qed.

Lemma annual_next_occurs_witness :
  1 <= 3 <= 12 /\ 1 <= 14 <= monthLength 0 3
  /\ inYears minYear maxYear (newDate (Some 2026) (Some 2) (Some 14))
  /\ occursOn (ExactDateEntry "Pi Day" 3 14 None)
       (getNextOccurrence (ExactDateEntry "Pi Day" 3 14 None)
          (newDate (Some 2026) (Some 2) (Some 14))) = true.
Proof.
  assert (Hy : inYears minYear maxYear
                 (newDate (Some 2026) (Some 2) (Some 14))).
  { exists 2026. split; [vm_compute; reflexivity |].
    unfold minYear, maxYear. lia. }
  split; [lia |]. split; [cbn; lia |]. split; [exact Hy |].
  apply (annual_next_occurs "Pi Day" 3 14 None
           (newDate (Some 2026) (Some 2) (Some 14)));
    [lia | cbn; lia | exact Hy].
Defined.

(** C1, as stated, fails: from 2026-01-01 the next occurrence of the entry
    of month 2, day 30 is 2026-03-02, and from 2025-01-01 that of the entry
    of month 2, day 29 is 2025-03-01; the entries do not occur on these
    dates. *)
Lemma annual_rolled_over_next_not_occurring :
  getNextOccurrence (ExactDateEntry "Thirtieth" 2 30 None)
    (newDate (Some 2026) (Some 0) (Some 1))
  = newDate (Some 2026) (Some 2) (Some 2)
  /\ occursOn (ExactDateEntry "Thirtieth" 2 30 None)
       (getNextOccurrence (ExactDateEntry "Thirtieth" 2 30 None)
          (newDate (Some 2026) (Some 0) (Some 1))) = false
  /\ getNextOccurrence (ExactDateEntry "Leap Day" 2 29 None)
       (newDate (Some 2025) (Some 0) (Some 1))
     = newDate (Some 2025) (Some 2) (Some 1)
  /\ occursOn (ExactDateEntry "Leap Day" 2 29 None)
       (getNextOccurrence (ExactDateEntry "Leap Day" 2 29 None)
          (newDate (Some 2025) (Some 0) (Some 1))) = false.
Proof. repeat split; vm_compute; reflexivity. Qed.

(** C5, as amended. For a FixedAnnual entry whose month is in 1..12 and
    whose day is in 1..31 (also a day the month does not have, such as
    February 30), and a date of the years [minYear .. maxYear],
    [getNextOccurrence] returns a valid date that is strictly after the
    given one. *)
Theorem annual_next_strictly_after (name : string) (m day : Z)
  (source : option string) (fromDate : Date) :
  1 <= m <= 12 -> 1 <= day <= 31 ->
  inYears minYear maxYear fromDate ->
  exists t r,
    getTime fromDate = Some t
    /\ getTime (getNextOccurrence (ExactDateEntry name m day source) fromDate)
       = Some r
    /\ t < r.
Proof.
  intros Hm Hd Hy.
  destruct (inYears_time _ _ _ Hy) as (t & -> & Ht).
  destruct (nextMonthDay_after m day t Hm Hd Ht) as (Y & Hr & Hlt).
  exists t, (MakeDate (MakeDay (fullYear Y) (m - 1) day) 0).
  repeat split; assumption.
Qed.

Lemma annual_next_strictly_after_witness :
  1 <= 1 <= 12 /\ 1 <= 1 <= 31
  /\ inYears minYear maxYear (newDate (Some 2026) (Some 0) (Some 1))
  /\ exists t r,
       getTime (newDate (Some 2026) (Some 0) (Some 1)) = Some t
       /\ getTime (getNextOccurrence (ExactDateEntry "New Year" 1 1 None)
                     (newDate (Some 2026) (Some 0) (Some 1))) = Some r
       /\ t < r.
Proof.
  assert (Hy : inYears minYear maxYear (newDate (Some 2026) (Some 0) (Some 1))).
  { exists 2026. split; [vm_compute; reflexivity |].
    unfold minYear, maxYear. lia. }
  split; [lia |]. split; [lia |]. split; [exact Hy |].
  apply (annual_next_strictly_after "New Year" 1 1 None
           (newDate (Some 2026) (Some 0) (Some 1))); [lia | lia | exact Hy].
Defined.

(** Outside the data model the order need not be strict: with day 0 the
    constructor steps back to the last day of the previous month, and the
    entry of month 1, day 0 has 2025-12-31 itself as next occurrence from
    2025-12-31. *)
Lemma annual_day_zero_same_date :
  getNextOccurrence (ExactDateEntry "Eve" 1 0 None)
    (newDate (Some 2025) (Some 11) (Some 31))
  = newDate (Some 2025) (Some 11) (Some 31).
Proof. vm_compute. reflexivity. Qed.

(** C5, as stated, fails. The line "Eve,1/0" is parsed into the entry of
    month 1, day 0, whose next occurrence from 2025-12-31 is 2025-12-31
    itself; the entry of month 0, day 15 has 2025-12-15 as next occurrence
    from 2025-12-15. At the two ends of the range of a [Date] the result is
    not a date at all: from 275759-12-31 the entry of December 31 gives an
    invalid date, and so does the entry of January 1 from -271821-12-31.
    In none of these cases is the result strictly after the given date. *)
Lemma annual_next_not_strictly_after :
  parseCSVLine "Eve,1/0" None = Some (ExactDateEntry "Eve" 1 0 None)
  /\ getNextOccurrence (ExactDateEntry "Eve" 1 0 None)
       (newDate (Some 2025) (Some 11) (Some 31))
     = newDate (Some 2025) (Some 11) (Some 31)
  /\ ~ (exists t r,
          getTime (newDate (Some 2025) (Some 11) (Some 31)) = Some t
          /\ getTime (getNextOccurrence (ExactDateEntry "Eve" 1 0 None)
                        (newDate (Some 2025) (Some 11) (Some 31))) = Some r
          /\ t < r)
  /\ getNextOccurrence (ExactDateEntry "Mid" 0 15 None)
       (newDate (Some 2025) (Some 11) (Some 15))
     = newDate (Some 2025) (Some 11) (Some 15)
  /\ getFullYear (newDate (Some 275759) (Some 11) (Some 31)) = Some 275759
  /\ getNextOccurrence (ExactDateEntry "Last" 12 31 None)
       (newDate (Some 275759) (Some 11) (Some 31))
     = InvalidDate
  /\ getFullYear (newDate (Some (-271821)) (Some 11) (Some 31))
     = Some (-271821)
  /\ getNextOccurrence (ExactDateEntry "First" 1 1 None)
       (newDate (Some (-271821)) (Some 11) (Some 31))
     = InvalidDate.
Proof.
  split; [vm_compute; reflexivity |].
  split; [vm_compute; reflexivity |].
  split.
  - intros (t & r & Ht & Hr & Hlt).
    replace (getNextOccurrence (ExactDateEntry "Eve" 1 0 None)
               (newDate (Some 2025) (Some 11) (Some 31)))
      with (newDate (Some 2025) (Some 11) (Some 31)) in Hr
      by (vm_compute; reflexivity).
    rewrite Ht in Hr. injection Hr as Hr. lia.
  - repeat split; vm_compute; reflexivity.
Qed.

(** The upper ends of the field ranges matter as well: a day or a month
    far beyond them takes the constructed date out of the range of a
    [Date], and the result is an invalid date. *)
Example annual_fields_far_out_of_range_invalid :
  getNextOccurrence (ExactDateEntry "Far" 1 100000000000000000 None)
    (newDate (Some 2026) (Some 0) (Some 1))
  = InvalidDate
  /\ getNextOccurrence (ExactDateEntry "Far" 100000000000000000 1 None)
       (newDate (Some 2026) (Some 0) (Some 1))
     = InvalidDate.
Proof. split; vm_compute; reflexivity. Qed.

(** ** Next occurrence of a relative entry *)

Lemma WeekDay_range (t : Z) : 0 <= WeekDay t <= 6.
Proof.
  unfold WeekDay.
  pose proof (Z.mod_pos_bound (Day t + 4) 7 ltac:(lia)). lia.
Qed.

(** When the Nth weekday exists, it is a valid date on or after the first
    of the month in the year the constructor uses. *)
Lemma getNthWeekdayOfMonth_some (y : Num) (m w o : Z) (d : Date) :
  1 <= o -> 0 <= w <= 6 ->
  getNthWeekdayOfMonth y m w o = Some d ->
  exists y0 k,
    y = Some y0 /\ 0 <= k
    /\ getTime d = Some (MakeDate (MakeDay (fullYear y0) (m - 1) (1 + k)) 0).
Proof.
  intros Ho Hw. unfold getNthWeekdayOfMonth.
  destruct (getDay (newDate y (Some (m - 1)) (Some 1))) as [f |] eqn:Ef;
    cbn [num_map].
  - match goal with
    | |- context [newDate y (Some (m - 1)) (Some ?x)] => set (dt := x)
    end.
    destruct (num_eqb (getMonth (newDate y (Some (m - 1)) (Some dt)))
                (Some (m - 1))) eqn:E; cbn [negb]; [| discriminate].
    intros [= <-].
    unfold getMonth in E.
    destruct (getTime (newDate y (Some (m - 1)) (Some dt))) as [r |] eqn:Et;
      [| discriminate].
    destruct (newDate_time _ _ _ _ Et)
      as (y0 & m0 & d0 & -> & [= <-] & [= <-] & ->).
    exists y0, (Z.rem (w - f + 7) 7 + (o - 1) * 7).
    split; [reflexivity |]. split; [| reflexivity].
    assert (Hf : 0 <= f <= 6).
    { unfold getDay in Ef.
      destruct (getTime (newDate (Some y0) (Some (m - 1)) (Some 1)));
        [| discriminate].
      injection Ef as <-. apply WeekDay_range. }
    pose proof (Z.rem_nonneg (w - f + 7) 7 ltac:(lia) ltac:(lia)). lia.
  - destruct y; cbn; discriminate.
Qed.

Lemma farFuture_time :
  getTime farFuture = Some (MakeDate (MakeDay 9999 11 31) 0).
Proof. vm_compute. reflexivity. Qed.

(** For a relative entry with occurrence at least 1 and weekday 0..6, and
    a valid date before the year 9999, the next occurrence is a valid date
    after the given one. *)
Lemma nextRelative_after (o w m t : Z) :
  1 <= o -> 0 <= w <= 6 -> 1 <= m <= 12 ->
  YearFromTime t <= 9998 ->
  exists r,
    getTime (nextRelative o w m (mkDate (Some t))) = Some r /\ t < r.
Proof.
  intros Ho Hw Hm Hy. unfold nextRelative.
  cbn [getFullYear getTime num_map].
  assert (Hretry :
    exists r,
      getTime
        match getNthWeekdayOfMonth (Some (YearFromTime t + 1)) m w o with
        | Some d => d
        | None => farFuture
        end = Some r /\ t < r).
  { destruct (getNthWeekdayOfMonth (Some (YearFromTime t + 1)) m w o)
      as [d |] eqn:E2.
    - destruct (getNthWeekdayOfMonth_some _ _ _ _ _ Ho Hw E2)
        as (y0 & k & [= <-] & Hk & Hd).
      eexists. split; [exact Hd |]. apply before_next_year; lia.
    - eexists. split; [exact farFuture_time |].
      apply Day_lt_MakeDate.
      pose proof (YearFromTime_spec t) as [_ Hhi].
      pose proof (DayFromYear_mono (YearFromTime t + 1) 9999 ltac:(lia)).
      pose proof (MakeDay_lower 9999 11 31 ltac:(lia) ltac:(lia)). lia. }
  destruct (getNthWeekdayOfMonth (Some (YearFromTime t)) m w o)
    as [d |] eqn:E1; [| exact Hretry].
  destruct (date_leb d (mkDate (Some t))) eqn:Ele; [exact Hretry |].
  destruct (getNthWeekdayOfMonth_some _ _ _ _ _ Ho Hw E1)
    as (y0 & k & _ & _ & Hd).
  eexists. split; [exact Hd |].
  unfold date_leb in Ele. rewrite Hd in Ele. cbn in Ele.
  apply Z.leb_gt in Ele. exact Ele.
Qed.

(** Every entry of the data model, from a date of the years
    [minYear .. 9998], has a valid next occurrence after that date. *)
Lemma next_after (e : Entry) (fromDate : Date) :
  wellFormed e -> inYears minYear 9998 fromDate ->
  exists t r,
    getTime fromDate = Some t
    /\ getTime (getNextOccurrence e fromDate) = Some r
    /\ t < r.
Proof.
  intros He Hy.
  destruct (inYears_time _ _ _ Hy) as (t & -> & Ht).
  exists t.
  destruct e as [n m d s | n m d y s | n o w m s]; cbn in He |- *.
  - destruct He as [Hm Hd].
    destruct (nextMonthDay_after m d t Hm Hd) as (Y & Hr & Hlt);
      [unfold maxYear; lia |].
    eexists. repeat split; eassumption.
  - destruct He as [Hm Hd].
    destruct (nextMonthDay_after m d t Hm Hd) as (Y & Hr & Hlt);
      [unfold maxYear; lia |].
    eexists. repeat split; eassumption.
  - destruct He as (Ho & Hw & Hm).
    destruct (nextRelative_after o w m t) as (r & Hr & Hlt); try lia.
    exists r. repeat split; assumption.
Qed.

(** ** Sorting *)

Section SortFacts.
Context {A : Type} (cmp : A -> A -> Num).

Lemma insertSorted_Permutation (x : A) (l : list A) :
  Permutation (insertSorted cmp x l) (x :: l).
Proof.
  induction l as [| y rest IH]; cbn.
  - apply Permutation_refl.
  - destruct (sortsAfter cmp x y).
    + apply perm_trans with (y :: x :: rest).
      * apply perm_skip. exact IH.
      * apply perm_swap.
    + apply Permutation_refl.
Qed.

Lemma sort_Permutation (l : list A) : Permutation (sort cmp l) l.
Proof.
  induction l as [| x rest IH]; cbn.
  - apply perm_nil.
  - apply perm_trans with (x :: sort cmp rest).
    + apply insertSorted_Permutation.
    + apply perm_skip. exact IH.
Qed.
End SortFacts.

Lemma occLe_trans (a b c : Occurrence) : occLe a b -> occLe b c -> occLe a c.
Proof.
  intros (x & y & Hx & Hy & Hxy) (y2 & z & Hy2 & Hz & Hyz).
  rewrite Hy in Hy2. injection Hy2 as <-.
  exists x, z. repeat split; try assumption. lia.
Qed.

(** On valid dates the comparison function [byDate] decides the order. *)
Lemma sortsAfter_byDate (x y : Occurrence) :
  validOcc x -> validOcc y ->
  if sortsAfter byDate x y then occLe y x else occLe x y.
Proof.
  intros [tx Hx] [ty Hy]. unfold sortsAfter, byDate. rewrite Hx, Hy. cbn.
  destruct (Z.ltb_spec 0 (tx - ty)).
  - exists ty, tx. repeat split; try assumption. lia.
  - exists tx, ty. repeat split; try assumption. lia.
Qed.

Lemma insertSorted_sorted (x : Occurrence) (l : list Occurrence) :
  validOcc x -> Forall validOcc l ->
  StronglySorted occLe l -> StronglySorted occLe (insertSorted byDate x l).
Proof.
  intros Hx Hv Hs. induction Hs as [| y rest Hs IH Hy]; cbn.
  - constructor; constructor.
  - inversion Hv as [| ? ? Hvy Hvr]; subst.
    pose proof (sortsAfter_byDate x y Hx Hvy) as Hc.
    destruct (sortsAfter byDate x y).
    + constructor; [exact (IH Hvr) |].
      apply (Permutation_Forall
               (Permutation_sym (insertSorted_Permutation byDate x rest))).
      constructor; assumption.
    + constructor; [constructor; assumption |].
      constructor; [exact Hc |].
      apply Forall_impl with (P := occLe y); [| exact Hy].
      intros z Hz. exact (occLe_trans _ _ _ Hc Hz).
Qed.

Lemma sort_sorted (l : list Occurrence) :
  Forall validOcc l -> StronglySorted occLe (sort byDate l).
Proof.
  induction l as [| x rest IH]; intros Hv; cbn.
  - constructor.
  - inversion Hv; subst.
    apply insertSorted_sorted; [assumption | | apply IH; assumption].
    apply (Permutation_Forall
             (Permutation_sym (sort_Permutation byDate rest))).
    assumption.
Qed.

(** ** The window queries *)

(** The end of the window of [getEntriesInNextDays]. *)
Lemma endDate_time (t days : Z) :
  getTime
    (setDate (mkDate (Some t))
       (num_map (fun d => d + days) (getDate (mkDate (Some t)))))
  = TimeClip (t + days * msPerDay).
Proof.
  cbn [setDate getDate getTime num_map].
  rewrite setDate_shift. reflexivity.
Qed.

Lemma TimeClip_some (t e : Z) : TimeClip t = Some e -> e = t.
Proof.
  unfold TimeClip. destruct (Z.abs t <=? maxTime); [| discriminate].
  intros [= <-]. reflexivity.
Qed.

Lemma getEntriesInNextDays_kept (entries : list Entry) (days : Z)
  (fromDate : Date) :
  getEntriesInNextDays entries days fromDate
  = sort byDate (kept entries days fromDate).
Proof. reflexivity. Qed.

Lemma kept_in_window (entries : list Entry) (days : Z) (fromDate : Date)
  (o : Occurrence) :
  In o (kept entries days fromDate) ->
  inWindow fromDate days (date o)
  /\ In (entry o) entries
  /\ date o = getNextOccurrence (entry o) fromDate.
Proof.
  unfold kept. rewrite filter_In, in_map_iff.
  intros [(e & <- & Hin) Hc]. cbn [date entry] in *.
  split; [| split; [exact Hin | reflexivity]].
  apply andb_true_iff in Hc. destruct Hc as [Hge Hle].
  unfold date_geb, num_geb in Hge. apply num_leb_true in Hge, Hle.
  destruct Hge as (f & t & Hf & Ht & Hft).
  destruct Hle as (t2 & en & Ht2 & Hen & Hte).
  rewrite Ht in Ht2. injection Ht2 as <-.
  rewrite Hf, endDate_time in Hen. apply TimeClip_some in Hen. subst en.
  exists f, t. repeat split; assumption.
Qed.

(** C4. Whatever the entries, the number of days and the start date, the
    result of [getEntriesInNextDays] is sorted by ascending date, and each
    result pairs an entry of the list with its next occurrence, a valid
    date between the start date and the start date plus [days] days, both
    included. *)
Theorem nextDays_sorted_in_window (entries : list Entry) (days : Z)
  (fromDate : Date) :
  StronglySorted (fun a b => dateLe (date a) (date b))
    (getEntriesInNextDays entries days fromDate)
  /\ Forall (fun o => inWindow fromDate days (date o)
                      /\ In (entry o) entries
                      /\ date o = getNextOccurrence (entry o) fromDate)
       (getEntriesInNextDays entries days fromDate).
Proof.
  rewrite getEntriesInNextDays_kept.
  assert (Hk : Forall (fun o => inWindow fromDate days (date o)
                                /\ In (entry o) entries
                                /\ date o = getNextOccurrence (entry o) fromDate)
                 (kept entries days fromDate)).
  { apply Forall_forall. intros o Ho. exact (kept_in_window _ _ _ _ Ho). }
  split.
  - apply (sort_sorted (kept entries days fromDate)).
    apply Forall_impl with (2 := Hk).
    intros o ((f & t & _ & Ht & _) & _). exists t. exact Ht.
  - apply (Permutation_Forall
             (Permutation_sym (sort_Permutation byDate _))).
    exact Hk.
Qed.

(** C9, as amended. For every entry within the field ranges of the data
    model ([wellFormed]: month 1..12 and day 1..31 for the two fixed-date
    variants; occurrence 1..5, weekday 0..6 and month 1..12 for the
    relative variant) and every date of the years [minYear .. 9998], at any
    time of day, the next occurrence is a valid date strictly after the
    given one; hence, for every list of such entries, a window of 0 days is
    empty, and every date returned for a window of any length is strictly
    after the start date. *)
Theorem next_strictly_after_zero_window_empty (entries : list Entry)
  (e : Entry) (days : Z) (fromDate : Date) :
  Forall wellFormed entries -> wellFormed e ->
  inYears minYear 9998 fromDate ->
  (exists t r,
     getTime fromDate = Some t
     /\ getTime (getNextOccurrence e fromDate) = Some r
     /\ t < r)
  /\ getEntriesInNextDays entries 0 fromDate = []
  /\ Forall (fun o => exists t r,
                getTime fromDate = Some t
                /\ getTime (date o) = Some r
                /\ t < r)
       (getEntriesInNextDays entries days fromDate).
Proof.
  intros Hall He Hy. split; [exact (next_after e fromDate He Hy) |].
  rewrite !getEntriesInNextDays_kept. split.
  - assert (Hk : kept entries 0 fromDate = []); [| rewrite Hk; reflexivity].
    unfold kept. induction Hall as [| e1 rest He1 _ IH]; [reflexivity |].
    cbn [map filter]. rewrite IH.
    destruct (next_after e1 fromDate He1 Hy) as (t & r & Ht & Hr & Hlt).
    cbn [date]. unfold date_leb at 1.
    rewrite Hr, Ht, endDate_time. unfold TimeClip.
    destruct (Z.abs (t + 0 * msPerDay) <=? maxTime); cbn [num_leb].
    + destruct (Z.leb_spec r (t + 0 * msPerDay)) as [C | _]; [lia |].
      rewrite andb_false_r. reflexivity.
    + rewrite andb_false_r. reflexivity.
  - apply (Permutation_Forall
             (Permutation_sym (sort_Permutation byDate _))).
    apply Forall_forall. intros o Ho.
    destruct (kept_in_window _ _ _ _ Ho) as (_ & Hin & Hd).
    rewrite Hd. apply next_after; [| exact Hy].
    rewrite Forall_forall in Hall. exact (Hall _ Hin).
Qed.

Lemma next_strictly_after_zero_window_empty_witness :
  Forall wellFormed
    [ExactDateEntry "Today" 1 19 None;
     ExactDateEntry "Tomorrow" 1 20 None;
     RelativeDateEntry "MLK Day" 3 1 1 None]
  /\ wellFormed (RelativeDateEntry "MLK Day" 3 1 1 None)
  /\ inYears minYear 9998 (newDate (Some 2026) (Some 0) (Some 19))
  /\ (exists t r,
        getTime (newDate (Some 2026) (Some 0) (Some 19)) = Some t
        /\ getTime (getNextOccurrence (RelativeDateEntry "MLK Day" 3 1 1 None)
                      (newDate (Some 2026) (Some 0) (Some 19))) = Some r
        /\ t < r)
  /\ getEntriesInNextDays
       [ExactDateEntry "Today" 1 19 None;
        ExactDateEntry "Tomorrow" 1 20 None;
        RelativeDateEntry "MLK Day" 3 1 1 None]
       0 (newDate (Some 2026) (Some 0) (Some 19)) = []
  /\ Forall (fun o => exists t r,
                getTime (newDate (Some 2026) (Some 0) (Some 19)) = Some t
                /\ getTime (date o) = Some r
                /\ t < r)
       (getEntriesInNextDays
          [ExactDateEntry "Today" 1 19 None;
           ExactDateEntry "Tomorrow" 1 20 None;
           RelativeDateEntry "MLK Day" 3 1 1 None]
          7 (newDate (Some 2026) (Some 0) (Some 19))).
Proof.
  assert (Hall : Forall wellFormed
                   [ExactDateEntry "Today" 1 19 None;
                    ExactDateEntry "Tomorrow" 1 20 None;
                    RelativeDateEntry "MLK Day" 3 1 1 None]).
  { repeat constructor; cbn; lia. }
  assert (He : wellFormed (RelativeDateEntry "MLK Day" 3 1 1 None))
    by (cbn; lia).
  assert (Hy : inYears minYear 9998 (newDate (Some 2026) (Some 0) (Some 19))).
  { exists 2026. split; [vm_compute; reflexivity | unfold minYear; lia]. }
  split; [exact Hall |]. split; [exact He |]. split; [exact Hy |].
  exact (next_strictly_after_zero_window_empty _ _ 7 _ Hall He Hy).
Defined.

(** C9, as stated, fails. The line "Eve,1/0,1999" is parsed into the dated
    entry of month 1, day 0; from 2025-12-31, at midnight, its next
    occurrence is 2025-12-31 itself, and the window of 0 days returns the
    entry on the start date. The same holds for the annual entry read from
    "Eve,1/0". Below year [minYear] the next occurrence need not be a
    date: from -271821-12-31 the dated entry of January 1 gives an invalid
    date. *)
Lemma zero_window_keeps_entry_on_from_date :
  parseCSVLine "Eve,1/0,1999" None
  = Some (ExactDateWithYearEntry "Eve" 1 0 1999 None)
  /\ getNextOccurrence (ExactDateWithYearEntry "Eve" 1 0 1999 None)
       (newDate (Some 2025) (Some 11) (Some 31))
     = newDate (Some 2025) (Some 11) (Some 31)
  /\ getEntriesInNextDays [ExactDateWithYearEntry "Eve" 1 0 1999 None] 0
       (newDate (Some 2025) (Some 11) (Some 31))
     = [mkOccurrence (ExactDateWithYearEntry "Eve" 1 0 1999 None)
          (newDate (Some 2025) (Some 11) (Some 31))]
  /\ getEntriesInNextDays [ExactDateEntry "Eve" 1 0 None] 0
       (newDate (Some 2025) (Some 11) (Some 31))
     = [mkOccurrence (ExactDateEntry "Eve" 1 0 None)
          (newDate (Some 2025) (Some 11) (Some 31))]
  /\ getFullYear (newDate (Some (-271821)) (Some 11) (Some 31))
     = Some (-271821)
  /\ getNextOccurrence (ExactDateWithYearEntry "First" 1 1 2000 None)
       (newDate (Some (-271821)) (Some 11) (Some 31))
     = InvalidDate.
Proof. repeat split; vm_compute; reflexivity. Qed.

(** The range of the occurrence matters for a relative entry too. Only the
    month of the constructed date is compared with the requested one, so
    an occurrence 52 weeks back passes the test with a date of the year
    before: for occurrence -51 of Thursday in January, the date computed
    for 2027 is 2026-01-08, which is returned as next occurrence from
    2026-01-08 itself and kept by the window of 0 days. *)
Example relative_occurrence_out_of_range_same_date :
  getNthWeekdayOfMonth (Some 2026) 1 4 (-51)
  = Some (newDate (Some 2025) (Some 0) (Some 2))
  /\ getNthWeekdayOfMonth (Some 2027) 1 4 (-51)
     = Some (newDate (Some 2026) (Some 0) (Some 8))
  /\ getNextOccurrence (RelativeDateEntry "Back" (-51) 4 1 None)
       (newDate (Some 2026) (Some 0) (Some 8))
     = newDate (Some 2026) (Some 0) (Some 8)
  /\ getEntriesInNextDays [RelativeDateEntry "Back" (-51) 4 1 None] 0
       (newDate (Some 2026) (Some 0) (Some 8))
     = [mkOccurrence (RelativeDateEntry "Back" (-51) 4 1 None)
          (newDate (Some 2026) (Some 0) (Some 8))].
Proof. repeat split; vm_compute; reflexivity. Qed.

(** ** Parsing: the month/day token *)

Lemma parseInt_NaN_iff (s : string) :
  parseInt s = NaN <-> hasIntegerPrefix s = false.
Proof.
  unfold parseInt, hasIntegerPrefix, NaN.
  destruct (trimStart s) as [| c rest]; [cbn; tauto |].
  destruct c as [b0 b1 b2 b3 b4 b5 b6 b7].
  destruct b0, b1, b2, b3, b4, b5, b6, b7;
    cbn [Ascii.eqb Bool.eqb orb andb];
    try change (startsWithDigit (String ?c rest)) with (isDigit c);
    match goal with
    | |- context [startsWithDigit rest] => destruct (startsWithDigit rest)
    | |- context [isDigit ?c] =>
        let v := eval vm_compute in (isDigit c) in
        change (isDigit c) with v; cbv iota
    end; split; (discriminate || reflexivity).
Qed.

(** A token that [split] cuts in two or more pieces contains the
    separator. *)
Lemma split_includes (sep : ascii) (s a b : string) (rest : list string) :
  split sep s = a :: b :: rest -> includes (String sep EmptyString) s = true.
Proof.
  revert a. induction s as [| x s IH]; intros a; cbn [split].
  - discriminate.
  - destruct (Ascii.eqb x sep) eqn:E.
    + intros _. apply Ascii.eqb_eq in E. subst x.
      cbn. rewrite Ascii.eqb_refl. reflexivity.
    + destruct (split sep s) as [| part parts] eqn:Es; [discriminate |].
      intros [= <- ->].
      cbn [includes]. rewrite (IH part eq_refl). apply orb_true_r.
Qed.

(** C2, as amended. For a line whose date token contains "/", if the
    month side or the day side has no integer prefix (after leading white
    space and one optional sign it does not begin with a digit), parsing
    yields no entry. *)
Theorem slash_token_without_integer_prefix (line : string)
  (source : option string) (part0 part1 : string) (more : list string)
  (monthStr dayStr : string) (rest : list string) :
  split "," line = part0 :: part1 :: more ->
  split "/" (trim part1) = monthStr :: dayStr :: rest ->
  hasIntegerPrefix monthStr = false \/ hasIntegerPrefix dayStr = false ->
  parseCSVLine line source = None.
Proof.
  intros Hparts Hsides Hbad. unfold parseCSVLine. rewrite Hparts.
  destruct (isEmpty (trim part0) || isEmpty (trim part1)); [reflexivity |].
  rewrite (split_includes _ _ _ _ _ Hsides), Hsides.
  destruct (isEmpty monthStr || isEmpty dayStr); [reflexivity |].
  destruct Hbad as [H | H]; apply parseInt_NaN_iff in H; unfold NaN in H;
    rewrite H; [reflexivity |].
  destruct (parseInt monthStr); reflexivity.
Qed.

Lemma slash_token_without_integer_prefix_witness :
  split "," "Name,a1/2" = ["Name"; "a1/2"]%string
  /\ split "/" (trim "a1/2") = ["a1"; "2"]%string
  /\ (hasIntegerPrefix "a1" = false \/ hasIntegerPrefix "2" = false)
  /\ parseCSVLine "Name,a1/2" None = None.
Proof.
  split; [reflexivity |]. split; [reflexivity |].
  split; [left; reflexivity |].
  apply (slash_token_without_integer_prefix "Name,a1/2" None
           "Name" "a1/2" [] "a1" "2" []);
    [reflexivity | reflexivity | left; reflexivity].
Defined.

(** C2, as stated, fails: a side with letters after its digits is read
    up to the first letter, and the line yields an entry. *)
Lemma slash_token_trailing_letter_parsed :
  hasIntegerPrefix "1a" = true
  /\ parseInt "1a" = Some 1
  /\ parseCSVLine "Name,1a/2" None = Some (ExactDateEntry "Name" 1 2 None).
Proof. repeat split; vm_compute; reflexivity. Qed.

(** ** Parsing: concrete tokens *)

(** C6. The token "3MondayJan" parses to occurrence 3, weekday 1, month 1;
    the line "New Year's Day,01/01" (no year field) parses to the annual
    entry of month 1, day 1; the line "Afghanistan,08/19,1919" parses to
    the dated entry of month 8, day 19, year 1919. *)
Theorem parse_examples (source : option string) :
  parseRelativeDate "3MondayJan" = inr (mkRelativeDate 3 1 1)
  /\ parseCSVLine "Martin Luther King Jr. Day,3MondayJan" source
     = Some (RelativeDateEntry "Martin Luther King Jr. Day" 3 1 1 source)
  /\ parseCSVLine "New Year's Day,01/01" source
     = Some (ExactDateEntry "New Year's Day" 1 1 source)
  /\ parseCSVLine "Afghanistan,08/19,1919" source
     = Some (ExactDateWithYearEntry "Afghanistan" 8 19 1919 source).
Proof.
  repeat split; vm_compute; reflexivity.
Qed.

(** C10. The relative-date parser takes any leading digit 0..9 as the
    occurrence, with no check against 1..5: for every first character [c]
    the token [c ++ "MondayJan"] parses exactly when [c] is a digit, to the
    occurrence [c - "0"]; "0MondayJan" gives occurrence 0, "9MondayJan"
    occurrence 9, and the line parser builds the entry from it. *)
Theorem parse_occurrence_any_digit (c : ascii) :
  parseRelativeDate (String c "MondayJan")
  = (if isDigit c then inr (mkRelativeDate (digitValue c) 1 1)
     else inl InvalidRelativeDateFormat)
  /\ parseRelativeDate "0MondayJan" = inr (mkRelativeDate 0 1 1)
  /\ parseRelativeDate "9MondayJan" = inr (mkRelativeDate 9 1 1)
  /\ parseCSVLine "Nothing,0MondayJan" None
     = Some (RelativeDateEntry "Nothing" 0 1 1 None).
Proof.
  split; [| repeat split; vm_compute; reflexivity].
  destruct c as [b0 b1 b2 b3 b4 b5 b6 b7].
  destruct b0, b1, b2, b3, b4, b5, b6, b7; vm_compute; reflexivity.
Qed.

(** ** Occurrences: concrete dates *)

(** C3. For the entry "3rd Monday of January" the next occurrence from
    2026-01-01 is 2026-01-19, which is a Monday. *)
Theorem next_third_monday_jan_2026 (name : string) (source : option string) :
  let next :=
    getNextOccurrence (RelativeDateEntry name 3 1 1 source)
      (newDate (Some 2026) (Some 0) (Some 1)) in
  next = newDate (Some 2026) (Some 0) (Some 19)
  /\ getTime next = Some 1768780800000
  /\ yearOf next = Some 2026 /\ monthOf next = Some 1 /\ dayOf next = Some 19
  /\ getDay next = Some 1.
Proof.
  repeat split; vm_compute; reflexivity.
Qed.

(** ** [occursOn] of a dated entry *)

(** C7. A dated entry occurs on [q] exactly when the year, the month and
    the day of [q] are the stored ones; the entry of 1919-08-19 occurs on
    that day and not on its anniversary 2019-08-19. *)
Theorem dated_occursOn_iff (name : string) (m d y : Z)
  (source : option string) (q : Date) :
  (occursOn (ExactDateWithYearEntry name m d y source) q = true
   <-> yearOf q = Some y /\ monthOf q = Some m /\ dayOf q = Some d)
  /\ occursOn (ExactDateWithYearEntry name 8 19 1919 source)
       (newDate (Some 1919) (Some 7) (Some 19)) = true
  /\ occursOn (ExactDateWithYearEntry name 8 19 1919 source)
       (newDate (Some 2019) (Some 7) (Some 19)) = false.
Proof.
  split; [| split; vm_compute; reflexivity].
  unfold occursOn, yearOf, monthOf, dayOf.
  rewrite !andb_true_iff, !num_eqb_true.
  destruct (getMonth q) as [k |]; cbn.
  - split.
    + intros [[Hy [= ->]] Hd]. repeat split; try assumption. f_equal. lia.
    + intros (Hy & [= <-] & Hd). repeat split; try assumption. f_equal. lia.
  - split.
    + intros [[_ [=]] _].
    + intros (_ & [=] & _).
Qed.

(** ** [getEntriesOnMonthDay] *)

(** C8. The result holds exactly the fixed-date entries of the list whose
    stored month and day are the arguments, and never a relative entry:
    the third Monday of January occurs on 2026-01-19, and the query for
    January 19 does not return it. *)
Theorem onMonthDay_fixed_only (entries : list Entry) (month day : Z) :
  (forall e, In e (getEntriesOnMonthDay entries month day)
             <-> In e entries /\ fixedOn month day e)
  /\ Forall (fun e => isRelative e = false)
       (getEntriesOnMonthDay entries month day)
  /\ (let mlk := RelativeDateEntry "MLK Day" 3 1 1 None in
      let q := newDate (Some 2026) (Some 0) (Some 19) in
      occursOn mlk q = true
      /\ monthOf q = Some 1 /\ dayOf q = Some 19
      /\ getEntriesOnMonthDay [mlk] 1 19 = []).
Proof.
  split; [| split].
  - intros e. unfold getEntriesOnMonthDay. rewrite filter_In.
    split; intros [Hin H]; (split; [exact Hin |]).
    + destruct e as [n m d s | n m d y s | n o w m s]; try discriminate;
        apply andb_true_iff in H; destruct H as [Hm Hd];
        apply Z.eqb_eq in Hm, Hd; subst; constructor.
    + destruct H; rewrite !Z.eqb_refl; reflexivity.
  - unfold getEntriesOnMonthDay. apply Forall_forall. intros e He.
    apply filter_In in He. destruct He as [_ H].
    destruct e; [reflexivity | reflexivity | discriminate].
  - repeat split; vm_compute; reflexivity.
Qed.

(** ** The repository's unit tests, on the model *)

Example test_annual_next_occurrence :
  let next :=
    getNextOccurrence (ExactDateEntry "New Year's Day" 1 1 None)
      (newDate (Some 2026) (Some 0) (Some 15)) in
  getFullYear next = Some 2027 /\ getMonth next = Some 0
  /\ getDate next = Some 1.
Proof. repeat split; vm_compute; reflexivity. Qed.

Example test_annual_occursOn :
  occursOn (ExactDateEntry "Pi Day" 3 14 None)
    (newDate (Some 2026) (Some 2) (Some 14)) = true
  /\ occursOn (ExactDateEntry "Pi Day" 3 14 None)
       (newDate (Some 2026) (Some 2) (Some 15)) = false.
Proof. split; vm_compute; reflexivity. Qed.

Example test_dated_anniversary_and_years :
  getAnniversary 8 19 2026 = newDate (Some 2026) (Some 7) (Some 19)
  /\ getYearsSince 1919 (newDate (Some 2026) (Some 7) (Some 19)) = Some 107.
Proof. split; vm_compute; reflexivity. Qed.

Example test_relative_occursOn :
  getDay (newDate (Some 2026) (Some 8) (Some 7)) = Some 1
  /\ occursOn (RelativeDateEntry "Test" 1 1 9 None)
       (newDate (Some 2026) (Some 8) (Some 7)) = true
  /\ occursOn (RelativeDateEntry "Test" 1 1 9 None)
       (newDate (Some 2026) (Some 8) (Some 14)) = false.
Proof. repeat split; vm_compute; reflexivity. Qed.

Example test_invalid_lines :
  parseCSVLine "" None = None
  /\ parseCSVLine "Invalid" None = None
  /\ parseCSVLine "Name,InvalidDate" None = None.
Proof. repeat split; vm_compute; reflexivity. Qed.

Example test_next_seven_days :
  map (fun o => name (entry o))
    (getEntriesInNextDays
       [ExactDateEntry "Today" 1 19 None;
        ExactDateEntry "Tomorrow" 1 20 None;
        ExactDateEntry "Next Week" 1 26 None;
        ExactDateEntry "Next Month" 2 19 None;
        ExactDateEntry "Next Year" 1 19 None;
        ExactDateWithYearEntry "Past Event" 1 1 2000 None]
       7 (newDate (Some 2026) (Some 0) (Some 19)))
  = ["Tomorrow"; "Next Week"]%string.
Proof. vm_compute. reflexivity. Qed.

End MohoFacts.

(* ================================================================== *)
(** * Further properties of the methods and the queries *)
(* ================================================================== *)

Module MohoExtra.

Import JSDate JSString Moho JSDateFacts MohoFacts.

Lemma some_eq {A : Type} (a b : A) : Some a = Some b -> a = b.
Proof. congruence. Qed.

(** ** The Nth weekday of a month *)

Lemma MakeDay_date_shift (y mn dt k : Z) :
  MakeDay y mn (dt + k) = MakeDay y mn dt + k.
Proof. unfold MakeDay. lia. Qed.

Lemma WeekDay_MakeDate_shift (d k : Z) :
  WeekDay (MakeDate (d + k) 0) = (WeekDay (MakeDate d 0) + k) mod 7.
Proof.
  unfold WeekDay.
  rewrite !Day_MakeDate by (unfold msPerDay; lia).
  rewrite Z.add_mod_idemp_l by lia. f_equal. lia.
Qed.

Lemma fullYear_idem (y : Z) : fullYear (fullYear y) = fullYear y.
Proof.
  unfold fullYear.
  destruct ((0 <=? y) && (y <=? 99)) eqn:E.
  - apply andb_true_iff in E. destruct E as [E1 E2].
    apply Z.leb_le in E1, E2.
    destruct (Z.leb_spec (1900 + y) 99); [lia |].
    rewrite andb_false_r. reflexivity.
  - rewrite E. reflexivity.
Qed.

(** What a non-null result of [getNthWeekdayOfMonth] is made of: the
    weekday [f] of the first of the month, the offset [k] and the valid
    date of day [1 + k], which is in the month asked for. *)
Lemma getNthWeekdayOfMonth_inv (y : Num) (m w o : Z) (d : Date) :
  getNthWeekdayOfMonth y m w o = Some d ->
  exists y0 f,
    y = Some y0
    /\ f = WeekDay (MakeDate (MakeDay (fullYear y0) (m - 1) 1) 0)
    /\ getDay (newDate (Some y0) (Some (m - 1)) (Some 1)) = Some f
    /\ getTime d
       = Some (MakeDate
                 (MakeDay (fullYear y0) (m - 1)
                    (1 + (Z.rem (w - f + 7) 7 + (o - 1) * 7))) 0)
    /\ MonthFromTime
         (MakeDate
            (MakeDay (fullYear y0) (m - 1)
               (1 + (Z.rem (w - f + 7) 7 + (o - 1) * 7))) 0) = m - 1.
Proof.
  unfold getNthWeekdayOfMonth.
  destruct (getDay (newDate y (Some (m - 1)) (Some 1))) as [f |] eqn:Ef;
    cbn [num_map].
  - match goal with
    | |- context [newDate y (Some (m - 1)) (Some ?x)] => set (dt := x)
    end.
    destruct (num_eqb (getMonth (newDate y (Some (m - 1)) (Some dt)))
                (Some (m - 1))) eqn:E; cbn [negb]; [| discriminate].
    intros [= <-].
    apply num_eqb_true in E. unfold getMonth in E.
    destruct (getTime (newDate y (Some (m - 1)) (Some dt))) as [r |] eqn:Et;
      [| discriminate].
    cbn [num_map] in E. injection E as E.
    destruct (newDate_time _ _ _ _ Et)
      as (y0 & m0 & d0 & -> & [= <-] & [= <-] & ->).
    exists y0, f.
    assert (Hf : f = WeekDay (MakeDate (MakeDay (fullYear y0) (m - 1) 1) 0)).
    { unfold getDay in Ef.
      destruct (getTime (newDate (Some y0) (Some (m - 1)) (Some 1)))
        as [t1 |] eqn:E1; [| discriminate].
      destruct (newDate_time _ _ _ _ E1)
        as (? & ? & ? & [= <-] & [= <-] & [= <-] & ->).
      cbn in Ef. injection Ef as <-. reflexivity. }
    repeat split; try assumption; reflexivity.
  - destruct y; cbn; discriminate.
Qed.

(** A day at most 34 days after the first of a month, whose month is
    still that month, is in the year of that month and its day of the
    month is one more than the offset. *)
Lemma same_month_fields (y mn k : Z) :
  0 <= k <= 34 ->
  MonthFromTime (MakeDate (MakeDay y mn (1 + k)) 0) = mn ->
  YearFromTime (MakeDate (MakeDay y mn (1 + k)) 0) = y
  /\ DateFromTime (MakeDate (MakeDay y mn (1 + k)) 0) = 1 + k.
Proof.
  intros Hk HM.
  set (t := MakeDate (MakeDay y mn (1 + k)) 0) in *.
  assert (Hmn : 0 <= mn <= 11) by (rewrite <- HM; apply MonthFromTime_range).
  assert (HD : Day t = DayFromYear y + daysBeforeMonth (leapOf y) mn + k).
  { unfold t. rewrite Day_MakeDate by (unfold msPerDay; lia).
    rewrite MakeDay_month by exact Hmn. lia. }
  pose proof (leapOf_range y) as Hl.
  pose proof (daysBeforeMonth_range (leapOf y) mn Hl Hmn) as Hb.
  assert (HY : YearFromTime t = y).
  { destruct (Z.lt_ge_cases (Day t) (DayFromYear (y + 1))) as [Hlt | Hge].
    - apply YearFromTime_unique. lia.
    - exfalso.
      assert (HY1 : YearFromTime t = y + 1).
      { apply YearFromTime_unique. split; [exact Hge |].
        rewrite DayFromYear_succ in Hge |- *.
        rewrite DayFromYear_succ.
        pose proof (DaysInYear_range y). pose proof (DaysInYear_range (y + 1)).
        rewrite DaysInYear_leapOf in Hge. lia. }
      assert (HW : 0 <= DayWithinYear t < 31).
      { unfold DayWithinYear. rewrite HY1, DayFromYear_succ,
          DaysInYear_leapOf in *. lia. }
      assert (H0 : MonthFromTime t = 0).
      { unfold MonthFromTime, monthOfYearDay.
        destruct (Z.ltb_spec (DayWithinYear t) 31); [reflexivity | lia]. }
      assert (Hdb : 331 + leapOf y <= daysBeforeMonth (leapOf y) mn).
      { rewrite DayFromYear_succ, DaysInYear_leapOf in Hge. lia. }
      assert (H11 : mn = 11).
      { clear - Hmn Hdb Hl.
        month_cases mn; try reflexivity;
          cbv beta iota delta [daysBeforeMonth] in Hdb; lia. }
      lia. }
  split; [exact HY |].
  unfold DateFromTime, DayWithinYear, InLeapYear. rewrite HM, HY, HD. lia.
Qed.

(** The calendar fields of a non-null result of [getNthWeekdayOfMonth],
    for an occurrence 1..5 and a weekday 0..6. *)
Lemma nth_weekday_fields (y m w o : Z) (d : Date) :
  1 <= o <= 5 -> 0 <= w <= 6 ->
  getNthWeekdayOfMonth (Some y) m w o = Some d ->
  exists t f,
    getTime d = Some t
    /\ getDay (newDate (Some y) (Some (m - 1)) (Some 1)) = Some f
    /\ 0 <= Z.rem (w - f + 7) 7 <= 6
    /\ YearFromTime t = fullYear y
    /\ MonthFromTime t = m - 1
    /\ DateFromTime t = 1 + (Z.rem (w - f + 7) 7 + (o - 1) * 7)
    /\ WeekDay t = w
    /\ TimeWithinDay t = 0.
Proof.
  intros Ho Hw H.
  destruct (getNthWeekdayOfMonth_inv _ _ _ _ _ H)
    as (y0 & f & [= <-] & Hf & Hfd & Ht & HM).
  assert (Hfr : 0 <= f <= 6) by (rewrite Hf; apply WeekDay_range).
  assert (Hrem : Z.rem (w - f + 7) 7 = (w - f + 7) mod 7)
    by (apply Z.rem_mod_nonneg; lia).
  pose proof (Z.mod_pos_bound (w - f + 7) 7 ltac:(lia)) as Hmod.
  set (k := Z.rem (w - f + 7) 7 + (o - 1) * 7) in *.
  assert (Hk : 0 <= k <= 34) by (unfold k; lia).
  destruct (same_month_fields (fullYear y) (m - 1) k Hk HM) as [HY HDt].
  exists (MakeDate (MakeDay (fullYear y) (m - 1) (1 + k)) 0), f.
  repeat split; try assumption; try lia.
  - rewrite MakeDay_date_shift, WeekDay_MakeDate_shift, <- Hf.
    unfold k. rewrite Hrem.
    clear - Hfr Hw. Z.div_mod_to_equations. lia.
  - unfold TimeWithinDay, MakeDate. rewrite Z.add_0_r.
    apply Z.mod_mul. discriminate.
Qed.

(** The date that [getNthWeekdayOfMonth] returns is one on which the
    relative entry with the same fields occurs. *)
Lemma relative_occursOn_nth (n : string) (s : option string)
  (y m w o : Z) (d : Date) :
  1 <= o <= 5 -> 0 <= w <= 6 ->
  getNthWeekdayOfMonth (Some y) m w o = Some d ->
  occursOn (RelativeDateEntry n o w m s) d = true.
Proof.
  intros Ho Hw H.
  destruct (nth_weekday_fields _ _ _ _ _ Ho Hw H)
    as (t & f & Ht & Hf & _ & HY & HM & HD & HW & _).
  destruct d as [tv]. cbn [getTime] in Ht. subst tv.
  unfold occursOn, getMonth, getDay, getDate, getFullYear.
  cbn [getTime num_map]. rewrite HM, HW, HD, HY.
  cbn [num_eqb]. rewrite !Z.eqb_refl. cbn [negb].
  assert (Hfirst : newDate (Some (fullYear y)) (Some (m - 1)) (Some 1)
                   = newDate (Some y) (Some (m - 1)) (Some 1)).
  { unfold newDate. rewrite fullYear_idem. reflexivity. }
  rewrite Hfirst. unfold getDay in Hf.
  destruct (getTime (newDate (Some y) (Some (m - 1)) (Some 1))) as [t1 |];
    [| discriminate].
  cbn [num_map] in Hf |- *. injection Hf as ->.
  cbn [num_eqb]. apply Z.eqb_eq. lia.
Qed.

(** X1. When [getNthWeekdayOfMonth] returns a date, for an occurrence
    1..5 and a weekday 0..6, that date is in the month asked for, of the
    year the constructor uses, falls on the weekday asked for, and its day
    of the month lies in the band of the occurrence, from [7 (o - 1) + 1]
    to [7 o]. *)
Theorem nth_weekday_is_nth (y m w o : Z) (d : Date) :
  1 <= o <= 5 -> 0 <= w <= 6 ->
  getNthWeekdayOfMonth (Some y) m w o = Some d ->
  getFullYear d = Some (fullYear y)
  /\ monthOf d = Some m
  /\ getDay d = Some w
  /\ exists dd, getDate d = Some dd /\ 7 * (o - 1) + 1 <= dd <= 7 * o.
Proof.
  intros Ho Hw H.
  destruct (nth_weekday_fields _ _ _ _ _ Ho Hw H)
    as (t & f & Ht & _ & Hr & HY & HM & HD & HW & _).
  unfold getFullYear, monthOf, getMonth, getDay, getDate.
  rewrite Ht. cbn [num_map]. rewrite HY, HM, HW, HD.
  repeat split; try reflexivity.
  - f_equal. lia.
  - eexists. split; [reflexivity | lia].
Qed.

Lemma nth_weekday_is_nth_witness :
  1 <= 4 <= 5 /\ 0 <= 4 <= 6
  /\ getNthWeekdayOfMonth (Some 2026) 11 4 4
     = Some (newDate (Some 2026) (Some 10) (Some 26))
  /\ getFullYear (newDate (Some 2026) (Some 10) (Some 26))
     = Some (fullYear 2026)
  /\ monthOf (newDate (Some 2026) (Some 10) (Some 26)) = Some 11
  /\ getDay (newDate (Some 2026) (Some 10) (Some 26)) = Some 4
  /\ exists dd,
       getDate (newDate (Some 2026) (Some 10) (Some 26)) = Some dd
       /\ 7 * (4 - 1) + 1 <= dd <= 7 * 4.
Proof.
  split; [lia |]. split; [lia |]. split; [vm_compute; reflexivity |].
  apply (nth_weekday_is_nth 2026 11 4 4
           (newDate (Some 2026) (Some 10) (Some 26)));
    [lia | lia | vm_compute; reflexivity].
Defined.

Lemma monthLength_ge_28 (leap m : Z) :
  0 <= leap <= 1 -> 1 <= m <= 12 -> 28 <= monthLength leap m.
Proof.
  intros Hl Hm.
  assert (Hc : m = 1 \/ m = 2 \/ m = 3 \/ m = 4 \/ m = 5 \/ m = 6 \/ m = 7
               \/ m = 8 \/ m = 9 \/ m = 10 \/ m = 11 \/ m = 12) by lia.
  repeat (destruct Hc as [Hc | Hc]; [subst m | ]); [ .. | subst m];
    cbv beta iota delta [monthLength]; lia.
Qed.

(** For an occurrence 1..4 the weekday exists in every month: the result
    is a date, of the year [fullYear y]. *)
Lemma nth_weekday_exists (y m w o : Z) :
  1 <= o <= 4 -> 0 <= w <= 6 -> 1 <= m <= 12 ->
  -271820 <= y <= 275759 ->
  exists d, getNthWeekdayOfMonth (Some y) m w o = Some d.
Proof.
  intros Ho Hw Hm Hy. unfold getNthWeekdayOfMonth.
  unfold getDay at 1.
  rewrite (newDate_valid y (m - 1) 1) by lia. cbn [num_map].
  set (f := WeekDay (MakeDate (MakeDay (fullYear y) (m - 1) 1) 0)).
  assert (Hf : 0 <= f <= 6) by apply WeekDay_range.
  pose proof (Z.rem_bound_pos (w - f + 7) 7 ltac:(lia) ltac:(lia)) as Hr.
  set (k := Z.rem (w - f + 7) 7 + (o - 1) * 7) in *.
  unfold getMonth.
  rewrite (newDate_valid y (m - 1) (1 + k)) by (unfold k; lia).
  cbn [num_map].
  destruct (fields_of_MakeDay (fullYear y) (m - 1) (1 + k) 0)
    as (_ & HM & _).
  - lia.
  - replace (m - 1 + 1) with m by lia. unfold DaysInMonth.
    pose proof (monthLength_ge_28 (leapOf (fullYear y)) m
                  (leapOf_range _) Hm).
    unfold k. lia.
  - unfold msPerDay. lia.
  - rewrite HM. cbn [num_eqb]. rewrite Z.eqb_refl. cbn [negb].
    eexists. reflexivity.
Qed.

(** X2. For an occurrence 1..4, a weekday 0..6 and a month 1..12,
    [getNthWeekdayOfMonth] never returns null in the years
    -271820..275759: every month has that weekday at least four times. *)
Theorem nth_weekday_never_null_up_to_fourth (y m w o : Z) :
  1 <= o <= 4 -> 0 <= w <= 6 -> 1 <= m <= 12 ->
  -271820 <= y <= 275759 ->
  getNthWeekdayOfMonth (Some y) m w o <> None.
Proof.
  intros Ho Hw Hm Hy.
  destruct (nth_weekday_exists y m w o Ho Hw Hm Hy) as [d Hd].
  rewrite Hd. discriminate.
Qed.

Lemma nth_weekday_never_null_up_to_fourth_witness :
  1 <= 4 <= 4 /\ 0 <= 4 <= 6 /\ 1 <= 11 <= 12
  /\ -271820 <= 2026 <= 275759
  /\ getNthWeekdayOfMonth (Some 2026) 11 4 4 <> None.
Proof.
  split; [lia |]. split; [lia |]. split; [lia |]. split; [lia |].
  apply nth_weekday_never_null_up_to_fourth; lia.
Defined.

(** ** The next occurrence of a relative entry *)

Lemma getNthWeekdayOfMonth_NaN (m w o : Z) :
  getNthWeekdayOfMonth NaN m w o = None.
Proof. reflexivity. Qed.

(** X3. For a relative entry with occurrence 1..5 and weekday 0..6, and
    any date, [getNextOccurrence] returns either the fallback date
    9999-12-31 or a date on which the entry occurs. *)
Theorem relative_next_occurs_or_fallback (n : string) (o w m : Z)
  (s : option string) (fromDate : Date) :
  1 <= o <= 5 -> 0 <= w <= 6 ->
  getNextOccurrence (RelativeDateEntry n o w m s) fromDate = farFuture
  \/ occursOn (RelativeDateEntry n o w m s)
       (getNextOccurrence (RelativeDateEntry n o w m s) fromDate) = true.
Proof.
  intros Ho Hw. cbn [getNextOccurrence]. unfold nextRelative.
  destruct (getFullYear fromDate) as [y |]; cbn [num_map].
  - assert (Hretry :
      match getNthWeekdayOfMonth (Some (y + 1)) m w o with
      | Some d => d
      | None => farFuture
      end = farFuture
      \/ occursOn (RelativeDateEntry n o w m s)
           match getNthWeekdayOfMonth (Some (y + 1)) m w o with
           | Some d => d
           | None => farFuture
           end = true).
    { destruct (getNthWeekdayOfMonth (Some (y + 1)) m w o) as [d |] eqn:E2.
      - right. exact (relative_occursOn_nth n s _ _ _ _ _ Ho Hw E2).
      - left. reflexivity. }
    destruct (getNthWeekdayOfMonth (Some y) m w o) as [d |] eqn:E1;
      [| exact Hretry].
    destruct (date_leb d fromDate); [exact Hretry |].
    right. exact (relative_occursOn_nth n s _ _ _ _ _ Ho Hw E1).
  - left. reflexivity.
Qed.

Lemma relative_next_occurs_or_fallback_witness :
  1 <= 5 <= 5 /\ 0 <= 1 <= 6
  /\ (getNextOccurrence (RelativeDateEntry "Fifth Monday" 5 1 2 None)
        (newDate (Some 2026) (Some 0) (Some 1)) = farFuture
      \/ occursOn (RelativeDateEntry "Fifth Monday" 5 1 2 None)
           (getNextOccurrence (RelativeDateEntry "Fifth Monday" 5 1 2 None)
              (newDate (Some 2026) (Some 0) (Some 1))) = true).
Proof.
  split; [lia |]. split; [lia |].
  apply relative_next_occurs_or_fallback; lia.
Defined.

(** The fallback is reached by entries of the data model: February has
    no fifth Monday in 2026 nor in 2027. *)
Example fifth_monday_of_february_falls_back :
  getNextOccurrence (RelativeDateEntry "Fifth Monday" 5 1 2 None)
    (newDate (Some 2026) (Some 0) (Some 1))
  = newDate (Some 9999) (Some 11) (Some 31).
Proof. vm_compute. reflexivity. Qed.

(** X4. For a relative entry with occurrence 1..4, weekday 0..6 and month
    1..12, and a date of the years 100..[maxYear], [getNextOccurrence]
    returns a valid date after the given one, in the same year or in the
    next one, on which the entry occurs. *)
Theorem relative_next_occurs_up_to_fourth (n : string) (o w m : Z)
  (s : option string) (fromDate : Date) :
  1 <= o <= 4 -> 0 <= w <= 6 -> 1 <= m <= 12 ->
  inYears 100 maxYear fromDate ->
  exists y t r,
    yearOf fromDate = Some y
    /\ getTime fromDate = Some t
    /\ getTime (getNextOccurrence (RelativeDateEntry n o w m s) fromDate)
       = Some r
    /\ t < r
    /\ y <= YearFromTime r <= y + 1
    /\ occursOn (RelativeDateEntry n o w m s)
         (getNextOccurrence (RelativeDateEntry n o w m s) fromDate) = true.
Proof.
  intros Ho Hw Hm Hy.
  assert (Ho5 : 1 <= o <= 5) by lia.
  destruct (inYears_time _ _ _ Hy) as (t & -> & Ht). unfold maxYear in Ht.
  exists (YearFromTime t), t.
  cbn [getNextOccurrence yearOf getFullYear getTime num_map].
  unfold nextRelative. cbn [getFullYear getTime num_map].
  destruct (nth_weekday_exists (YearFromTime t) m w o) as [d1 E1]; try lia.
  destruct (nth_weekday_exists (YearFromTime t + 1) m w o) as [d2 E2];
    try lia.
  rewrite E1.
  assert (Hfy : forall y, 100 <= y -> fullYear y = y).
  { intros y Hy100. unfold fullYear.
    destruct (Z.leb_spec y 99); [lia |]. rewrite andb_false_r. reflexivity. }
  destruct (date_leb d1 (mkDate (Some t))) eqn:Ele.
  - rewrite E2.
    destruct (nth_weekday_fields _ _ _ _ _ Ho5 Hw E2)
      as (t2 & f & Ht2 & _ & _ & HY & _).
    rewrite Hfy in HY by lia.
    destruct (getNthWeekdayOfMonth_some _ _ _ _ _ (proj1 Ho) Hw E2)
      as (y0 & k & [= <-] & Hk & Hd).
    exists t2. split; [reflexivity |]. split; [reflexivity |].
    split; [exact Ht2 |]. split.
    + rewrite Ht2 in Hd. apply some_eq in Hd. rewrite Hd.
      apply before_next_year; lia.
    + split; [lia |].
      exact (relative_occursOn_nth n s _ _ _ _ _ Ho5 Hw E2).
  - destruct (nth_weekday_fields _ _ _ _ _ Ho5 Hw E1)
      as (t1 & f & Ht1 & _ & _ & HY & _).
    rewrite Hfy in HY by lia.
    exists t1. split; [reflexivity |]. split; [reflexivity |].
    split; [exact Ht1 |]. split.
    + unfold date_leb in Ele. rewrite Ht1 in Ele. cbn in Ele.
      apply Z.leb_gt in Ele. exact Ele.
    + split; [lia |].
      exact (relative_occursOn_nth n s _ _ _ _ _ Ho5 Hw E1).
Qed.

Lemma relative_next_occurs_up_to_fourth_witness :
  1 <= 4 <= 4 /\ 0 <= 4 <= 6 /\ 1 <= 11 <= 12
  /\ inYears 100 maxYear (newDate (Some 2026) (Some 11) (Some 1))
  /\ exists y t r,
       yearOf (newDate (Some 2026) (Some 11) (Some 1)) = Some y
       /\ getTime (newDate (Some 2026) (Some 11) (Some 1)) = Some t
       /\ getTime (getNextOccurrence
                     (RelativeDateEntry "Thanksgiving" 4 4 11 None)
                     (newDate (Some 2026) (Some 11) (Some 1))) = Some r
       /\ t < r
       /\ y <= YearFromTime r <= y + 1
       /\ occursOn (RelativeDateEntry "Thanksgiving" 4 4 11 None)
            (getNextOccurrence
               (RelativeDateEntry "Thanksgiving" 4 4 11 None)
               (newDate (Some 2026) (Some 11) (Some 1))) = true.
Proof.
  assert (Hy : inYears 100 maxYear (newDate (Some 2026) (Some 11) (Some 1))).
  { exists 2026. split; [vm_compute; reflexivity | unfold maxYear; lia]. }
  split; [lia |]. split; [lia |]. split; [lia |]. split; [exact Hy |].
  apply relative_next_occurs_up_to_fourth; [lia | lia | lia | exact Hy].
Defined.

(** ** The next occurrence of a month/day *)

Lemma fullYear_id (y : Z) : y < 0 \/ 100 <= y -> fullYear y = y.
Proof.
  intros H. unfold fullYear.
  destruct (Z.leb_spec 0 y); [| reflexivity].
  destruct (Z.leb_spec y 99); [lia | reflexivity].
Qed.

Lemma daysBeforeMonth_leap (leap mn : Z) :
  0 <= mn <= 11 ->
  daysBeforeMonth leap mn
  = daysBeforeMonth 0 mn + (if mn <? 2 then 0 else leap).
Proof.
  intros Hm. month_cases mn; cbv beta iota delta [daysBeforeMonth]; cbn; lia.
Qed.

(** The same month and day one year later is 365 or 366 days later. *)
Lemma MakeDay_year_step (y mn dt : Z) :
  0 <= mn <= 11 ->
  365 <= MakeDay (y + 1) mn dt - MakeDay y mn dt <= 366.
Proof.
  intros Hm. rewrite !MakeDay_month by exact Hm.
  rewrite DayFromYear_succ, DaysInYear_leapOf.
  rewrite (daysBeforeMonth_leap (leapOf (y + 1))),
    (daysBeforeMonth_leap (leapOf y)) by exact Hm.
  pose proof (leapOf_range y). pose proof (leapOf_range (y + 1)).
  destruct (mn <? 2); lia.
Qed.

Lemma MakeDay_year_le (y1 y2 mn dt : Z) :
  0 <= mn <= 11 -> y1 <= y2 -> MakeDay y1 mn dt <= MakeDay y2 mn dt.
Proof.
  intros Hm Hy.
  destruct (Z.eq_dec y1 y2) as [-> | Hne]; [lia |].
  rewrite !MakeDay_month by exact Hm.
  pose proof (DayFromYear_mono (y1 + 1) y2 ltac:(lia)) as Hmono.
  rewrite DayFromYear_succ, DaysInYear_leapOf in Hmono.
  rewrite (daysBeforeMonth_leap (leapOf y1)),
    (daysBeforeMonth_leap (leapOf y2)) by exact Hm.
  pose proof (leapOf_range y1). pose proof (leapOf_range y2).
  destruct (mn <? 2); lia.
Qed.

Lemma MakeDate_le (a b : Z) : a <= b -> MakeDate a 0 <= MakeDate b 0.
Proof. unfold MakeDate, msPerDay. lia. Qed.

Lemma YearFromTime_mono (a b : Z) :
  a <= b -> YearFromTime a <= YearFromTime b.
Proof.
  intros H.
  destruct (Z.le_gt_cases (YearFromTime a) (YearFromTime b)) as [| Hgt];
    [assumption | exfalso].
  pose proof (YearFromTime_spec a) as [Ha _].
  pose proof (YearFromTime_spec b) as [_ Hb].
  pose proof (DayFromYear_mono (YearFromTime b + 1) (YearFromTime a)
                ltac:(lia)).
  pose proof (Day_le a b H). lia.
Qed.

(** A time is the midnight of its calendar day plus its time within the
    day. *)
Lemma time_of_fields (t : Z) :
  MakeDate (MakeDay (YearFromTime t) (MonthFromTime t) (DateFromTime t))
    (TimeWithinDay t) = t.
Proof.
  pose proof (setDate_shift t 0) as H.
  rewrite Z.add_0_r in H. rewrite H. lia.
Qed.

(** The two branches of the next occurrence of a month/day, in years
    where the constructor takes the year as it is. *)
Lemma nextMonthDay_cases (m day t : Z) :
  1 <= m <= 12 -> 1 <= day <= 31 ->
  100 <= YearFromTime t <= maxYear ->
  let d0 := MakeDate (MakeDay (YearFromTime t) (m - 1) day) 0 in
  let d1 := MakeDate (MakeDay (YearFromTime t + 1) (m - 1) day) 0 in
  (d0 <= t /\ getTime (nextMonthDay m day (mkDate (Some t))) = Some d1)
  \/ (t < d0 /\ getTime (nextMonthDay m day (mkDate (Some t))) = Some d0).
Proof.
  intros Hm Hd Hy d0 d1. unfold maxYear in Hy.
  unfold nextMonthDay. cbn [getFullYear getTime num_map].
  unfold date_leb.
  rewrite (newDate_valid (YearFromTime t) (m - 1) day) by lia.
  rewrite (fullYear_id (YearFromTime t)) by lia.
  cbn [getTime num_leb]. fold d0.
  destruct (Z.leb_spec d0 t) as [Hle | Hgt].
  - left. split; [exact Hle |].
    rewrite (newDate_valid (YearFromTime t + 1) (m - 1) day) by lia.
    rewrite (fullYear_id (YearFromTime t + 1)) by lia. reflexivity.
  - right. split; [exact Hgt |].
    rewrite (newDate_valid (YearFromTime t) (m - 1) day) by lia.
    rewrite (fullYear_id (YearFromTime t)) by lia. reflexivity.
Qed.

(** X5. For a FixedAnnual or FixedDated entry of the data model (month
    1..12, day 1..31) and a date of the years 100..[maxYear], the next
    occurrence is at most 366 days after the given date. *)
Theorem fixed_next_within_366_days (e : Entry) (fromDate : Date) :
  wellFormed e -> isRelative e = false ->
  inYears 100 maxYear fromDate ->
  exists t r,
    getTime fromDate = Some t
    /\ getTime (getNextOccurrence e fromDate) = Some r
    /\ t < r <= t + 366 * msPerDay.
Proof.
  intros He Hrel Hy.
  destruct (inYears_time _ _ _ Hy) as (t & -> & Ht).
  assert (Hgen : forall m day,
             1 <= m <= 12 -> 1 <= day <= 31 ->
             exists r,
               getTime (nextMonthDay m day (mkDate (Some t))) = Some r
               /\ t < r <= t + 366 * msPerDay).
  { intros m day Hm Hd.
    pose proof (YearFromTime_spec t) as [Hlo Hhi].
    pose proof (MakeDay_upper (YearFromTime t) (m - 1) day
                  ltac:(lia) ltac:(lia)) as Hup.
    pose proof (MakeDay_lower (YearFromTime t + 1) (m - 1) day
                  ltac:(lia) ltac:(lia)) as Hlow.
    pose proof (MakeDay_year_step (YearFromTime t) (m - 1) day
                  ltac:(lia)) as Hstep.
    rewrite DayFromYear_succ in Hup, Hhi, Hlow.
    pose proof (DaysInYear_range (YearFromTime t)) as Hdy.
    destruct (nextMonthDay_cases m day t Hm Hd Ht) as [[H0 Hr] | [H0 Hr]];
      (eexists; split; [exact Hr |]);
      revert H0 Hlo Hhi; unfold MakeDate, Day, msPerDay; intros;
      Z.div_mod_to_equations; lia. }
  exists t.
  destruct e as [n m d s | n m d y s | n o w m s]; cbn in He, Hrel |- *;
    try discriminate; destruct He as [Hm Hd];
    destruct (Hgen m d Hm Hd) as (r & Hr & Hb); exists r; auto.
Qed.

Lemma fixed_next_within_366_days_witness :
  wellFormed (ExactDateEntry "Leap Day" 2 29 None)
  /\ isRelative (ExactDateEntry "Leap Day" 2 29 None) = false
  /\ inYears 100 maxYear (newDate (Some 2024) (Some 1) (Some 29))
  /\ exists t r,
       getTime (newDate (Some 2024) (Some 1) (Some 29)) = Some t
       /\ getTime (getNextOccurrence (ExactDateEntry "Leap Day" 2 29 None)
                     (newDate (Some 2024) (Some 1) (Some 29))) = Some r
       /\ t < r <= t + 366 * msPerDay.
Proof.
  assert (He : wellFormed (ExactDateEntry "Leap Day" 2 29 None))
    by (cbn; lia).
  assert (Hy : inYears 100 maxYear (newDate (Some 2024) (Some 1) (Some 29))).
  { exists 2024. split; [vm_compute; reflexivity | unfold maxYear; lia]. }
  split; [exact He |]. split; [reflexivity |]. split; [exact Hy |].
  apply fixed_next_within_366_days; [exact He | reflexivity | exact Hy].
Defined.

(** X6. For a FixedAnnual entry of the data model and a date of the years
    100..[maxYear], no midnight on which the entry occurs lies strictly
    between the given date and the date [getNextOccurrence] returns. *)
Theorem annual_next_is_earliest (n : string) (m day : Z)
  (s : option string) (fromDate q : Date) :
  1 <= m <= 12 -> 1 <= day <= 31 ->
  inYears 100 maxYear fromDate ->
  atMidnight q ->
  occursOn (ExactDateEntry n m day s) q = true ->
  dateLt fromDate q ->
  dateLe (getNextOccurrence (ExactDateEntry n m day s) fromDate) q.
Proof.
  intros Hm Hd Hy (tq & Hq & Hmid) Hocc (t0 & tq0 & Ht0 & Hq0 & Hlt).
  destruct (inYears_time _ _ _ Hy) as (t & -> & Ht).
  cbn [getTime] in Ht0. injection Ht0 as <-.
  rewrite Hq in Hq0. injection Hq0 as <-.
  unfold occursOn, getMonth, getDate in Hocc. rewrite Hq in Hocc.
  cbn [num_map num_eqb] in Hocc.
  apply andb_true_iff in Hocc. destruct Hocc as [HM HD].
  apply Z.eqb_eq in HM, HD.
  pose proof (time_of_fields tq) as Htq. rewrite HM, HD, Hmid in Htq.
  pose proof (YearFromTime_mono t tq ltac:(lia)) as Hyear.
  cbn [getNextOccurrence].
  destruct (nextMonthDay_cases m day t Hm Hd Ht) as [[H0 Hr] | [H0 Hr]].
  - exists (MakeDate (MakeDay (YearFromTime t + 1) (m - 1) day) 0), tq.
    split; [exact Hr |]. split; [exact Hq |].
    rewrite <- Htq. apply MakeDate_le. apply MakeDay_year_le; [lia |].
    destruct (Z.eq_dec (YearFromTime tq) (YearFromTime t)) as [E | Hne];
      [| lia].
    rewrite E in Htq. lia.
  - exists (MakeDate (MakeDay (YearFromTime t) (m - 1) day) 0), tq.
    split; [exact Hr |]. split; [exact Hq |].
    rewrite <- Htq. apply MakeDate_le. apply MakeDay_year_le; lia.
Qed.

Lemma annual_next_is_earliest_witness :
  1 <= 3 <= 12 /\ 1 <= 14 <= 31
  /\ inYears 100 maxYear (newDate (Some 2026) (Some 2) (Some 14))
  /\ atMidnight (newDate (Some 2028) (Some 2) (Some 14))
  /\ occursOn (ExactDateEntry "Pi Day" 3 14 None)
       (newDate (Some 2028) (Some 2) (Some 14)) = true
  /\ dateLt (newDate (Some 2026) (Some 2) (Some 14))
       (newDate (Some 2028) (Some 2) (Some 14))
  /\ dateLe (getNextOccurrence (ExactDateEntry "Pi Day" 3 14 None)
               (newDate (Some 2026) (Some 2) (Some 14)))
       (newDate (Some 2028) (Some 2) (Some 14)).
Proof.
  assert (Hy : inYears 100 maxYear (newDate (Some 2026) (Some 2) (Some 14))).
  { exists 2026. split; [vm_compute; reflexivity | unfold maxYear; lia]. }
  assert (Hq : atMidnight (newDate (Some 2028) (Some 2) (Some 14))).
  { eexists. split; [vm_compute; reflexivity | vm_compute; reflexivity]. }
  assert (Hlt : dateLt (newDate (Some 2026) (Some 2) (Some 14))
                  (newDate (Some 2028) (Some 2) (Some 14))).
  { eexists. eexists. split; [vm_compute; reflexivity |].
    split; [vm_compute; reflexivity | lia]. }
  split; [lia |]. split; [lia |]. split; [exact Hy |]. split; [exact Hq |].
  split; [vm_compute; reflexivity |]. split; [exact Hlt |].
  apply annual_next_is_earliest;
    [lia | lia | exact Hy | exact Hq | vm_compute; reflexivity | exact Hlt].
Defined.

(** ** Dated entries *)

(** X7. For a FixedDated entry of the data model whose stored year is
    before the year of the given date (a date of the years
    100..[maxYear]), the entry does not occur on the date that
    [getNextOccurrence] returns: that date is an anniversary, and
    [occursOn] matches the original date only. *)
Theorem dated_past_next_does_not_occur (n : string) (m day year : Z)
  (s : option string) (fromDate : Date) :
  1 <= m <= 12 -> 1 <= day <= 31 ->
  inYears (Z.max 100 (year + 1)) maxYear fromDate ->
  occursOn (ExactDateWithYearEntry n m day year s)
    (getNextOccurrence (ExactDateWithYearEntry n m day year s) fromDate)
  = false.
Proof.
  intros Hm Hd Hy.
  destruct (inYears_time _ _ _ Hy) as (t & -> & Ht).
  cbn [getNextOccurrence].
  assert (HY : forall Y, Y = YearFromTime t \/ Y = YearFromTime t + 1 ->
             (YearFromTime (MakeDate (MakeDay Y (m - 1) day) 0) =? year)
             = false).
  { intros Y HYc. rewrite YearFromTime_MakeDay by lia.
    apply Z.eqb_neq. lia. }
  destruct (nextMonthDay_cases m day t Hm Hd ltac:(lia)) as [[_ Hr] | [_ Hr]];
    destruct (nextMonthDay m day (mkDate (Some t))) as [tv];
    cbn [getTime] in Hr; subst tv;
    unfold occursOn, getFullYear; cbn [getTime num_map num_eqb];
    rewrite HY by auto; reflexivity.
Qed.

Lemma dated_past_next_does_not_occur_witness :
  1 <= 8 <= 12 /\ 1 <= 19 <= 31
  /\ inYears (Z.max 100 (1919 + 1)) maxYear
       (newDate (Some 2026) (Some 0) (Some 1))
  /\ occursOn (ExactDateWithYearEntry "Afghanistan" 8 19 1919 None)
       (getNextOccurrence
          (ExactDateWithYearEntry "Afghanistan" 8 19 1919 None)
          (newDate (Some 2026) (Some 0) (Some 1))) = false.
Proof.
  assert (Hy : inYears (Z.max 100 (1919 + 1)) maxYear
                 (newDate (Some 2026) (Some 0) (Some 1))).
  { exists 2026. split; [vm_compute; reflexivity |].
    unfold maxYear. lia. }
  split; [lia |]. split; [lia |]. split; [exact Hy |].
  apply dated_past_next_does_not_occur; [lia | lia | exact Hy].
Defined.

(** X8. For a month/day of the data model and a target year in
    100..275759, the anniversary built by [getAnniversary] lies in the
    target year, so [getYearsSince] of it is the target year minus the
    stored year; and when the day exists in the month in every year, the
    dated entry occurs on that anniversary exactly when the target year is
    the stored year. *)
Theorem anniversary_years_since (n : string) (m day year target : Z)
  (s : option string) :
  1 <= m <= 12 -> 1 <= day <= monthLength 0 m ->
  100 <= target <= 275759 ->
  getYearsSince year (getAnniversary m day target) = Some (target - year)
  /\ (occursOn (ExactDateWithYearEntry n m day year s)
        (getAnniversary m day target) = true
      <-> target = year).
Proof.
  intros Hm Hd Ht.
  pose proof (monthLength_bounds 0 m ltac:(lia) Hm) as Hb.
  pose proof (monthLength_bounds (leapOf target) m (leapOf_range _) Hm)
    as Hb2.
  unfold getAnniversary.
  pose proof (newDate_valid target (m - 1) day ltac:(lia) ltac:(lia)
                ltac:(lia)) as Hv.
  rewrite fullYear_id in Hv by lia.
  destruct (newDate (Some target) (Some (m - 1)) (Some day)) as [tv].
  cbn [getTime] in Hv. subst tv.
  destruct (fields_of_MakeDay target (m - 1) day 0) as (HY & HM & HD).
  - lia.
  - replace (m - 1 + 1) with m by lia. unfold DaysInMonth. lia.
  - unfold msPerDay. lia.
  - unfold getYearsSince, occursOn, getFullYear, getMonth, getDate.
    cbn [getTime num_map num_eqb]. rewrite HY, HM, HD.
    split; [reflexivity |].
    rewrite !Z.eqb_refl, !andb_true_r. apply Z.eqb_eq.
Qed.

Lemma anniversary_years_since_witness :
  1 <= 8 <= 12 /\ 1 <= 19 <= monthLength 0 8
  /\ 100 <= 2026 <= 275759
  /\ getYearsSince 1919 (getAnniversary 8 19 2026) = Some (2026 - 1919)
  /\ (occursOn (ExactDateWithYearEntry "Afghanistan" 8 19 1919 None)
        (getAnniversary 8 19 2026) = true
      <-> 2026 = 1919).
Proof.
  split; [lia |]. split; [cbn; lia |]. split; [lia |].
  apply anniversary_years_since; [lia | cbn; lia | lia].
Defined.

(** ** [getOccurrencesInRange] *)

Lemma yearLoop_In (a b y : Z) :
  In y (yearLoop (Some a) (Some b)) <-> a <= y <= b.
Proof.
  unfold yearLoop. rewrite in_map_iff. split.
  - intros (i & <- & Hi). apply in_seq in Hi. lia.
  - intros H. exists (Z.to_nat (y - a)). split; [lia |].
    apply in_seq. lia.
Qed.

Lemma yearLoop_None (a b : Num) (y : Z) :
  In y (yearLoop a b) -> exists a0 b0, a = Some a0 /\ b = Some b0.
Proof.
  destruct a as [a0 |], b as [b0 |]; cbn; try contradiction.
  intros _. exists a0, b0. split; reflexivity.
Qed.

Lemma count_up_sorted (a : Z) (n k : nat) :
  StronglySorted Z.lt (map (fun i => a + Z.of_nat i) (seq k n)).
Proof.
  revert k. induction n as [| n IH]; intros k; cbn.
  - constructor.
  - constructor; [apply IH |].
    apply Forall_forall. intros y Hy. apply in_map_iff in Hy.
    destruct Hy as (i & <- & Hi). apply in_seq in Hi. lia.
Qed.

Lemma yearLoop_sorted (a b : Num) : StronglySorted Z.lt (yearLoop a b).
Proof.
  destruct a as [a0 |], b as [b0 |]; cbn; try constructor.
  apply count_up_sorted.
Qed.

Lemma inRange_true (startDate endDate d : Date) :
  inRange startDate endDate d = true <->
  dateLe startDate d /\ dateLe d endDate.
Proof.
  unfold inRange, date_geb, num_geb, date_leb, dateLe.
  rewrite andb_true_iff, !num_leb_true. tauto.
Qed.

Lemma MakeDay_year_lt (y1 y2 mn dt : Z) :
  0 <= mn <= 11 -> y1 < y2 -> MakeDay y1 mn dt < MakeDay y2 mn dt.
Proof.
  intros Hm Hy.
  pose proof (MakeDay_year_step y1 mn dt Hm).
  pose proof (MakeDay_year_le (y1 + 1) y2 mn dt Hm ltac:(lia)). lia.
Qed.

(** X9. For a FixedAnnual entry with month 1..12 and a range that starts
    in the year 100 or later, [getOccurrencesInRange] returns valid dates
    in strictly ascending order, each between the start and the end of the
    range, both included. *)
Theorem annual_range_ascending (n : string) (m day : Z) (s : option string)
  (startDate endDate : Date) :
  1 <= m <= 12 ->
  inYears 100 275760 startDate ->
  StronglySorted dateLt
    (getOccurrencesInRange (ExactDateEntry n m day s) startDate endDate)
  /\ Forall (fun d => dateLe startDate d /\ dateLe d endDate)
       (getOccurrencesInRange (ExactDateEntry n m day s) startDate endDate).
Proof.
  intros Hm Hy. cbn [getOccurrencesInRange]. unfold annualOccurrencesInRange.
  split.
  - destruct Hy as (y0 & Hy0 & Hy100). unfold yearOf in Hy0.
    assert (Hall : Forall (fun y => 100 <= y)
                     (yearLoop (getFullYear startDate)
                        (getFullYear endDate))).
    { apply Forall_forall. intros y Hin.
      destruct (yearLoop_None _ _ _ Hin) as (a0 & b0 & Ha & Hb).
      rewrite Ha, Hb in Hin. apply yearLoop_In in Hin.
      rewrite Hy0 in Ha. injection Ha as <-. lia. }
    pose proof (yearLoop_sorted (getFullYear startDate)
                  (getFullYear endDate)) as Hs.
    induction Hs as [| y rest Hs IH Hlt]; cbn [map filter].
    + constructor.
    + inversion Hall as [| ? ? Hy1 Hrest]; subst.
      specialize (IH Hrest).
      destruct (inRange startDate endDate
                  (newDate (Some y) (Some (m - 1)) (Some day))) eqn:E;
        [| exact IH].
      constructor; [exact IH |].
      apply Forall_forall. intros d Hd.
      apply filter_In in Hd. destruct Hd as [Hd Hin].
      apply in_map_iff in Hd. destruct Hd as (y2 & <- & Hy2).
      rewrite Forall_forall in Hlt, Hrest.
      pose proof (Hlt _ Hy2) as Hlt2. pose proof (Hrest _ Hy2) as H100.
      apply inRange_true in E, Hin.
      destruct E as [_ (x1 & _ & Hx1 & _)].
      destruct Hin as [_ (x2 & _ & Hx2 & _)].
      exists x1, x2. split; [exact Hx1 |]. split; [exact Hx2 |].
      destruct (newDate_time _ _ _ _ Hx1)
        as (? & ? & ? & [= <-] & [= <-] & [= <-] & ->).
      destruct (newDate_time _ _ _ _ Hx2)
        as (? & ? & ? & [= <-] & [= <-] & [= <-] & ->).
      rewrite !fullYear_id by lia.
      pose proof (MakeDay_year_lt y y2 (m - 1) day ltac:(lia) Hlt2).
      unfold MakeDate, msPerDay. lia.
  - apply Forall_forall. intros d Hd.
    apply filter_In in Hd. destruct Hd as [_ Hin].
    apply inRange_true. exact Hin.
Qed.

Lemma annual_range_ascending_witness :
  1 <= 3 <= 12
  /\ inYears 100 275760 (newDate (Some 2024) (Some 0) (Some 1))
  /\ StronglySorted dateLt
       (getOccurrencesInRange (ExactDateEntry "Pi Day" 3 14 None)
          (newDate (Some 2024) (Some 0) (Some 1))
          (newDate (Some 2026) (Some 11) (Some 31)))
  /\ Forall (fun d => dateLe (newDate (Some 2024) (Some 0) (Some 1)) d
                      /\ dateLe d (newDate (Some 2026) (Some 11) (Some 31)))
       (getOccurrencesInRange (ExactDateEntry "Pi Day" 3 14 None)
          (newDate (Some 2024) (Some 0) (Some 1))
          (newDate (Some 2026) (Some 11) (Some 31))).
Proof.
  assert (Hy : inYears 100 275760 (newDate (Some 2024) (Some 0) (Some 1))).
  { exists 2024. split; [vm_compute; reflexivity | lia]. }
  split; [lia |]. split; [exact Hy |].
  apply annual_range_ascending; [lia | exact Hy].
Defined.

(** The test of the repository: three occurrences of March 14 from 2024
    to 2026. *)
Example test_annual_range :
  getOccurrencesInRange (ExactDateEntry "Pi Day" 3 14 None)
    (newDate (Some 2024) (Some 0) (Some 1))
    (newDate (Some 2026) (Some 11) (Some 31))
  = [newDate (Some 2024) (Some 2) (Some 14);
     newDate (Some 2025) (Some 2) (Some 14);
     newDate (Some 2026) (Some 2) (Some 14)].
Proof. vm_compute. reflexivity. Qed.

(** A month/day date of the data model that lies in the range is found
    by the loop over the years of the range. *)
Lemma annual_range_complete_aux (m day Y : Z) (startDate endDate : Date) :
  1 <= m <= 12 -> 1 <= day <= 31 ->
  inRange startDate endDate (newDate (Some Y) (Some (m - 1)) (Some day))
  = true ->
  In (newDate (Some Y) (Some (m - 1)) (Some day))
    (annualOccurrencesInRange m day startDate endDate).
Proof.
  intros Hm Hd Hin. unfold annualOccurrencesInRange.
  apply filter_In. split; [| exact Hin].
  apply inRange_true in Hin.
  destruct Hin as [(ts & to & Hs & Ho & Hso) (to2 & te & Ho2 & He & Hoe)].
  rewrite Ho in Ho2. apply some_eq in Ho2. subst to2.
  destruct (newDate_time _ _ _ _ Ho)
    as (? & ? & ? & [= <-] & [= <-] & [= <-] & Hto).
  assert (HY : YearFromTime to = fullYear Y).
  { rewrite Hto. apply YearFromTime_MakeDay; lia. }
  apply in_map_iff. exists (fullYear Y). split.
  - unfold newDate. rewrite fullYear_idem. reflexivity.
  - unfold getFullYear. rewrite Hs, He. cbn [num_map].
    apply yearLoop_In. rewrite <- HY.
    split; apply YearFromTime_mono; assumption.
Qed.

(** X10. For a FixedAnnual entry of the data model, the loop of
    [getOccurrencesInRange] over the years of the range misses nothing:
    the date the constructor builds from the stored month and day for any
    year is returned as soon as it lies between the start and the end of
    the range. *)
Theorem annual_range_complete (n : string) (m day Y : Z)
  (s : option string) (startDate endDate : Date) :
  1 <= m <= 12 -> 1 <= day <= 31 ->
  dateLe startDate (newDate (Some Y) (Some (m - 1)) (Some day)) ->
  dateLe (newDate (Some Y) (Some (m - 1)) (Some day)) endDate ->
  In (newDate (Some Y) (Some (m - 1)) (Some day))
    (getOccurrencesInRange (ExactDateEntry n m day s) startDate endDate).
Proof.
  intros Hm Hd H1 H2. cbn [getOccurrencesInRange].
  apply annual_range_complete_aux; [exact Hm | exact Hd |].
  apply inRange_true. split; assumption.
Qed.

Lemma annual_range_complete_witness :
  1 <= 3 <= 12 /\ 1 <= 14 <= 31
  /\ dateLe (newDate (Some 2024) (Some 2) (Some 14))
       (newDate (Some 2025) (Some (3 - 1)) (Some 14))
  /\ dateLe (newDate (Some 2025) (Some (3 - 1)) (Some 14))
       (newDate (Some 2026) (Some 0) (Some 1))
  /\ In (newDate (Some 2025) (Some (3 - 1)) (Some 14))
       (getOccurrencesInRange (ExactDateEntry "Pi Day" 3 14 None)
          (newDate (Some 2024) (Some 2) (Some 14))
          (newDate (Some 2026) (Some 0) (Some 1))).
Proof.
  assert (H1 : dateLe (newDate (Some 2024) (Some 2) (Some 14))
                 (newDate (Some 2025) (Some (3 - 1)) (Some 14))).
  { exists 1710374400000, 1741910400000.
    split; [vm_compute; reflexivity |].
    split; [vm_compute; reflexivity | lia]. }
  assert (H2 : dateLe (newDate (Some 2025) (Some (3 - 1)) (Some 14))
                 (newDate (Some 2026) (Some 0) (Some 1))).
  { exists 1741910400000, 1767225600000.
    split; [vm_compute; reflexivity |].
    split; [vm_compute; reflexivity | lia]. }
  split; [lia |]. split; [lia |]. split; [exact H1 |]. split; [exact H2 |].
  exact (annual_range_complete "Pi Day" 3 14 2025 None
           (newDate (Some 2024) (Some 2) (Some 14))
           (newDate (Some 2026) (Some 0) (Some 1))
           ltac:(lia) ltac:(lia) H1 H2).
Defined.

(** A valid date that the constructor builds from a month 1..12 and a
    day that exists in that month in every year has that month and that
    day, and the year the constructor used. *)
Lemma newDate_fields (Y m day t : Z) :
  1 <= m <= 12 -> 1 <= day <= monthLength 0 m ->
  getTime (newDate (Some Y) (Some (m - 1)) (Some day)) = Some t ->
  YearFromTime t = fullYear Y
  /\ MonthFromTime t = m - 1 /\ DateFromTime t = day.
Proof.
  intros Hm Hd Ht.
  destruct (newDate_time _ _ _ _ Ht)
    as (? & ? & ? & [= <-] & [= <-] & [= <-] & ->).
  apply fields_of_MakeDay.
  - lia.
  - replace (m - 1 + 1) with m by lia. unfold DaysInMonth.
    pose proof (monthLength_bounds (leapOf (fullYear Y)) m
                  (leapOf_range _) Hm). lia.
  - unfold msPerDay. lia.
Qed.

(** X11. For a regular entry of any of the three variants (a fixed
    month/day that exists in every year, with a stored year outside
    0..99 for a dated entry; a relative rule with occurrence 1..5 and
    weekday 0..6), every date that [getOccurrencesInRange] returns is a
    date on which the entry occurs, and lies in the range. *)
Theorem range_results_occur (e : Entry) (startDate endDate : Date) :
  regular e ->
  Forall (fun d => occursOn e d = true
                   /\ dateLe startDate d /\ dateLe d endDate)
    (getOccurrencesInRange e startDate endDate).
Proof.
  intros He. apply Forall_forall. intros d Hd.
  destruct e as [n m day s | n m day y s | n o w m s];
    cbn [getOccurrencesInRange regular] in He, Hd.
  - destruct He as [Hm Hday].
    unfold annualOccurrencesInRange in Hd. apply filter_In in Hd.
    destruct Hd as [Hd Hin]. apply inRange_true in Hin.
    split; [| exact Hin].
    apply in_map_iff in Hd. destruct Hd as (Y & <- & _).
    destruct Hin as [_ (t & _ & Ht & _)].
    destruct (newDate_fields Y m day t Hm Hday Ht) as (_ & HM & HD).
    unfold occursOn, getMonth, getDate. rewrite Ht. cbn [num_map num_eqb].
    rewrite HM, HD, !Z.eqb_refl. reflexivity.
  - destruct He as (Hm & Hday & Hyr).
    unfold datedOccurrencesInRange in Hd.
    destruct (inRange startDate endDate
                (newDate (Some y) (Some (m - 1)) (Some day))) eqn:E;
      [| contradiction].
    destruct Hd as [<- | []]. apply inRange_true in E.
    split; [| exact E].
    destruct E as [_ (t & _ & Ht & _)].
    destruct (newDate_fields y m day t Hm Hday Ht) as (HY & HM & HD).
    rewrite fullYear_id in HY by exact Hyr.
    unfold occursOn, getFullYear, getMonth, getDate. rewrite Ht.
    cbn [num_map num_eqb]. rewrite HY, HM, HD, !Z.eqb_refl. reflexivity.
  - destruct He as [Ho Hw].
    unfold relativeOccurrencesInRange in Hd. apply in_flat_map in Hd.
    destruct Hd as (Y & _ & Hd).
    destruct (getNthWeekdayOfMonth (Some Y) m w o) as [d0 |] eqn:E;
      [| contradiction].
    destruct (inRange startDate endDate d0) eqn:Er; [| contradiction].
    destruct Hd as [<- | []]. apply inRange_true in Er.
    split; [| exact Er].
    exact (relative_occursOn_nth n s _ _ _ _ _ Ho Hw E).
Qed.

Lemma range_results_occur_witness :
  regular (RelativeDateEntry "Labor Day" 1 1 9 None)
  /\ Forall (fun d => occursOn (RelativeDateEntry "Labor Day" 1 1 9 None) d
                      = true
                      /\ dateLe (newDate (Some 2024) (Some 0) (Some 1)) d
                      /\ dateLe d (newDate (Some 2026) (Some 11) (Some 31)))
       (getOccurrencesInRange (RelativeDateEntry "Labor Day" 1 1 9 None)
          (newDate (Some 2024) (Some 0) (Some 1))
          (newDate (Some 2026) (Some 11) (Some 31))).
Proof.
  assert (He : regular (RelativeDateEntry "Labor Day" 1 1 9 None))
    by (cbn; lia).
  split; [exact He |].
  apply range_results_occur. exact He.
Defined.

(** X12. The range query of a FixedDated entry of the data model returns
    at most one date, and a date it returns is also returned, for the same
    range, by the FixedAnnual entry of the same month and day. *)
Theorem dated_range_in_annual_range (n n2 : string) (m day year : Z)
  (s s2 : option string) (startDate endDate : Date) :
  1 <= m <= 12 -> 1 <= day <= 31 ->
  (List.length (getOccurrencesInRange (ExactDateWithYearEntry n m day year s)
             startDate endDate) <= 1)%nat
  /\ incl (getOccurrencesInRange (ExactDateWithYearEntry n m day year s)
             startDate endDate)
       (getOccurrencesInRange (ExactDateEntry n2 m day s2)
          startDate endDate).
Proof.
  intros Hm Hd. cbn [getOccurrencesInRange]. unfold datedOccurrencesInRange.
  destruct (inRange startDate endDate
              (newDate (Some year) (Some (m - 1)) (Some day))) eqn:E.
  - split; [cbn; lia |].
    intros d [<- | []].
    apply annual_range_complete_aux; assumption.
  - split; [cbn; lia |]. intros d [].
Qed.

Lemma dated_range_in_annual_range_witness :
  1 <= 8 <= 12 /\ 1 <= 19 <= 31
  /\ le (List.length
            (getOccurrencesInRange
               (ExactDateWithYearEntry "Afghanistan" 8 19 1919 None)
               (newDate (Some 1918) (Some 0) (Some 1))
               (newDate (Some 1920) (Some 11) (Some 31)))) 1%nat
  /\ incl (getOccurrencesInRange
             (ExactDateWithYearEntry "Afghanistan" 8 19 1919 None)
             (newDate (Some 1918) (Some 0) (Some 1))
             (newDate (Some 1920) (Some 11) (Some 31)))
       (getOccurrencesInRange (ExactDateEntry "August 19" 8 19 None)
          (newDate (Some 1918) (Some 0) (Some 1))
          (newDate (Some 1920) (Some 11) (Some 31))).
Proof.
  split; [lia |]. split; [lia |].
  apply dated_range_in_annual_range; lia.
Defined.

(** ** The window queries *)

(** The common body of the window queries, for an end date [endDate]. *)
Lemma window_In (entries : list Entry) (fromDate endDate : Date)
  (o : Occurrence) :
  In o (sort byDate
          (filter (fun o => date_geb (date o) fromDate
                            && date_leb (date o) endDate)
             (map (fun e => mkOccurrence e (getNextOccurrence e fromDate))
                entries)))
  <-> In (entry o) entries
      /\ date o = getNextOccurrence (entry o) fromDate
      /\ dateLe fromDate (date o) /\ dateLe (date o) endDate.
Proof.
  split.
  - intros Hin.
    apply (Permutation_in _ (sort_Permutation byDate _)) in Hin.
    apply filter_In in Hin. destruct Hin as [Hmap Hc].
    apply in_map_iff in Hmap. destruct Hmap as (e & <- & He).
    cbn [entry date] in *.
    split; [exact He |]. split; [reflexivity |].
    apply (inRange_true fromDate endDate). exact Hc.
  - intros (He & Hd & Hr).
    apply (Permutation_in _ (Permutation_sym (sort_Permutation byDate _))).
    apply filter_In. split.
    + apply in_map_iff. exists (entry o). split; [| exact He].
      destruct o as [e d]. cbn [entry date] in *. rewrite Hd. reflexivity.
    + apply (inRange_true fromDate endDate). exact Hr.
Qed.

Lemma window_sorted (entries : list Entry) (fromDate endDate : Date) :
  StronglySorted (fun a b => dateLe (date a) (date b))
    (sort byDate
       (filter (fun o => date_geb (date o) fromDate
                         && date_leb (date o) endDate)
          (map (fun e => mkOccurrence e (getNextOccurrence e fromDate))
             entries))).
Proof.
  apply (sort_sorted _). apply Forall_forall. intros o Ho.
  apply filter_In in Ho. destruct Ho as [_ Hc].
  apply (inRange_true fromDate endDate) in Hc.
  destruct Hc as [(f & t & _ & Ht & _) _]. exists t. exact Ht.
Qed.





Lemma copy_date (d : Date) : mkDate (getTime d) = d.
Proof. destruct d. reflexivity. Qed.

(** X15. Whatever the entries, the number of months or years and the
    start date, the results of [getEntriesInNextMonths] and of
    [getEntriesInNextYears] are sorted by ascending date, and each result
    pairs an entry of the list with its next occurrence, a valid date
    between the start date and the start date moved by [setMonth], or by
    [setFullYear], to that many months, or years, later. *)
Theorem nextMonths_nextYears_sorted_in_window (entries : list Entry)
  (n : Z) (fromDate : Date) :
  (StronglySorted (fun a b => dateLe (date a) (date b))
     (getEntriesInNextMonths entries n fromDate)
   /\ Forall (fun o =>
                In (entry o) entries
                /\ date o = getNextOccurrence (entry o) fromDate
                /\ dateLe fromDate (date o)
                /\ dateLe (date o)
                     (setMonth fromDate
                        (num_map (fun m => m + n) (getMonth fromDate))))
        (getEntriesInNextMonths entries n fromDate))
  /\ (StronglySorted (fun a b => dateLe (date a) (date b))
        (getEntriesInNextYears entries n fromDate)
      /\ Forall (fun o =>
                   In (entry o) entries
                   /\ date o = getNextOccurrence (entry o) fromDate
                   /\ dateLe fromDate (date o)
                   /\ dateLe (date o)
                        (setFullYear fromDate
                           (num_map (fun y => y + n)
                              (getFullYear fromDate))))
           (getEntriesInNextYears entries n fromDate)).
Proof.
  unfold getEntriesInNextMonths, getEntriesInNextYears.
  rewrite !copy_date.
  split; (split; [apply window_sorted |]);
    apply Forall_forall; intros o Ho; apply window_In in Ho; exact Ho.
Qed.

Lemma daysBeforeMonth_next (l x : Z) :
  0 <= l <= 1 -> 0 <= x <= 10 ->
  daysBeforeMonth l (x + 1) = daysBeforeMonth l x + monthLength l (x + 1).
Proof.
  intros Hl Hx.
  assert (Hb : l = 0 \/ l = 1) by lia.
  assert (Hc : x = 0 \/ x = 1 \/ x = 2 \/ x = 3 \/ x = 4 \/ x = 5 \/ x = 6
               \/ x = 7 \/ x = 8 \/ x = 9 \/ x = 10) by lia.
  destruct Hb; subst l;
    repeat (destruct Hc as [Hc | Hc]; [subst x; reflexivity | ]);
    subst x; reflexivity.
Qed.

Lemma daysBeforeMonth_mono (l x y : Z) :
  0 <= l <= 1 -> 0 <= x -> x <= y -> y <= 11 ->
  daysBeforeMonth l x <= daysBeforeMonth l y.
Proof.
  intros Hl Hx Hxy Hy.
  replace y with (x + Z.of_nat (Z.to_nat (y - x))) in * by lia.
  induction (Z.to_nat (y - x)) as [| k IH].
  - rewrite Z.add_0_r. lia.
  - rewrite Nat2Z.inj_succ in *.
    replace (x + Z.succ (Z.of_nat k)) with (x + Z.of_nat k + 1) in * by lia.
    rewrite daysBeforeMonth_next by lia.
    pose proof (monthLength_ge_28 l (x + Z.of_nat k + 1) Hl ltac:(lia)).
    specialize (IH ltac:(lia) ltac:(lia)). lia.
Qed.

(** The order of two days of a year, the first of which exists in every
    year, is the same in every year. *)
Lemma month_day_order (l l2 mn M day D : Z) :
  0 <= l <= 1 -> 0 <= l2 <= 1 ->
  0 <= mn <= 11 -> 0 <= M <= 11 ->
  1 <= day <= monthLength 0 (mn + 1) ->
  1 <= D <= monthLength l (M + 1) ->
  daysBeforeMonth l mn + day <= daysBeforeMonth l M + D ->
  daysBeforeMonth l2 mn + day <= daysBeforeMonth l2 M + D.
Proof.
  intros Hl Hl2 Hmn HM Hday HD H.
  destruct (Z.lt_trichotomy mn M) as [Hlt | [-> | Hgt]].
  - pose proof (daysBeforeMonth_next l2 mn Hl2 ltac:(lia)) as Hn.
    pose proof (daysBeforeMonth_mono l2 (mn + 1) M Hl2 ltac:(lia)
                  ltac:(lia) ltac:(lia)).
    pose proof (monthLength_bounds l2 (mn + 1) Hl2 ltac:(lia)). lia.
  - lia.
  - exfalso.
    pose proof (daysBeforeMonth_next l M Hl ltac:(lia)) as Hn.
    pose proof (daysBeforeMonth_mono l (M + 1) mn Hl ltac:(lia)
                  ltac:(lia) ltac:(lia)). lia.
Qed.

(** The end of the window of [getEntriesInNextYears] for one year, from
    a date of the years 100..[maxYear]. *)
Lemma next_year_end (t : Z) :
  100 <= YearFromTime t <= maxYear ->
  getTime
    (setFullYear (mkDate (Some t))
       (num_map (fun y => y + 1) (getFullYear (mkDate (Some t)))))
  = Some (MakeDate
            (MakeDay (YearFromTime t + 1) (MonthFromTime t) (DateFromTime t))
            (TimeWithinDay t)).
Proof.
  unfold maxYear. intros Hy.
  unfold setFullYear, getFullYear. cbn [getTime num_map].
  pose proof (MonthFromTime_range t) as HM.
  pose proof (DateFromTime_range t) as HD.
  pose proof (monthLength_bounds (leapOf (YearFromTime t))
                (MonthFromTime t + 1) (leapOf_range _) ltac:(lia)) as Hb.
  unfold DaysInMonth in HD.
  pose proof (MakeDay_lower (YearFromTime t + 1) (MonthFromTime t)
                (DateFromTime t) HM ltac:(lia)) as Hlo.
  pose proof (MakeDay_upper (YearFromTime t + 1) (MonthFromTime t)
                (DateFromTime t) HM ltac:(lia)) as Hhi.
  pose proof (DayFromYear_bounds (YearFromTime t + 1) ltac:(lia)) as [B1 B2].
  pose proof (Z.mod_pos_bound t msPerDay ltac:(reflexivity)) as Htod.
  unfold TimeClip, MakeDate, TimeWithinDay, maxTime in *.
  unfold msPerDay in *.
  match goal with
  | |- (if ?c then _ else _) = _ => destruct c eqn:E
  end; [reflexivity |].
  apply Z.leb_gt in E. lia.
Qed.

Lemma MakeDate_le_tod (a b tod : Z) :
  a <= b -> 0 <= tod -> MakeDate a 0 <= MakeDate b tod.
Proof. unfold MakeDate, msPerDay. lia. Qed.

Lemma MakeDate_le_inv (a b tod : Z) :
  0 <= tod < msPerDay -> MakeDate a 0 <= MakeDate b tod -> a <= b.
Proof. unfold MakeDate, msPerDay. lia. Qed.

(** X16. For a FixedAnnual or FixedDated entry of the list whose month is
    in 1..12 and whose day exists in that month in every year, and a start
    date of the years 100..[maxYear], the entry is among the results of
    [getEntriesInNextYears] for one year, with its next occurrence. The
    year a dated entry stores plays no part: its next occurrence is that
    of the annual entry with the same month and day. *)
Theorem regular_fixed_in_next_year (entries : list Entry) (e : Entry)
  (m day : Z) (fromDate : Date) :
  In e entries -> fixedOn m day e ->
  1 <= m <= 12 -> 1 <= day <= monthLength 0 m ->
  inYears 100 maxYear fromDate ->
  In (mkOccurrence e (getNextOccurrence e fromDate))
    (getEntriesInNextYears entries 1 fromDate).
Proof.
  intros Hin Hfix Hm0 Hd0 Hy. rename m into m0, day into day0.
  destruct (inYears_time _ _ _ Hy) as (t & -> & Ht).
  unfold getEntriesInNextYears. apply window_In. cbn [entry date getTime].
  split; [exact Hin |]. split; [reflexivity |].
  assert (Hgen : forall m day,
             1 <= m <= 12 -> 1 <= day <= monthLength 0 m ->
             dateLe (mkDate (Some t)) (nextMonthDay m day (mkDate (Some t)))
             /\ dateLe (nextMonthDay m day (mkDate (Some t)))
                  (setFullYear (mkDate (Some t))
                     (num_map (fun y => y + 1)
                        (getFullYear (mkDate (Some t)))))).
  { intros m day Hm Hd.
    pose proof (monthLength_bounds 0 m ltac:(lia) Hm) as Hb.
    pose proof (next_year_end t Ht) as Hend.
    pose proof (MonthFromTime_range t) as HM.
    pose proof (DateFromTime_range t) as HD. unfold DaysInMonth in HD.
    pose proof (Z.mod_pos_bound t msPerDay ltac:(reflexivity)) as Htod.
    fold (TimeWithinDay t) in Htod.
    pose proof (time_of_fields t) as Htf.
    pose proof (MakeDay_month (YearFromTime t) (m - 1) day ltac:(lia)) as EA.
    pose proof (MakeDay_month (YearFromTime t) (MonthFromTime t)
                  (DateFromTime t) HM) as EB.
    pose proof (MakeDay_month (YearFromTime t + 1) (m - 1) day ltac:(lia))
      as EA1.
    pose proof (MakeDay_month (YearFromTime t + 1) (MonthFromTime t)
                  (DateFromTime t) HM) as EB1.
    pose proof (before_next_year t (m - 1) day ltac:(lia) ltac:(lia)) as Hbn.
    rewrite fullYear_id in Hbn by lia.
    pose proof (MakeDay_upper (YearFromTime t) (m - 1) day
                  ltac:(lia) ltac:(lia)) as Hup.
    pose proof (MakeDay_lower (YearFromTime t + 1) (MonthFromTime t)
                  (DateFromTime t) HM ltac:(lia)) as Hlow.
    pose proof (month_day_order (leapOf (YearFromTime t))
                  (leapOf (YearFromTime t + 1)) (m - 1) (MonthFromTime t)
                  day (DateFromTime t) (leapOf_range _) (leapOf_range _)
                  ltac:(lia) HM) as Hord.
    replace (m - 1 + 1) with m in Hord by lia.
    specialize (Hord Hd HD).
    destruct (nextMonthDay_cases m day t Hm ltac:(lia) Ht)
      as [[H0 Hr] | [H0 Hr]].
    - assert (HAB : MakeDay (YearFromTime t) (m - 1) day
                    <= MakeDay (YearFromTime t) (MonthFromTime t)
                         (DateFromTime t)).
      { apply (MakeDate_le_inv _ _ (TimeWithinDay t) Htod).
        rewrite Htf. exact H0. }
      assert (HAB1 : MakeDay (YearFromTime t + 1) (m - 1) day
                     <= MakeDay (YearFromTime t + 1) (MonthFromTime t)
                          (DateFromTime t)).
      { rewrite EA1, EB1. rewrite EA, EB in HAB.
        specialize (Hord ltac:(lia)). lia. }
      split.
      + exists t, (MakeDate (MakeDay (YearFromTime t + 1) (m - 1) day) 0).
        split; [reflexivity |]. split; [exact Hr |].
        apply Z.lt_le_incl. exact Hbn.
      + eexists. eexists. split; [exact Hr |]. split; [exact Hend |].
        apply MakeDate_le_tod; [exact HAB1 | lia].
    - split.
      + exists t, (MakeDate (MakeDay (YearFromTime t) (m - 1) day) 0).
        split; [reflexivity |]. split; [exact Hr |].
        apply Z.lt_le_incl. exact H0.
      + eexists. eexists. split; [exact Hr |]. split; [exact Hend |].
        apply MakeDate_le_tod; lia. }
  destruct Hfix as [n s | n y s]; cbn [getNextOccurrence];
    exact (Hgen m0 day0 Hm0 Hd0).
Qed.

Lemma regular_fixed_in_next_year_witness :
  In (ExactDateWithYearEntry "Leap Eve" 2 28 50 None)
    [ExactDateWithYearEntry "Leap Eve" 2 28 50 None]
  /\ fixedOn 2 28 (ExactDateWithYearEntry "Leap Eve" 2 28 50 None)
  /\ 1 <= 2 <= 12 /\ 1 <= 28 <= monthLength 0 2
  /\ inYears 100 maxYear (newDate (Some 2024) (Some 1) (Some 29))
  /\ In (mkOccurrence (ExactDateWithYearEntry "Leap Eve" 2 28 50 None)
           (getNextOccurrence (ExactDateWithYearEntry "Leap Eve" 2 28 50 None)
              (newDate (Some 2024) (Some 1) (Some 29))))
       (getEntriesInNextYears
          [ExactDateWithYearEntry "Leap Eve" 2 28 50 None] 1
          (newDate (Some 2024) (Some 1) (Some 29))).
Proof.
  assert (Hin : In (ExactDateWithYearEntry "Leap Eve" 2 28 50 None)
                  [ExactDateWithYearEntry "Leap Eve" 2 28 50 None])
    by (left; reflexivity).
  assert (Hf : fixedOn 2 28 (ExactDateWithYearEntry "Leap Eve" 2 28 50 None))
    by constructor.
  assert (Hm : 1 <= 2 <= 12) by lia.
  assert (Hd : 1 <= 28 <= monthLength 0 2) by (cbn; lia).
  assert (Hy : inYears 100 maxYear (newDate (Some 2024) (Some 1) (Some 29))).
  { exists 2024. split; [vm_compute; reflexivity | unfold maxYear; lia]. }
  split; [exact Hin |]. split; [exact Hf |]. split; [exact Hm |].
  split; [exact Hd |]. split; [exact Hy |].
  exact (regular_fixed_in_next_year _ _ 2 28 _ Hin Hf Hm Hd Hy).
Defined.

(** ** The parser *)

Lemma isDigit_value (c : ascii) :
  isDigit c = true -> 0 <= digitValue c <= 9.
Proof.
  unfold isDigit, digitValue. intros H.
  apply andb_true_iff in H. destruct H as [H1 H2].
  apply Z.leb_le in H1, H2. lia.
Qed.

(** The search loops: a result other than -1 is the index of the first
    name that passes the test. *)
Lemma firstIndex_found (test : string -> bool) (names : list string)
  (i0 j : Z) :
  0 <= i0 -> firstIndex test names i0 = j -> j <> -1 ->
  i0 <= j < i0 + Z.of_nat (List.length names)
  /\ (exists name,
        nth_error names (Z.to_nat (j - i0)) = Some name
        /\ test name = true)
  /\ forall k name,
       (k < Z.to_nat (j - i0))%nat -> nth_error names k = Some name ->
       negb (isEmpty name) && test name = false.
Proof.
  revert i0. induction names as [| n rest IH]; intros i0 Hi0 Hj Hne.
  - cbn in Hj. lia.
  - cbn [firstIndex] in Hj.
    destruct (negb (isEmpty n) && test n) eqn:E.
    + subst j. replace (i0 - i0) with 0 by lia.
      cbn [List.length]. split; [lia |]. split.
      * exists n. split; [reflexivity |].
        apply andb_true_iff in E. tauto.
      * intros k name Hk. cbn in Hk. lia.
    + destruct (IH (i0 + 1) ltac:(lia) Hj Hne) as (Hr & (name & Hn & Ht) & Hb).
      cbn [List.length]. split; [lia |].
      replace (Z.to_nat (j - i0)) with (S (Z.to_nat (j - (i0 + 1)))) by lia.
      split.
      * exists name. split; [exact Hn | exact Ht].
      * intros k name0 Hk Hk0. destruct k as [| k].
        -- cbn in Hk0. injection Hk0 as <-. exact E.
        -- cbn in Hk0. apply (Hb k name0); [lia | exact Hk0].
Qed.

(** X17. When [parseRelativeDate] succeeds, the occurrence is the value
    0..9 of the first character, the weekday is the index 0..6 of the
    first weekday name that occurs in the token, and the month is one more
    than the index of the first month abbreviation the token ends with, so
    it is in 1..12. *)
Theorem parseRelativeDate_sound (dateStr : string) (r : RelativeDate) :
  parseRelativeDate dateStr = inr r ->
  (exists c rest,
     dateStr = String c rest /\ isDigit c = true
     /\ rd_occurrence r = digitValue c)
  /\ 0 <= rd_occurrence r <= 9
  /\ 0 <= rd_dayOfWeek r <= 6
  /\ 1 <= rd_month r <= 12
  /\ (exists dayName,
        nth_error DAYS_OF_WEEK (Z.to_nat (rd_dayOfWeek r)) = Some dayName
        /\ includes dayName dateStr = true)
  /\ (forall k dayName,
        (k < Z.to_nat (rd_dayOfWeek r))%nat ->
        nth_error DAYS_OF_WEEK k = Some dayName ->
        includes dayName dateStr = false)
  /\ (exists monthName,
        nth_error MONTHS (Z.to_nat (rd_month r - 1)) = Some monthName
        /\ endsWith monthName dateStr = true).
Proof.
  unfold parseRelativeDate. destruct dateStr as [| c rest]; [discriminate |].
  destruct (isDigit c) eqn:Ec; [| discriminate].
  remember (String c rest) as tok eqn:Etok.
  destruct (firstIndex (fun n => includes n tok) DAYS_OF_WEEK 0 =? -1)
    eqn:Ed; [discriminate |].
  apply Z.eqb_neq in Ed.
  destruct (firstIndex (fun n => endsWith n tok) MONTHS 0 =? -1) eqn:Em.
  - cbn. discriminate.
  - apply Z.eqb_neq in Em.
    destruct (firstIndex (fun n => endsWith n tok) MONTHS 0 + 1 =? -1)
      eqn:Em2; [discriminate |].
    intros Hr.
    assert (Er : r = mkRelativeDate (digitValue c)
                       (firstIndex (fun n => includes n tok) DAYS_OF_WEEK 0)
                       (firstIndex (fun n => endsWith n tok) MONTHS 0 + 1))
      by congruence.
    clear Hr. subst r. cbn [rd_occurrence rd_dayOfWeek rd_month].
    destruct (firstIndex_found _ DAYS_OF_WEEK 0 _ ltac:(lia) eq_refl Ed)
      as (Hdr & (dn & Hdn & Hdt) & Hdb).
    destruct (firstIndex_found _ MONTHS 0 _ ltac:(lia) eq_refl Em)
      as (Hmr & (mn & Hmn & Hmt) & _).
    change (Z.of_nat (List.length DAYS_OF_WEEK)) with 7 in Hdr.
    change (Z.of_nat (List.length MONTHS)) with 12 in Hmr.
    rewrite Z.sub_0_r in *.
    split; [exists c, rest; auto |].
    split; [apply isDigit_value; exact Ec |].
    split; [lia |]. split; [lia |].
    split; [exists dn; auto |]. split.
    + intros k dayName Hk Hnth.
      pose proof (Hdb k dayName Hk Hnth) as Hf.
      destruct dayName as [| a dayName]; [| exact Hf].
      exfalso. clear - Hnth.
      do 7 (destruct k as [| k]; [discriminate |]).
      destruct k; discriminate.
    + exists mn. replace (firstIndex (fun n => endsWith n tok) MONTHS 0
                            + 1 - 1)
        with (firstIndex (fun n => endsWith n tok) MONTHS 0) by lia.
      auto.
Qed.

Lemma parseRelativeDate_sound_witness :
  parseRelativeDate "4ThursdayNov" = inr (mkRelativeDate 4 4 11)
  /\ (exists c rest,
        "4ThursdayNov"%string = String c rest /\ isDigit c = true
        /\ rd_occurrence (mkRelativeDate 4 4 11) = digitValue c)
  /\ 0 <= rd_occurrence (mkRelativeDate 4 4 11) <= 9
  /\ 0 <= rd_dayOfWeek (mkRelativeDate 4 4 11) <= 6
  /\ 1 <= rd_month (mkRelativeDate 4 4 11) <= 12
  /\ (exists dayName,
        nth_error DAYS_OF_WEEK
          (Z.to_nat (rd_dayOfWeek (mkRelativeDate 4 4 11))) = Some dayName
        /\ includes dayName "4ThursdayNov" = true)
  /\ (forall k dayName,
        (k < Z.to_nat (rd_dayOfWeek (mkRelativeDate 4 4 11)))%nat ->
        nth_error DAYS_OF_WEEK k = Some dayName ->
        includes dayName "4ThursdayNov" = false)
  /\ (exists monthName,
        nth_error MONTHS
          (Z.to_nat (rd_month (mkRelativeDate 4 4 11) - 1)) = Some monthName
        /\ endsWith monthName "4ThursdayNov" = true).
Proof.
  split; [vm_compute; reflexivity |].
  apply (parseRelativeDate_sound "4ThursdayNov" (mkRelativeDate 4 4 11)).
  vm_compute. reflexivity.
Defined.

Lemma isEmpty_false (s : string) : isEmpty s = false <-> s <> EmptyString.
Proof.
  destruct s; cbn; split; intros H; try discriminate; try reflexivity.
  exfalso. apply H. reflexivity.
Qed.

Lemma parseInt_trim_empty (s : string) :
  isEmpty s = true -> parseInt s = NaN.
Proof. destruct s; [reflexivity | discriminate]. Qed.

(** Everything [parseCSVLine] checked when it returns an entry. *)
Lemma parseCSVLine_inv (line : string) (src : option string) (e : Entry) :
  parseCSVLine line src = Some e ->
  exists p0 p1 more,
    split "," line = p0 :: p1 :: more
    /\ isEmpty (trim p0) = false /\ isEmpty (trim p1) = false
    /\ ((includes "/" (trim p1) = true
         /\ exists ms ds rest mo da,
              split "/" (trim p1) = ms :: ds :: rest
              /\ parseInt ms = Some mo /\ parseInt ds = Some da
              /\ ((e = ExactDateEntry (trim p0) mo da src
                   /\ (more = []
                       \/ exists p2 r2,
                            more = p2 :: r2 /\ parseInt (trim p2) = NaN))
                  \/ (exists p2 r2 y,
                        more = p2 :: r2 /\ parseInt (trim p2) = Some y
                        /\ e = ExactDateWithYearEntry (trim p0) mo da y src)))
        \/ (includes "/" (trim p1) = false
            /\ exists r,
                 parseRelativeDate (trim p1) = inr r
                 /\ e = RelativeDateEntry (trim p0) (rd_occurrence r)
                          (rd_dayOfWeek r) (rd_month r) src)).
Proof.
  unfold parseCSVLine.
  destruct (split "," line) as [| p0 [| p1 more]]; try discriminate.
  destruct (isEmpty (trim p0)) eqn:E0; [discriminate |].
  destruct (isEmpty (trim p1)) eqn:E1; [discriminate |].
  cbn [orb]. intros H. exists p0, p1, more.
  split; [reflexivity |]. split; [first [exact E0 | reflexivity] |]. split; [first [exact E1 | reflexivity] |].
  destruct (includes "/" (trim p1)) eqn:Es.
  - left. split; [reflexivity |].
    destruct (split "/" (trim p1)) as [| ms [| ds rest]] eqn:Esp;
      try discriminate.
    destruct (isEmpty ms || isEmpty ds); [discriminate |].
    destruct (parseInt ms) as [mo |] eqn:Emo; [| discriminate].
    destruct (parseInt ds) as [da |] eqn:Eda; [| discriminate].
    exists ms, ds, rest, mo, da.
    split; [reflexivity |]. split; [first [exact Emo | reflexivity] |]. split; [first [exact Eda | reflexivity] |].
    destruct more as [| p2 r2].
    + left. split; [congruence | left; reflexivity].
    + destruct (isEmpty (trim p2)) eqn:E2.
      * left. split; [congruence |]. right. exists p2, r2.
        split; [reflexivity | apply parseInt_trim_empty; exact E2].
      * destruct (parseInt (trim p2)) as [y |] eqn:Ey.
        -- right. exists p2, r2, y.
           split; [reflexivity |]. split; [first [exact Ey | reflexivity] | congruence].
        -- left. split; [congruence |]. right. exists p2, r2.
           split; [reflexivity | first [exact Ey | reflexivity]].
  - right. split; [reflexivity |].
    destruct (parseRelativeDate (trim p1)) as [err | r] eqn:Er;
      [discriminate |].
    exists r. split; [first [exact Er | reflexivity] | congruence].
Qed.

(** X18. Every entry that [parseCSVLine] returns has for name the first
    field of the line with surrounding white space removed, which is not
    empty; it carries the source given to the parser; and it is a relative
    entry exactly when the second field contains no "/". *)
Theorem parseCSVLine_entry_shape (line : string) (src : option string)
  (e : Entry) :
  parseCSVLine line src = Some e ->
  exists p0 p1 more,
    split "," line = p0 :: p1 :: more
    /\ name e = trim p0
    /\ name e <> EmptyString
    /\ source e = src
    /\ isRelative e = negb (includes "/" (trim p1)).
Proof.
  intros H.
  destruct (parseCSVLine_inv _ _ _ H)
    as (p0 & p1 & more & Hs & E0 & _ & Hc).
  exists p0, p1, more. split; [exact Hs |].
  apply isEmpty_false in E0.
  destruct Hc as [(Hsl & ms & ds & rest & mo & da & _ & _ & _ & Hv)
                 | (Hsl & r & _ & ->)].
  - rewrite Hsl.
    destruct Hv as [(-> & _) | (p2 & r2 & y & _ & _ & ->)];
      cbn; repeat split; assumption.
  - rewrite Hsl. cbn. repeat split; assumption.
Qed.

Lemma parseCSVLine_entry_shape_witness :
  parseCSVLine " Afghanistan , 08/19 , 1919" (Some "countries.csv"%string)
  = Some (ExactDateWithYearEntry "Afghanistan" 8 19 1919
            (Some "countries.csv"%string))
  /\ exists p0 p1 more,
       split "," " Afghanistan , 08/19 , 1919" = p0 :: p1 :: more
       /\ name (ExactDateWithYearEntry "Afghanistan" 8 19 1919
                  (Some "countries.csv"%string)) = trim p0
       /\ name (ExactDateWithYearEntry "Afghanistan" 8 19 1919
                  (Some "countries.csv"%string)) <> EmptyString
       /\ source (ExactDateWithYearEntry "Afghanistan" 8 19 1919
                    (Some "countries.csv"%string))
          = Some "countries.csv"%string
       /\ isRelative (ExactDateWithYearEntry "Afghanistan" 8 19 1919
                        (Some "countries.csv"%string))
          = negb (includes "/" (trim p1)).
Proof.
  split; [vm_compute; reflexivity |].
  apply (parseCSVLine_entry_shape " Afghanistan , 08/19 , 1919"
           (Some "countries.csv"%string)).
  vm_compute. reflexivity.
Defined.

(** The result of [parseCSVLine] in terms of the first two fields and the
    year read from the rest: when a line is parsed, every line with the
    same first two fields is parsed as well, into the same entry with the
    year of its own third field. *)
Lemma parseCSVLine_year_field (line line' : string) (src : option string)
  (e : Entry) (p0 p1 : string) (more more' : list string) :
  split "," line = p0 :: p1 :: more ->
  split "," line' = p0 :: p1 :: more' ->
  parseCSVLine line src = Some e ->
  parseCSVLine line' src = Some (withYear e (yearField more')).
Proof.
  intros Hs Hs' H.
  destruct (parseCSVLine_inv _ _ _ H)
    as (q0 & q1 & more2 & Hs2 & E0 & E1 & Hc).
  rewrite Hs in Hs2. injection Hs2 as <- <- <-.
  unfold parseCSVLine. rewrite Hs', E0, E1. cbn [orb].
  destruct Hc as [(Hsl & ms & ds & rest & mo & da & Hsp & Hmo & Hda & Hv)
                 | (Hsl & r & Hr & ->)].
  - rewrite Hsl, Hsp.
    assert (Ems : isEmpty ms = false).
    { destruct ms; [discriminate Hmo | reflexivity]. }
    assert (Eds : isEmpty ds = false).
    { destruct ds; [discriminate Hda | reflexivity]. }
    rewrite Ems, Eds, Hmo, Hda. cbn [orb].
    assert (He : withYear e (yearField more')
                 = withYear (ExactDateEntry (trim p0) mo da src)
                     (yearField more')).
    { destruct Hv as [(-> & _) | (p2 & r2 & y & _ & _ & ->)];
        destruct (yearField more'); reflexivity. }
    rewrite He. destruct more' as [| q2 r2]; [reflexivity |].
    cbn [yearField].
    destruct (isEmpty (trim q2)) eqn:E2.
    + rewrite (parseInt_trim_empty _ E2). reflexivity.
    + destruct (parseInt (trim q2)); reflexivity.
  - rewrite Hsl, Hr. destruct (yearField more'); reflexivity.
Qed.

(** X19. The year field decides between the two fixed variants and never
    makes the line fail. When a line is parsed, every line with the same
    first two fields is parsed too, whatever follows the second comma: into
    the dated entry with the integer that [parseInt] reads from the third
    field, into the annual entry when there is no third field or when
    [parseInt] reads no integer from it, and into the same entry when it is
    a relative one. Accordingly, a dated result carries the integer read
    from the third field of its own line, and an annual result comes from
    a line with no third field or with one that has no integer prefix. *)
Theorem year_field_decides_variant (line line' : string)
  (src : option string) (e : Entry) (p0 p1 : string)
  (more more' : list string) :
  split "," line = p0 :: p1 :: more ->
  split "," line' = p0 :: p1 :: more' ->
  parseCSVLine line src = Some e ->
  parseCSVLine line' src = Some (withYear e (yearField more'))
  /\ match e with
     | ExactDateEntry _ _ _ _ =>
         more = []
         \/ exists p2 r2,
              more = p2 :: r2 /\ hasIntegerPrefix (trim p2) = false
     | ExactDateWithYearEntry _ _ _ year _ =>
         exists p2 r2, more = p2 :: r2 /\ parseInt (trim p2) = Some year
     | RelativeDateEntry _ _ _ _ _ => True
     end.
Proof.
  intros Hs Hs' H.
  split; [exact (parseCSVLine_year_field _ _ _ _ _ _ _ _ Hs Hs' H) |].
  destruct (parseCSVLine_inv _ _ _ H)
    as (q0 & q1 & more2 & Hs2 & _ & _ & Hc).
  rewrite Hs in Hs2. injection Hs2 as <- <- <-.
  destruct Hc as [(_ & ms & ds & rest & mo & da & _ & _ & _ & Hv)
                 | (_ & r & _ & ->)]; [| exact I].
  destruct Hv as [(-> & Hm) | (p2 & r2 & y & Hm & Hy & ->)].
  - destruct Hm as [Hm | (p2 & r2 & Hm & Hy)]; [left; exact Hm |].
    right. exists p2, r2. split; [exact Hm |].
    apply parseInt_NaN_iff. exact Hy.
  - exists p2, r2. split; assumption.
Qed.

Lemma year_field_decides_variant_witness :
  split "," "Name,08/19" = ["Name"; "08/19"]%string
  /\ split "," "Name,08/19,circa" = ["Name"; "08/19"; "circa"]%string
  /\ parseCSVLine "Name,08/19" None = Some (ExactDateEntry "Name" 8 19 None)
  /\ parseCSVLine "Name,08/19,circa" None
     = Some (withYear (ExactDateEntry "Name" 8 19 None)
               (yearField ["circa"%string]))
  /\ ((@nil string) = []
      \/ exists p2 r2,
           (@nil string) = p2 :: r2
           /\ hasIntegerPrefix (trim p2) = false).
Proof.
  split; [vm_compute; reflexivity |].
  split; [vm_compute; reflexivity |].
  split; [vm_compute; reflexivity |].
  apply (year_field_decides_variant "Name,08/19" "Name,08/19,circa" None
           (ExactDateEntry "Name" 8 19 None) "Name" "08/19"
           (@nil string) ["circa"%string]); vm_compute; reflexivity.
Defined.

(** The three shapes of a third field, on the line of the README: no
    integer, an integer, an integer followed by something else. *)
Example year_field_examples :
  parseCSVLine "Afghanistan,08/19,circa" None
  = Some (ExactDateEntry "Afghanistan" 8 19 None)
  /\ parseCSVLine "Afghanistan,08/19,1919" None
     = Some (ExactDateWithYearEntry "Afghanistan" 8 19 1919 None)
  /\ parseCSVLine "Afghanistan,08/19, 1919 AD,x" None
     = Some (ExactDateWithYearEntry "Afghanistan" 8 19 1919 None)
  /\ parseCSVLine "Afghanistan,08/19," None
     = Some (ExactDateEntry "Afghanistan" 8 19 None).
Proof. repeat split; vm_compute; reflexivity. Qed.

Lemma split_without_separator (sep : ascii) (s : string) :
  includes (String sep EmptyString) s = false -> split sep s = [s].
Proof.
  induction s as [| c s IH]; [reflexivity |].
  cbn [includes startsWith split].
  rewrite Ascii.eqb_sym.
  destruct (Ascii.eqb c sep); cbn [andb orb]; [discriminate |].
  intros H. rewrite (IH H). reflexivity.
Qed.

(** X20. A line with no comma yields no entry, whatever else it
    contains. *)
Theorem line_without_comma_is_rejected (line : string)
  (src : option string) :
  includes "," line = false -> parseCSVLine line src = None.
Proof.
  intros H. unfold parseCSVLine.
  rewrite (split_without_separator "," line H). reflexivity.
Qed.

Lemma line_without_comma_is_rejected_witness :
  includes "," "3MondayJan" = false
  /\ parseCSVLine "3MondayJan" None = None.
Proof.
  split; [reflexivity |].
  apply line_without_comma_is_rejected. reflexivity.
Defined.

(** ** Reading a file *)

Lemma split_not_nil (sep : ascii) (s : string) : split sep s <> [].
Proof.
  destruct s as [| c s]; cbn [split]; [discriminate |].
  destruct (Ascii.eqb c sep); [discriminate |].
  destruct (split sep s); discriminate.
Qed.

Lemma split_app (sep : ascii) (a b : string) :
  split sep (a ++ String sep b)%string = split sep a ++ split sep b.
Proof.
  induction a as [| c a IH]; cbn [String.append split].
  - rewrite Ascii.eqb_refl. reflexivity.
  - destruct (Ascii.eqb c sep).
    + rewrite IH. reflexivity.
    + rewrite IH.
      pose proof (split_not_nil sep a) as Hn.
      destruct (split sep a) as [| part parts]; [contradiction |].
      reflexivity.
Qed.

(** X21. Reading a file is reading its lines one by one: the entries of
    two contents joined by a line feed are the entries of the first
    followed by the entries of the second, so a line feed at the end of
    the content, or an empty line, changes nothing. *)
Theorem getEntries_concat (a b relative : string) :
  getEntries (a ++ String newline b)%string relative
  = getEntries a relative ++ getEntries b relative
  /\ getEntries (a ++ String newline EmptyString)%string relative
     = getEntries a relative
  /\ getEntries (a ++ String newline (String newline b))%string relative
     = getEntries (a ++ String newline b)%string relative.
Proof.
  assert (Happ : forall x y,
             getEntries (x ++ String newline y)%string relative
             = getEntries x relative ++ getEntries y relative).
  { intros x y. unfold getEntries.
    rewrite split_app, filter_app, flat_map_app. reflexivity. }
  assert (Hnil : getEntries EmptyString relative = []) by reflexivity.
  split; [apply Happ |]. split.
  - rewrite Happ, Hnil. apply app_nil_r.
  - rewrite !Happ.
    change (String newline b) with (EmptyString ++ String newline b)%string.
    rewrite Happ, Hnil. reflexivity.
Qed.

Lemma parsed_name_source (line : string) (src : option string) (e : Entry) :
  parseCSVLine line src = Some e ->
  name e <> EmptyString /\ source e = src.
Proof.
  intros H.
  destruct (parseCSVLine_inv _ _ _ H)
    as (p0 & p1 & more & _ & E0 & _ & Hc).
  apply isEmpty_false in E0.
  destruct Hc as [(_ & ms & ds & rest & mo & da & _ & _ & _ & Hv)
                 | (_ & r & _ & ->)].
  - destruct Hv as [(-> & _) | (p2 & r2 & y & _ & _ & ->)];
      cbn; split; auto.
  - cbn. split; auto.
Qed.

(** X22. Every entry that [getEntries] returns carries the relative path
    of the file as its source and has a name that is not empty, and there
    are at most as many entries as lines in the content. *)
Theorem getEntries_sources (data relative : string) :
  Forall (fun e => source e = Some relative /\ name e <> EmptyString)
    (getEntries data relative)
  /\ (List.length (getEntries data relative)
      <= List.length (split newline data))%nat.
Proof.
  unfold getEntries. split.
  - apply Forall_forall. intros e He. apply in_flat_map in He.
    destruct He as (line & _ & He).
    destruct (parseCSVLine line (Some relative)) as [p |] eqn:E;
      [| contradiction].
    destruct He as [<- | []].
    destruct (parsed_name_source _ _ _ E) as [Hn Hs]. split; assumption.
  - induction (split newline data) as [| line rest IH]; [cbn; lia |].
    cbn [filter]. destruct (negb (isEmpty (trim line))).
    + cbn [flat_map]. rewrite length_app. cbn [List.length].
      destruct (parseCSVLine line (Some relative)); cbn [List.length]; lia.
    + cbn [List.length]. lia.
Qed.

(** ** Filters *)

(** X23. The three classes split a list of entries: the results of
    [getEntriesByType] for the three classes together are a rearrangement
    of the list, and each result holds entries of its class only. *)
Theorem getEntriesByType_partition (entries : list Entry) :
  Permutation entries
    (getEntriesByType entries EntryClass_ExactDate
     ++ getEntriesByType entries EntryClass_ExactDateWithYear
     ++ getEntriesByType entries EntryClass_RelativeDate)
  /\ (forall c,
        Forall (fun e => instanceOf e c = true) (getEntriesByType entries c))
  /\ Forall (fun e => isRelative e = false)
       (getEntriesByType entries EntryClass_ExactDate
        ++ getEntriesByType entries EntryClass_ExactDateWithYear).
Proof.
  unfold getEntriesByType. split; [| split].
  - induction entries as [| e rest IH]; [apply perm_nil |].
    destruct e; cbn [filter instanceOf].
    + apply perm_skip. exact IH.
    + apply Permutation_cons_app. exact IH.
    + rewrite app_assoc. apply Permutation_cons_app.
      rewrite <- app_assoc. exact IH.
  - intros c. apply Forall_forall. intros e He.
    apply filter_In in He. tauto.
  - apply Forall_forall. intros e He. apply in_app_or in He.
    destruct He as [He | He]; apply filter_In in He; destruct He as [_ He];
      destruct e; cbn in He |- *; congruence.
Qed.

Lemma filter_filter_ext {A : Type} (g f1 f2 : A -> bool) (l : list A) :
  (forall x, g x && f1 x = g x && f2 x) ->
  filter g (filter f1 l) = filter g (filter f2 l).
Proof.
  intros H. induction l as [| x l IH]; [reflexivity |].
  simpl. specialize (H x).
  destruct (f1 x), (f2 x); simpl; destruct (g x); simpl in *;
    try discriminate; rewrite IH; reflexivity.
Qed.

Lemma eqb_month_shift (k m0 : Z) : (k =? m0 - 1) = (m0 =? k + 1).
Proof.
  destruct (Z.eqb_spec k (m0 - 1)), (Z.eqb_spec m0 (k + 1));
    try reflexivity; lia.
Qed.

(** X24. For a valid date of month [m] and day [d], the FixedAnnual
    entries that [getEntriesOnDate] returns for the date are exactly those
    that [getEntriesOnMonthDay] returns for [m] and [d], in the same
    order, and the FixedDated entries it returns are among them. *)
Theorem onDate_agrees_with_onMonthDay (entries : list Entry) (q : Date)
  (m d : Z) :
  monthOf q = Some m -> dayOf q = Some d ->
  getEntriesByType (getEntriesOnDate entries q) EntryClass_ExactDate
  = getEntriesByType (getEntriesOnMonthDay entries m d) EntryClass_ExactDate
  /\ incl (getEntriesByType (getEntriesOnDate entries q)
             EntryClass_ExactDateWithYear)
       (getEntriesOnMonthDay entries m d).
Proof.
  unfold monthOf, dayOf. intros Hm Hd.
  destruct (getMonth q) as [k |] eqn:Ek; [| discriminate].
  cbn [num_map] in Hm. apply some_eq in Hm.
  unfold getEntriesByType, getEntriesOnDate, getEntriesOnMonthDay. split.
  - apply filter_filter_ext. intros e.
    destruct e as [n m0 d0 s | n m0 d0 y s | n o w m0 s];
      cbn [instanceOf andb]; try reflexivity.
    cbn [occursOn]. rewrite Ek, Hd. cbn [num_eqb].
    rewrite eqb_month_shift, (Z.eqb_sym d d0). subst m. reflexivity.
  - intros e He. apply filter_In in He. destruct He as [He Hc].
    apply filter_In in He. destruct He as [Hin Ho].
    apply filter_In. split; [exact Hin |].
    destruct e as [n m0 d0 s | n m0 d0 y s | n o w m0 s];
      try discriminate.
    cbn [occursOn] in Ho. rewrite Ek, Hd in Ho.
    apply andb_true_iff in Ho. destruct Ho as [Ho Hday].
    apply andb_true_iff in Ho. destruct Ho as [_ Hmo].
    cbn [num_eqb] in Hmo, Hday.
    rewrite eqb_month_shift in Hmo. rewrite Z.eqb_sym in Hday.
    subst m. rewrite Hmo, Hday. reflexivity.
Qed.

Lemma onDate_agrees_with_onMonthDay_witness :
  monthOf (newDate (Some 2026) (Some 0) (Some 19)) = Some 1
  /\ dayOf (newDate (Some 2026) (Some 0) (Some 19)) = Some 19
  /\ getEntriesByType
       (getEntriesOnDate
          [ExactDateEntry "Today" 1 19 None;
           ExactDateWithYearEntry "Past Event" 1 1 2000 None]
          (newDate (Some 2026) (Some 0) (Some 19)))
       EntryClass_ExactDate
     = getEntriesByType
         (getEntriesOnMonthDay
            [ExactDateEntry "Today" 1 19 None;
             ExactDateWithYearEntry "Past Event" 1 1 2000 None]
            1 19)
         EntryClass_ExactDate
  /\ incl (getEntriesByType
             (getEntriesOnDate
                [ExactDateEntry "Today" 1 19 None;
                 ExactDateWithYearEntry "Past Event" 1 1 2000 None]
                (newDate (Some 2026) (Some 0) (Some 19)))
             EntryClass_ExactDateWithYear)
       (getEntriesOnMonthDay
          [ExactDateEntry "Today" 1 19 None;
           ExactDateWithYearEntry "Past Event" 1 1 2000 None]
          1 19).
Proof.
  split; [vm_compute; reflexivity |].
  split; [vm_compute; reflexivity |].
  apply (onDate_agrees_with_onMonthDay
           [ExactDateEntry "Today" 1 19 None;
            ExactDateWithYearEntry "Past Event" 1 1 2000 None]
           (newDate (Some 2026) (Some 0) (Some 19)) 1 19);
    vm_compute; reflexivity.
Defined.

(** ** [occursOn] and the Nth weekday *)

Lemma fields_of_same_day (a b : Z) :
  Day a = Day b ->
  YearFromTime a = YearFromTime b
  /\ MonthFromTime a = MonthFromTime b
  /\ DateFromTime a = DateFromTime b
  /\ WeekDay a = WeekDay b.
Proof.
  intros H.
  assert (HY : YearFromTime a = YearFromTime b)
    by (unfold YearFromTime; rewrite H; reflexivity).
  assert (HM : MonthFromTime a = MonthFromTime b).
  { unfold MonthFromTime, InLeapYear, DayWithinYear.
    rewrite H, HY. reflexivity. }
  repeat split; try assumption.
  - unfold DateFromTime, InLeapYear, DayWithinYear. rewrite H, HY, HM.
    reflexivity.
  - unfold WeekDay. rewrite H. reflexivity.
Qed.

Lemma midnight_of (t : Z) :
  Z.abs t <= maxTime ->
  Day (t - TimeWithinDay t) = Day t
  /\ Z.abs (t - TimeWithinDay t) <= maxTime
  /\ t - TimeWithinDay t
     = MakeDate (MakeDay (YearFromTime t) (MonthFromTime t) (DateFromTime t))
         0.
Proof.
  intros H. split; [| split].
  - unfold Day, TimeWithinDay, msPerDay. Z.div_mod_to_equations. lia.
  - revert H. unfold TimeWithinDay, maxTime, msPerDay.
    Z.div_mod_to_equations. lia.
  - pose proof (time_of_fields t) as Htf. revert Htf.
    unfold MakeDate. lia.
Qed.

(** The three tests of [occursOn] for a relative entry. *)
Lemma relative_occursOn_true (n : string) (o w m : Z) (s : option string)
  (q : Date) :
  occursOn (RelativeDateEntry n o w m s) q = true ->
  getMonth q = Some (m - 1)
  /\ getDay q = Some w
  /\ exists f,
       getDay (newDate (getFullYear q) (Some (m - 1)) (Some 1)) = Some f
       /\ getDate q = Some (1 + Z.rem (w - f + 7) 7 + (o - 1) * 7).
Proof.
  unfold occursOn.
  destruct (num_eqb (getMonth q) (Some (m - 1))) eqn:EM;
    cbn [negb]; [| discriminate].
  destruct (num_eqb (getDay q) (Some w)) eqn:EW;
    cbn [negb]; [| discriminate].
  apply num_eqb_true in EM, EW.
  destruct (getDay (newDate (getFullYear q) (Some (m - 1)) (Some 1)))
    as [f |]; cbn [num_map].
  - intros H. apply num_eqb_true in H.
    split; [exact EM |]. split; [exact EW |].
    exists f. split; [reflexivity | exact H].
  - destruct (getDate q); discriminate.
Qed.

(** The constructor rebuilds the midnight of a date from its year, month
    and day, for a year it takes as it is. *)
Lemma newDate_of_fields (t : Z) :
  Z.abs t <= maxTime ->
  YearFromTime t < 0 \/ 100 <= YearFromTime t ->
  newDate (Some (YearFromTime t)) (Some (MonthFromTime t))
    (Some (DateFromTime t))
  = mkDate (Some (t - TimeWithinDay t)).
Proof.
  intros Hv Hy.
  destruct (midnight_of t Hv) as (_ & Hvm & Hmid).
  unfold newDate. rewrite fullYear_id by exact Hy.
  rewrite <- Hmid. unfold TimeClip.
  destruct (Z.leb_spec (Z.abs (t - TimeWithinDay t)) maxTime);
    [reflexivity | lia].
Qed.

(** A valid date of a year the constructor takes as it is, on which a
    relative entry occurs, is a day that [getNthWeekdayOfMonth] computes
    for that year. *)
Lemma relative_occursOn_inv (n : string) (o w m : Z) (s : option string)
  (tq : Z) :
  Z.abs tq <= maxTime ->
  YearFromTime tq < 0 \/ 100 <= YearFromTime tq ->
  occursOn (RelativeDateEntry n o w m s) (mkDate (Some tq)) = true ->
  getNthWeekdayOfMonth (Some (YearFromTime tq)) m w o
  = Some (mkDate (Some (tq - TimeWithinDay tq))).
Proof.
  intros Hv Hy Hocc.
  destruct (relative_occursOn_true _ _ _ _ _ _ Hocc)
    as (HM & HW & f & Hf & HD).
  apply some_eq in HM. apply some_eq in HD.
  change (getFullYear (mkDate (Some tq))) with (Some (YearFromTime tq)) in Hf.
  destruct (midnight_of tq Hv) as (Hday & _ & _).
  destruct (fields_of_same_day _ _ Hday) as (_ & HMm & _).
  pose proof (newDate_of_fields tq Hv Hy) as Hnew.
  rewrite HM, HD in Hnew.
  unfold getNthWeekdayOfMonth. rewrite Hf. cbn [num_map].
  replace (1 + (Z.rem (w - f + 7) 7 + (o - 1) * 7))
    with (1 + Z.rem (w - f + 7) 7 + (o - 1) * 7) by lia.
  rewrite Hnew.
  change (getMonth (mkDate (Some (tq - TimeWithinDay tq))))
    with (Some (MonthFromTime (tq - TimeWithinDay tq))).
  rewrite HMm, HM. cbn [num_eqb]. rewrite Z.eqb_refl. reflexivity.
Qed.

(** X25. For a relative entry with occurrence 1..5 and weekday 0..6, and a
    date at midnight, within the range of the [Date] object and of a year
    outside 0..99, [occursOn] holds of the date exactly when
    [getNthWeekdayOfMonth] returns that date for the year of the date: the
    two methods agree. *)
Theorem relative_occursOn_iff_nth (n : string) (o w m : Z)
  (s : option string) (q : Date) (y : Z) :
  1 <= o <= 5 -> 0 <= w <= 6 ->
  atMidnight q -> inDateRange q ->
  yearOf q = Some y -> y < 0 \/ 100 <= y ->
  (occursOn (RelativeDateEntry n o w m s) q = true
   <-> getNthWeekdayOfMonth (Some y) m w o = Some q).
Proof.
  intros Ho Hw (tq & Hq & Hmid) (tq2 & Hq2 & Hv) Hy Hyr.
  destruct q as [tv]. cbn [getTime] in Hq, Hq2. subst tv.
  apply some_eq in Hq2. subst tq2.
  unfold yearOf, getFullYear in Hy. cbn [getTime num_map] in Hy.
  apply some_eq in Hy. subst y.
  split.
  - intros Hocc.
    rewrite (relative_occursOn_inv n o w m s tq Hv Hyr Hocc).
    rewrite Hmid, Z.sub_0_r. reflexivity.
  - intros H. exact (relative_occursOn_nth n s _ _ _ _ _ Ho Hw H).
Qed.

Lemma relative_occursOn_iff_nth_witness :
  1 <= 3 <= 5 /\ 0 <= 1 <= 6
  /\ atMidnight (newDate (Some 2026) (Some 0) (Some 19))
  /\ inDateRange (newDate (Some 2026) (Some 0) (Some 19))
  /\ yearOf (newDate (Some 2026) (Some 0) (Some 19)) = Some 2026
  /\ (2026 < 0 \/ 100 <= 2026)
  /\ (occursOn (RelativeDateEntry "MLK Day" 3 1 1 None)
        (newDate (Some 2026) (Some 0) (Some 19)) = true
      <-> getNthWeekdayOfMonth (Some 2026) 1 1 3
          = Some (newDate (Some 2026) (Some 0) (Some 19))).
Proof.
  assert (Hm : atMidnight (newDate (Some 2026) (Some 0) (Some 19))).
  { exists 1768780800000.
    split; [vm_compute; reflexivity | vm_compute; reflexivity]. }
  assert (Hr : inDateRange (newDate (Some 2026) (Some 0) (Some 19))).
  { exists 1768780800000.
    split; [vm_compute; reflexivity | vm_compute; discriminate]. }
  split; [lia |]. split; [lia |]. split; [exact Hm |]. split; [exact Hr |].
  split; [vm_compute; reflexivity |]. split; [right; lia |].
  apply (relative_occursOn_iff_nth "MLK Day" 3 1 1 None
           (newDate (Some 2026) (Some 0) (Some 19)) 2026);
    [lia | lia | exact Hm | exact Hr | vm_compute; reflexivity | right; lia].
Defined.

Lemma year_lt_time (a b : Z) : YearFromTime a < YearFromTime b -> a < b.
Proof.
  intros H. destruct (Z.lt_ge_cases a b) as [| Hge]; [assumption |].
  pose proof (YearFromTime_mono b a Hge). lia.
Qed.

(** X26. For a relative entry with occurrence 1..5 and weekday 0..6 and a
    range that starts in the year 100 or later, [getOccurrencesInRange]
    returns valid dates in strictly ascending order. *)
Theorem relative_range_ascending (n : string) (o w m : Z)
  (s : option string) (startDate endDate : Date) :
  1 <= o <= 5 -> 0 <= w <= 6 ->
  inYears 100 275760 startDate ->
  StronglySorted dateLt
    (getOccurrencesInRange (RelativeDateEntry n o w m s) startDate endDate).
Proof.
  intros Ho Hw Hy. cbn [getOccurrencesInRange].
  unfold relativeOccurrencesInRange.
  destruct Hy as (y0 & Hy0 & Hy100). unfold yearOf in Hy0.
  assert (Hall : Forall (fun y => 100 <= y)
                   (yearLoop (getFullYear startDate)
                      (getFullYear endDate))).
  { apply Forall_forall. intros y Hin.
    destruct (yearLoop_None _ _ _ Hin) as (a0 & b0 & Ha & Hb).
    rewrite Ha, Hb in Hin. apply yearLoop_In in Hin.
    rewrite Hy0 in Ha. apply some_eq in Ha. lia. }
  pose proof (yearLoop_sorted (getFullYear startDate)
                (getFullYear endDate)) as Hs.
  induction Hs as [| y rest Hs IH Hlt]; cbn [flat_map].
  - constructor.
  - inversion Hall as [| ? ? Hy1 Hrest]; subst.
    specialize (IH Hrest).
    destruct (getNthWeekdayOfMonth (Some y) m w o) as [d |] eqn:E;
      [| exact IH].
    destruct (inRange startDate endDate d); [| exact IH].
    cbn [app]. constructor; [exact IH |].
    apply Forall_forall. intros d2 Hd2. apply in_flat_map in Hd2.
    destruct Hd2 as (y2 & Hy2 & Hd2).
    destruct (getNthWeekdayOfMonth (Some y2) m w o) as [d3 |] eqn:E2;
      [| contradiction].
    destruct (inRange startDate endDate d3); [| contradiction].
    destruct Hd2 as [<- | []].
    rewrite Forall_forall in Hlt, Hrest.
    pose proof (Hlt _ Hy2) as Hlt2. pose proof (Hrest _ Hy2) as H100.
    destruct (nth_weekday_fields _ _ _ _ _ Ho Hw E)
      as (t1 & f1 & Ht1 & _ & _ & HY1 & _).
    destruct (nth_weekday_fields _ _ _ _ _ Ho Hw E2)
      as (t2 & f2 & Ht2 & _ & _ & HY2 & _).
    rewrite fullYear_id in HY1, HY2 by lia.
    exists t1, t2. split; [exact Ht1 |]. split; [exact Ht2 |].
    apply year_lt_time. lia.
Qed.

Lemma relative_range_ascending_witness :
  1 <= 1 <= 5 /\ 0 <= 1 <= 6
  /\ inYears 100 275760 (newDate (Some 2024) (Some 0) (Some 1))
  /\ StronglySorted dateLt
       (getOccurrencesInRange (RelativeDateEntry "Labor Day" 1 1 9 None)
          (newDate (Some 2024) (Some 0) (Some 1))
          (newDate (Some 2026) (Some 11) (Some 31))).
Proof.
  assert (Hy : inYears 100 275760 (newDate (Some 2024) (Some 0) (Some 1))).
  { exists 2024. split; [vm_compute; reflexivity | lia]. }
  split; [lia |]. split; [lia |]. split; [exact Hy |].
  apply relative_range_ascending; [lia | lia | exact Hy].
Defined.

(** X27. For a relative entry with occurrence 1..4, weekday 0..6 and month
    1..12, and a date of the years 100..[maxYear], no midnight on which the
    entry occurs lies strictly between the given date and the date
    [getNextOccurrence] returns. *)
Theorem relative_next_is_earliest (n : string) (o w m : Z)
  (s : option string) (fromDate q : Date) :
  1 <= o <= 4 -> 0 <= w <= 6 -> 1 <= m <= 12 ->
  inYears 100 maxYear fromDate ->
  atMidnight q -> inDateRange q ->
  occursOn (RelativeDateEntry n o w m s) q = true ->
  dateLt fromDate q ->
  dateLe (getNextOccurrence (RelativeDateEntry n o w m s) fromDate) q.
Proof.
  intros Ho Hw Hm Hy (tq & Hq & Hmid) (tq2 & Hq2 & Hv) Hocc
    (t0 & tq0 & Ht0 & Hq0 & Hlt).
  assert (Ho5 : 1 <= o <= 5) by lia.
  destruct (inYears_time _ _ _ Hy) as (t & -> & Ht). unfold maxYear in Ht.
  cbn [getTime] in Ht0. apply some_eq in Ht0. subst t0.
  destruct q as [tv]. cbn [getTime] in Hq, Hq2, Hq0. subst tv.
  apply some_eq in Hq2. apply some_eq in Hq0. subst tq2 tq0.
  pose proof (YearFromTime_mono t tq ltac:(lia)) as Hyear.
  pose proof (relative_occursOn_inv n o w m s tq Hv ltac:(lia) Hocc) as Hnq.
  rewrite Hmid, Z.sub_0_r in Hnq.
  cbn [getNextOccurrence]. unfold nextRelative.
  cbn [getFullYear getTime num_map].
  destruct (nth_weekday_exists (YearFromTime t) m w o) as [d1 E1]; try lia.
  destruct (nth_weekday_exists (YearFromTime t + 1) m w o) as [d2 E2];
    try lia.
  destruct (nth_weekday_fields _ _ _ _ _ Ho5 Hw E1)
    as (t1 & f1 & Ht1 & _ & _ & HY1 & _).
  destruct (nth_weekday_fields _ _ _ _ _ Ho5 Hw E2)
    as (t2 & f2 & Ht2 & _ & _ & HY2 & _).
  rewrite fullYear_id in HY1, HY2 by lia.
  rewrite E1.
  destruct (date_leb d1 (mkDate (Some t))) eqn:Ele.
  - rewrite E2. exists t2, tq. split; [exact Ht2 |].
    split; [reflexivity |].
    unfold date_leb in Ele. rewrite Ht1 in Ele. cbn in Ele.
    apply Z.leb_le in Ele.
    destruct (Z.eq_dec (YearFromTime tq) (YearFromTime t)) as [Ey | Hne].
    + exfalso. rewrite Ey, E1 in Hnq. apply some_eq in Hnq. subst d1.
      cbn [getTime] in Ht1. apply some_eq in Ht1. lia.
    + destruct (Z.eq_dec (YearFromTime tq) (YearFromTime t + 1))
        as [Ey | Hne2].
      * rewrite Ey, E2 in Hnq. apply some_eq in Hnq. subst d2.
        cbn [getTime] in Ht2. apply some_eq in Ht2. lia.
      * apply Z.lt_le_incl. apply year_lt_time. lia.
  - exists t1, tq. split; [exact Ht1 |]. split; [reflexivity |].
    destruct (Z.eq_dec (YearFromTime tq) (YearFromTime t)) as [Ey | Hne].
    + rewrite Ey, E1 in Hnq. apply some_eq in Hnq. subst d1.
      cbn [getTime] in Ht1. apply some_eq in Ht1. lia.
    + apply Z.lt_le_incl. apply year_lt_time. lia.
Qed.

Lemma relative_next_is_earliest_witness :
  1 <= 3 <= 4 /\ 0 <= 1 <= 6 /\ 1 <= 1 <= 12
  /\ inYears 100 maxYear (newDate (Some 2026) (Some 0) (Some 1))
  /\ atMidnight (newDate (Some 2027) (Some 0) (Some 18))
  /\ inDateRange (newDate (Some 2027) (Some 0) (Some 18))
  /\ occursOn (RelativeDateEntry "MLK Day" 3 1 1 None)
       (newDate (Some 2027) (Some 0) (Some 18)) = true
  /\ dateLt (newDate (Some 2026) (Some 0) (Some 1))
       (newDate (Some 2027) (Some 0) (Some 18))
  /\ dateLe (getNextOccurrence (RelativeDateEntry "MLK Day" 3 1 1 None)
               (newDate (Some 2026) (Some 0) (Some 1)))
       (newDate (Some 2027) (Some 0) (Some 18)).
Proof.
  assert (Hy : inYears 100 maxYear (newDate (Some 2026) (Some 0) (Some 1))).
  { exists 2026. split; [vm_compute; reflexivity | unfold maxYear; lia]. }
  assert (Hm : atMidnight (newDate (Some 2027) (Some 0) (Some 18))).
  { exists 1800230400000.
    split; [vm_compute; reflexivity | vm_compute; reflexivity]. }
  assert (Hr : inDateRange (newDate (Some 2027) (Some 0) (Some 18))).
  { exists 1800230400000.
    split; [vm_compute; reflexivity | vm_compute; discriminate]. }
  assert (Ho : occursOn (RelativeDateEntry "MLK Day" 3 1 1 None)
                 (newDate (Some 2027) (Some 0) (Some 18)) = true)
    by (vm_compute; reflexivity).
  assert (Hlt : dateLt (newDate (Some 2026) (Some 0) (Some 1))
                  (newDate (Some 2027) (Some 0) (Some 18))).
  { exists 1767225600000, 1800230400000.
    split; [vm_compute; reflexivity |].
    split; [vm_compute; reflexivity | lia]. }
  split; [lia |]. split; [lia |]. split; [lia |]. split; [exact Hy |].
  split; [exact Hm |]. split; [exact Hr |]. split; [exact Ho |].
  split; [exact Hlt |].
  exact (relative_next_is_earliest "MLK Day" 3 1 1 None _ _
           ltac:(lia) ltac:(lia) ltac:(lia) Hy Hm Hr Ho Hlt).
Defined.

End MohoExtra.
